(** * Stress-detection engine: thresholds, fusion and severity bands

    A shallow embedding of the decision logic of two Python sources:

    - [whatsappfinal.py]: class [IntegratedStressDetector] (continuous
      clip-linear voice levels, weighted voice/motion fusion, five severity
      bands, panic / high-stress trigger);
    - [gemini_chatbot.py], section "mic final.py": the discrete indicator
      detectors [detect_stress] and [analyze_motion_data] and the activity
      rate computation of [stop_motion_tracking].

    Modelling conventions.

    - A Python [float] is an exact rational ([Q]); decimal literals denote
      the rational they spell ([0.4] is [4/10]).  NaN and the infinities are
      not represented.  Numeric results are compared with [==] ([Qeq]).
      Rounding is treated apart: module [rounded] restates the weighted
      sum with an explicit rounding function, among them the rounding of
      double precision, and module [float64] evaluates the fusion and the
      bands on hardware floats.
    - A Python exception is a value: a computation that may raise returns
      an [outcome].  [try ... except Exception] is [try_except].
    - Console output is not modelled.  Calls to the external collaborators
      (location lookup, opening the map) are recorded in a trace. *)

From Stdlib Require Import QArith Qminmax Qround Qpower String Ascii List Bool ZArith.
From Stdlib Require Import Lia Lqa.
From Stdlib Require Import PrimFloat SpecFloat FloatOps.
Import ListNotations.

Set Warnings "-inexact-float".

Local Open Scope Q_scope.

(** ** Python values and control effects *)

Module Py.

(** The comparison operators of Python on floats. *)
Definition lt (x y : Q) : bool := negb (Qle_bool y x).
Definition le (x y : Q) : bool := Qle_bool x y.
Definition gt (x y : Q) : bool := lt y x.
Definition ge (x y : Q) : bool := le y x.

(** Built-in [min(a, b)] and [max(a, b)]: the first argument is kept
    unless the second one is strictly smaller (resp. larger). *)
Definition min (a b : Q) : Q := if lt b a then b else a.
Definition max (a b : Q) : Q := if gt b a then b else a.

(** Exceptions that the modelled code can meet. *)
Inductive exn : Type :=
| ZeroDivisionError
| AttributeError
| KeyError (key : string)
| TypeError
| OtherError (msg : string).

Inductive outcome (A : Type) : Type :=
| Returns (a : A)
| Raises (e : exn).
Arguments Returns {A} a.
Arguments Raises {A} e.

Definition bind {A B : Type} (c : outcome A) (k : A -> outcome B) : outcome B :=
  match c with
  | Returns a => k a
  | Raises e => Raises e
  end.

(** [try: c  except Exception as e: h e] *)
Definition try_except {A : Type} (c : outcome A) (h : exn -> outcome A) : outcome A :=
  match c with
  | Returns a => Returns a
  | Raises e => h e
  end.

(** True division [x / y]; raises [ZeroDivisionError] when [y] is zero. *)
Definition truediv (x y : Q) : outcome Q :=
  if Qeq_bool y 0 then Raises ZeroDivisionError else Returns (x / y).

(** [sum(l)] on a list of floats. *)
Definition sum (l : list Q) : Q := fold_left Qplus l 0.

(** [len(l)] as a float-compatible number. *)
Definition len (l : list Q) : Q := inject_Z (Z.of_nat (List.length l)).

End Py.

Declare Scope py_scope.
Delimit Scope py_scope with py.
Notation "x <? y" := (Py.lt x y) (at level 70, no associativity) : py_scope.
Notation "x <=? y" := (Py.le x y) (at level 70, no associativity) : py_scope.
Notation "x >? y" := (Py.gt x y) (at level 70, no associativity) : py_scope.
Notation "x >=? y" := (Py.ge x y) (at level 70, no associativity) : py_scope.
Notation "x <- c ;; k" := (Py.bind c (fun x => k))
  (at level 61, c at next level, right associativity) : py_scope.
Local Open Scope string_scope.
Local Open Scope list_scope.
Local Open Scope Q_scope.
Local Open Scope py_scope.

(** ** [whatsappfinal.py]: [IntegratedStressDetector] *)

Module whatsappfinal.

(** The dictionary returned by the location collaborator is opaque to the
    detector; only its truthiness is inspected. *)
Record location : Type := mk_location {
  city : string;
  region : string;
  country : string;
  loc : string
}.

(** [self.results] *)
Record results : Type := mk_results {
  audio_stress_detected : bool;
  motion_stress_detected : bool;
  audio_stress_level : Q;
  motion_stress_level : Q;
  combined_stress_level : Q;
  panic_detected : bool;
  location_data : option location
}.

(** The attributes of a detector instance that the analysis reads.
    [motion_detector_stress_threshold] is the [stress_threshold] handed
    to the [CameraMotionDetector] constructor. *)
Record IntegratedStressDetector : Type := mk_detector {
  motion_detector_stress_threshold : Q;
  self_results : results;
  panic_threshold : Q;
  high_stress_threshold : Q
}.

(** [__init__] *)
Definition init : IntegratedStressDetector :=
  {| motion_detector_stress_threshold := 0.5;
     self_results :=
       {| audio_stress_detected := false;
          motion_stress_detected := false;
          audio_stress_level := 0.0;
          motion_stress_level := 0.0;
          combined_stress_level := 0.0;
          panic_detected := false;
          location_data := None |};
     panic_threshold := 0.7;
     high_stress_threshold := 0.5 |}.

(** The dictionary produced by feature extraction. *)
Record features : Type := mk_features {
  pitch_mean : Q;
  energy_mean : Q;
  zcr_mean : Q;
  spectral_centroid_mean : Q
}.

(** What the detector observes of its collaborators during one run.
    [extract_features] is the outcome of evaluating
    [self.extract_features(audio_data, sample_rate)]: the class body
    defines no such method, so as the file stands the attribute lookup
    gives [Raises AttributeError]; [Returns None] and [Returns (Some f)]
    are the results of an extractor bound to the instance.
    [analyze_stress] is the level returned by the camera motion
    detector and [get_location_by_geocoder] the result of the location
    lookup.  What [open_google_maps] returns only selects a console
    message, so the call is recorded and its result is not. *)
Record collaborators : Type := mk_collaborators {
  extract_features : Py.outcome (option features);
  analyze_stress : Q;
  get_location_by_geocoder : option location
}.

(** Calls that leave the analysis, in program order. *)
Inductive call : Type :=
| Handle_stress_detection (is_panic : bool)
| Get_location_by_geocoder
| Open_google_maps (l : location).

(** The five-way conditional expression that names a level.  It is
    written out twice in the class, in [analyze_combined_stress] and in
    [detect_stress]; this is the expression on its own. *)
Definition description_of (level : Q) : string :=
  if level <? 0.3 then "Calm"
  else if level <? 0.5 then "Mild Stress"
  else if level <? 0.7 then "Moderate Stress"
  else if level <? 0.9 then "High Stress"
  else "Panic".

(** [analyze_combined_stress]; returns
    [(is_panic, is_high_stress, combined_level, description)]. *)
Definition analyze_combined_stress (self : IntegratedStressDetector)
    (audio_stress_detected : bool)
    (audio_stress_level motion_stress_level : Q)
  : bool * bool * Q * string :=
  let combined_level :=
    (audio_stress_level * 0.4) + (motion_stress_level * 0.6) in
  let is_panic := combined_level >=? panic_threshold self in
  let is_high_stress := combined_level >=? high_stress_threshold self in
  let description :=
    if combined_level <? 0.3 then "Calm"
    else if combined_level <? 0.5 then "Mild Stress"
    else if combined_level <? 0.7 then "Moderate Stress"
    else if combined_level <? 0.9 then "High Stress"
    else "Panic" in
  (is_panic, is_high_stress, combined_level, description).

(** The body of [detect_stress] between the feature dump and the
    average: the list [stress_levels] after its four [append]s. *)
Definition stress_levels (features : features) : Py.outcome (list Q) :=
  let stress_levels := [] in
  x <- Py.truediv (pitch_mean features - 130) 50 ;;
  let pitch_stress := Py.min 1.0 (Py.max 0.0 x) in
  let stress_levels := stress_levels ++ [pitch_stress] in
  x <- Py.truediv (energy_mean features - 0.5) 0.5 ;;
  let energy_stress := Py.min 1.0 (Py.max 0.0 x) in
  let stress_levels := stress_levels ++ [energy_stress] in
  x <- Py.truediv (zcr_mean features - 0.08) 0.12 ;;
  let zcr_stress := Py.min 1.0 (Py.max 0.0 x) in
  let stress_levels := stress_levels ++ [zcr_stress] in
  x <- Py.truediv (spectral_centroid_mean features - 1800) 700 ;;
  let spectral_stress := Py.min 1.0 (Py.max 0.0 x) in
  let stress_levels := stress_levels ++ [spectral_stress] in
  Py.Returns stress_levels.

(** [detect_stress]; returns [(is_stressed, stress_level, description)]. *)
Definition detect_stress (w : collaborators) : Py.outcome (bool * Q * string) :=
  Py.try_except
    (features <- extract_features w ;;
     match features with
     | None => Py.Returns (false, 0.0, "No audio features detected")
     | Some features =>
         stress_levels <- stress_levels features ;;
         overall_stress <- Py.truediv (Py.sum stress_levels) (Py.len stress_levels) ;;
         let is_stressed := overall_stress >? 0.3 in
         let description :=
           if overall_stress <? 0.3 then "Calm"
           else if overall_stress <? 0.5 then "Mild Stress"
           else if overall_stress <? 0.7 then "Moderate Stress"
           else if overall_stress <? 0.9 then "High Stress"
           else "Panic" in
         Py.Returns (is_stressed, overall_stress, description)
     end)
    (fun e => Py.Returns (false, 0.0, "Error in stress detection")).

(** Components of the tuple returned by [analyze_combined_stress]. *)
Definition is_panic_of (t : bool * bool * Q * string) : bool := fst (fst (fst t)).
Definition is_high_stress_of (t : bool * bool * Q * string) : bool := snd (fst (fst t)).
Definition combined_level_of (t : bool * bool * Q * string) : Q := snd (fst t).
Definition description_in (t : bool * bool * Q * string) : string := snd t.

Definition set_location_data (r : results) (l : option location) : results :=
  {| audio_stress_detected := audio_stress_detected r;
     motion_stress_detected := motion_stress_detected r;
     audio_stress_level := audio_stress_level r;
     motion_stress_level := motion_stress_level r;
     combined_stress_level := combined_stress_level r;
     panic_detected := panic_detected r;
     location_data := l |}.

Definition set_results (self : IntegratedStressDetector) (r : results)
  : IntegratedStressDetector :=
  {| motion_detector_stress_threshold := motion_detector_stress_threshold self;
     self_results := r;
     panic_threshold := panic_threshold self;
     high_stress_threshold := high_stress_threshold self |}.

(** [_handle_stress_detection]: look the location up, store it, and open
    the map when the lookup gave something. *)
Definition _handle_stress_detection (self : IntegratedStressDetector)
    (w : collaborators) (is_panic : bool)
  : IntegratedStressDetector * list call :=
  let location_data := get_location_by_geocoder w in
  let self := set_results self (set_location_data (self_results self) location_data) in
  match location_data with
  | Some l => (self, [Get_location_by_geocoder; Open_google_maps l])
  | None => (self, [Get_location_by_geocoder])
  end.

(** [run_detection], from "Get and analyze results" on: the two capture
    windows are closed, their analyses are combined, the results are
    stored and the action is decided.  Returns the detector (whose
    [self_results] is the returned dictionary) and the calls made. *)
Definition run_detection (self : IntegratedStressDetector) (w : collaborators)
  : Py.outcome (IntegratedStressDetector * list call) :=
  r <- detect_stress w ;;
  let '(audio_stress_detected, audio_stress_level, audio_description) := r in
  let motion_stress_level := analyze_stress w in
  let '(is_panic, is_high_stress, combined_level, combined_description) :=
    analyze_combined_stress self audio_stress_detected
      audio_stress_level motion_stress_level in
  let self := set_results self
    {| audio_stress_detected := audio_stress_detected;
       motion_stress_detected :=
         motion_stress_level >? motion_detector_stress_threshold self;
       audio_stress_level := audio_stress_level;
       motion_stress_level := motion_stress_level;
       combined_stress_level := combined_level;
       panic_detected := is_panic;
       location_data := location_data (self_results self) |} in
  if is_panic then
    let '(self, calls) := _handle_stress_detection self w true in
    Py.Returns (self, Handle_stress_detection true :: calls)
  else if is_high_stress then
    let '(self, calls) := _handle_stress_detection self w false in
    Py.Returns (self, Handle_stress_detection false :: calls)
  else
    Py.Returns (self, []).

End whatsappfinal.

(** ** [gemini_chatbot.py], section "mic final.py" *)

Module mic_final.

(** The dictionary built by [extract_features]. *)
Record features : Type := mk_features {
  pitch_mean : Q;
  energy_mean : Q;
  zcr_mean : Q;
  spectral_centroid_mean : Q
}.

(** [extract_features]: the descriptors are computed by the audio
    library ([computed] is the outcome of that computation); any
    exception is caught and turned into [None]. *)
Definition extract_features (computed : Py.outcome features) : option features :=
  match computed with
  | Py.Returns features => Some features
  | Py.Raises e => None
  end.

(** The counter [stress_indicators] of [detect_stress] after its four
    tests. *)
Definition stress_indicators (features : features) : nat :=
  let stress_indicators := 0%nat in
  let stress_indicators :=
    if pitch_mean features >? 150
    then (stress_indicators + 1)%nat else stress_indicators in
  let stress_indicators :=
    if energy_mean features >? 0.7
    then (stress_indicators + 1)%nat else stress_indicators in
  let stress_indicators :=
    if zcr_mean features >? 0.1
    then (stress_indicators + 1)%nat else stress_indicators in
  let stress_indicators :=
    if spectral_centroid_mean features >? 2000
    then (stress_indicators + 1)%nat else stress_indicators in
  stress_indicators.

(** [detect_stress] *)
Definition detect_stress (computed : Py.outcome features) : Py.outcome bool :=
  Py.try_except
    (let features := extract_features computed in
     match features with
     | None => Py.Returns false
     | Some features =>
         let stress_indicators := stress_indicators features in
         let is_stressed := (2 <=? stress_indicators)%nat in
         Py.Returns is_stressed
     end)
    (fun e => Py.Returns false).

(** The global dictionary [motion_data].  The three rate keys are absent
    until [stop_motion_tracking] stores them; times are seconds. *)
Record motion_data : Type := mk_motion_data {
  mouse_movements : Z;
  mouse_clicks : Z;
  key_presses : Z;
  start_time : option Q;
  end_time : option Q;
  mouse_movement_rate : option Q;
  mouse_click_rate : option Q;
  key_press_rate : option Q
}.

(** The module-level initial value. *)
Definition motion_data_initial : motion_data :=
  {| mouse_movements := 0; mouse_clicks := 0; key_presses := 0;
     start_time := None; end_time := None;
     mouse_movement_rate := None; mouse_click_rate := None;
     key_press_rate := None |}.

(** [start_motion_tracking]: a fresh dictionary stamped with
    [datetime.now()]. *)
Definition start_motion_tracking (now : Q) : motion_data :=
  {| mouse_movements := 0; mouse_clicks := 0; key_presses := 0;
     start_time := Some now; end_time := None;
     mouse_movement_rate := None; mouse_click_rate := None;
     key_press_rate := None |}.

Definition track_mouse_movement (d : motion_data) : motion_data :=
  {| mouse_movements := mouse_movements d + 1;
     mouse_clicks := mouse_clicks d;
     key_presses := key_presses d;
     start_time := start_time d; end_time := end_time d;
     mouse_movement_rate := mouse_movement_rate d;
     mouse_click_rate := mouse_click_rate d;
     key_press_rate := key_press_rate d |}.

Definition track_mouse_click (pressed : bool) (d : motion_data) : motion_data :=
  if pressed then
    {| mouse_movements := mouse_movements d;
       mouse_clicks := mouse_clicks d + 1;
       key_presses := key_presses d;
       start_time := start_time d; end_time := end_time d;
       mouse_movement_rate := mouse_movement_rate d;
       mouse_click_rate := mouse_click_rate d;
       key_press_rate := key_press_rate d |}
  else d.

Definition track_key_press (d : motion_data) : motion_data :=
  {| mouse_movements := mouse_movements d;
     mouse_clicks := mouse_clicks d;
     key_presses := key_presses d + 1;
     start_time := start_time d; end_time := end_time d;
     mouse_movement_rate := mouse_movement_rate d;
     mouse_click_rate := mouse_click_rate d;
     key_press_rate := key_press_rate d |}.

(** What the listeners deliver while a window is open. *)
Inductive input_event : Type :=
| On_move
| On_click (pressed : bool)
| On_press.

Definition track (d : motion_data) (ev : input_event) : motion_data :=
  match ev with
  | On_move => track_mouse_movement d
  | On_click pressed => track_mouse_click pressed d
  | On_press => track_key_press d
  end.

(** [end_time - start_time] followed by [.total_seconds()]. *)
Definition total_seconds (end_time start_time : option Q) : Py.outcome Q :=
  match end_time, start_time with
  | Some e, Some s => Py.Returns (e - s)
  | _, _ => Py.Raises Py.TypeError
  end.

(** [stop_motion_tracking]; [now] is the value of [datetime.now()]. *)
Definition stop_motion_tracking (d : motion_data) (now : Q) : Py.outcome motion_data :=
  let end_time := Some now in
  duration <- total_seconds end_time (start_time d) ;;
  mouse_movement_rate <-
    (if duration >? 0 then Py.truediv (inject_Z (mouse_movements d)) duration
     else Py.Returns 0) ;;
  mouse_click_rate <-
    (if duration >? 0 then Py.truediv (inject_Z (mouse_clicks d)) duration
     else Py.Returns 0) ;;
  key_press_rate <-
    (if duration >? 0 then Py.truediv (inject_Z (key_presses d)) duration
     else Py.Returns 0) ;;
  Py.Returns
    {| mouse_movements := mouse_movements d;
       mouse_clicks := mouse_clicks d;
       key_presses := key_presses d;
       start_time := start_time d; end_time := end_time;
       mouse_movement_rate := Some mouse_movement_rate;
       mouse_click_rate := Some mouse_click_rate;
       key_press_rate := Some key_press_rate |}.

(** Dictionary lookup of a rate key. *)
Definition getitem (key : string) (v : option Q) : Py.outcome Q :=
  match v with
  | Some x => Py.Returns x
  | None => Py.Raises (Py.KeyError key)
  end.

(** The counter [stress_indicators] of [analyze_motion_data] after its
    three tests. *)
Definition motion_stress_indicators (motion_data : motion_data) : Py.outcome nat :=
  let high_movement_threshold := 10 in
  let high_click_threshold := 2 in
  let high_keypress_threshold := 5 in
  let stress_indicators := 0%nat in
  r <- getitem "mouse_movement_rate" (mouse_movement_rate motion_data) ;;
  let stress_indicators :=
    if r >? high_movement_threshold
    then (stress_indicators + 1)%nat else stress_indicators in
  r <- getitem "mouse_click_rate" (mouse_click_rate motion_data) ;;
  let stress_indicators :=
    if r >? high_click_threshold
    then (stress_indicators + 1)%nat else stress_indicators in
  r <- getitem "key_press_rate" (key_press_rate motion_data) ;;
  let stress_indicators :=
    if r >? high_keypress_threshold
    then (stress_indicators + 1)%nat else stress_indicators in
  Py.Returns stress_indicators.

(** [analyze_motion_data] *)
Definition analyze_motion_data (motion_data : motion_data) : Py.outcome bool :=
  stress_indicators <- motion_stress_indicators motion_data ;;
  let is_stressed := (1 <=? stress_indicators)%nat in
  Py.Returns is_stressed.

End mic_final.

(** ** The fusion under rounded arithmetic

    In IEEE arithmetic an operation returns the rounding of its exact
    result.  The weighted sum is restated here with every literal and every
    operation passed through a rounding function [rnd]; [binary64] is the
    rounding of double precision (53-bit significand, quantum at least
    2^-1074, ties to even; overflow is not represented). *)

Module rounded.

Definition monotone (rnd : Q -> Q) : Prop :=
  forall x y : Q, 0 <= x -> x <= y -> rnd x <= rnd y.

Definition idempotent (rnd : Q -> Q) : Prop :=
  forall x : Q, 0 <= x -> rnd (rnd x) == rnd x.

(** [(audio_stress_level * 0.4) + (motion_stress_level * 0.6)] *)
Definition combined_level (rnd : Q -> Q)
    (audio_stress_level motion_stress_level : Q) : Q :=
  rnd (rnd (audio_stress_level * rnd 0.4) + rnd (motion_stress_level * rnd 0.6)).

(** The exponent [e] with [2^e <= x < 2^(e+1)], for positive [x]. *)
Definition binade (x : Q) : Z :=
  let k := (Z.log2 (Qnum x) - Z.log2 (Zpos (Qden x)))%Z in
  if Qle_bool (2 ^ k) x then k else (k - 1)%Z.

(** The exponent of the unit in the last place of a double near [x]. *)
Definition quantum (x : Q) : Z := Z.max (binade x - 52) (-1074).

(** Nearest integer, ties to the even one. *)
Definition round_half_even (m : Q) : Z :=
  let f := Qfloor m in
  match Qcompare (m - inject_Z f) (1 # 2) with
  | Lt => f
  | Gt => (f + 1)%Z
  | Eq => if Z.even f then f else (f + 1)%Z
  end.

Definition nearest_even (x : Q) : Q :=
  inject_Z (round_half_even (x / 2 ^ quantum x)) * 2 ^ quantum x.

Definition binary64 (x : Q) : Q :=
  match Qcompare x 0 with
  | Eq => 0
  | Gt => nearest_even x
  | Lt => - nearest_even (- x)
  end.

End rounded.

(** ** The fusion and the bands on hardware floats

    The same two expressions on primitive floats, for evaluation at the
    numbers that the statements name. *)

Module float64.

Definition combined_level (audio_stress_level motion_stress_level : float) : float :=
  ((audio_stress_level * 0.4) + (motion_stress_level * 0.6))%float.

Definition description_of (level : float) : string :=
  if (level <? 0.3)%float then "Calm"
  else if (level <? 0.5)%float then "Mild Stress"
  else if (level <? 0.7)%float then "Moderate Stress"
  else if (level <? 0.9)%float then "High Stress"
  else "Panic".

(** The rational that a finite float stands for. *)
Definition value (f : float) : Q :=
  match Prim2SF f with
  | S754_finite s m e =>
      (if s then - inject_Z (Zpos m) else inject_Z (Zpos m)) * 2 ^ e
  | _ => 0
  end.

End float64.

(** ** Python strings, dictionaries and recorded effects *)

Module PyStr.

(** [s.split(sep)] for a one-character separator: the pieces between the
    separators, at least one piece. *)
Fixpoint split (sep : ascii) (s : string) : list string :=
  match s with
  | EmptyString => [EmptyString]
  | String c rest =>
      if Ascii.eqb c sep then EmptyString :: split sep rest
      else match split sep rest with
           | piece :: pieces => String c piece :: pieces
           | [] => [String c EmptyString]
           end
  end.

(** [sep.join(pieces)] *)
Fixpoint join (sep : string) (pieces : list string) : string :=
  match pieces with
  | [] => EmptyString
  | [piece] => piece
  | piece :: rest => piece ++ sep ++ join sep rest
  end.

(** [c in s] for a character [c]. *)
Fixpoint contains (c : ascii) (s : string) : bool :=
  match s with
  | EmptyString => false
  | String c' rest => Ascii.eqb c' c || contains c rest
  end.

(** Number of occurrences of a character. *)
Fixpoint count (c : ascii) (s : string) : nat :=
  match s with
  | EmptyString => 0%nat
  | String c' rest => ((if Ascii.eqb c' c then 1 else 0) + count c rest)%nat
  end.

(** [a, b = pieces]: exactly two values, [ValueError] otherwise. *)
Definition unpack2 (pieces : list string) : Py.outcome (string * string) :=
  match pieces with
  | [a; b] => Py.Returns (a, b)
  | _ => Py.Raises (Py.OtherError "ValueError")
  end.

(** [s.lower()] on ASCII text. *)
Definition lower_char (c : ascii) : ascii :=
  let n := nat_of_ascii c in
  if ((65 <=? n) && (n <=? 90))%nat then ascii_of_nat (n + 32) else c.

Fixpoint lower (s : string) : string :=
  match s with
  | EmptyString => EmptyString
  | String c rest => String (lower_char c) (lower rest)
  end.

(** The ASCII characters that [str.strip] removes. *)
Definition is_space (c : ascii) : bool :=
  let n := nat_of_ascii c in
  (((9 <=? n) && (n <=? 13)) || ((28 <=? n) && (n <=? 32)))%nat.

Fixpoint lstrip (s : string) : string :=
  match s with
  | EmptyString => EmptyString
  | String c rest => if is_space c then lstrip rest else s
  end.

Fixpoint rstrip (s : string) : string :=
  match s with
  | EmptyString => EmptyString
  | String c rest =>
      match rstrip rest with
      | EmptyString => if is_space c then EmptyString else String c EmptyString
      | kept => String c kept
      end
  end.

(** [s.strip()] on ASCII text. *)
Definition strip (s : string) : string := rstrip (lstrip s).

(** [x in words] *)
Definition member (x : string) (words : list string) : bool :=
  existsb (String.eqb x) words.

End PyStr.

Module PyDict.

(** A dictionary with string keys and string values, in insertion order. *)
Abbreviation dict := (list (string * string)) (only parsing).

Fixpoint lookup (d : dict) (key : string) : option string :=
  match d with
  | [] => None
  | (k, v) :: rest => if String.eqb k key then Some v else lookup rest key
  end.

(** [d[key]] *)
Definition getitem (d : dict) (key : string) : Py.outcome string :=
  match lookup d key with
  | Some v => Py.Returns v
  | None => Py.Raises (Py.KeyError key)
  end.

(** [d.get(key, default)] *)
Definition get (d : dict) (key default : string) : string :=
  match lookup d key with
  | Some v => v
  | None => default
  end.

(** [list(d.keys())] *)
Definition keys (d : dict) : list string := map fst d.

(** Truth value of an optional dictionary: [None] and [{}] are false. *)
Definition truthy (d : option dict) : bool :=
  match d with
  | Some (_ :: _) => true
  | _ => false
  end.

End PyDict.

(** Computations that call out: the calls made so far, in order, and the
    outcome.  A raised exception keeps the calls made before it. *)
Module IO.

Inductive call : Type :=
| Http_get (url : string)
| Browser_open (url : string)
| Send_message (text : string)
| Show (text : string)
| Start_listeners
| Stop_listeners.

Definition io (A : Type) : Type := list call * Py.outcome A.

Definition ret {A : Type} (a : A) : io A := ([], Py.Returns a).

Definition lift {A : Type} (o : Py.outcome A) : io A := ([], o).

Definition emit (c : call) : io unit := ([c], Py.Returns tt).

Definition bind {A B : Type} (m : io A) (k : A -> io B) : io B :=
  match m with
  | (t, Py.Returns a) => let '(t', r) := k a in (t ++ t', r)
  | (t, Py.Raises e) => (t, Py.Raises e)
  end.

(** [try: m  except Exception as e: h e] *)
Definition try_except {A : Type} (m : io A) (h : Py.exn -> io A) : io A :=
  match m with
  | (t, Py.Returns a) => (t, Py.Returns a)
  | (t, Py.Raises e) => let '(t', r) := h e in (t ++ t', r)
  end.

Definition calls {A : Type} (m : io A) : list call := fst m.
Definition result {A : Type} (m : io A) : Py.outcome A := snd m.

End IO.

Notation "x <~ c ;; k" := (IO.bind c (fun x => k))
  (at level 61, c at next level, right associativity) : py_scope.
Notation "c ;;; k" := (IO.bind c (fun _ => k))
  (at level 61, right associativity) : py_scope.

(** ** [gemini_chatbot.py], section "mic final.py": location and map *)

Module location.

Import PyDict.

(** One entry of ["address_components"] in a geocoding answer. *)
Record component : Type := mk_component {
  types : list string;
  long_name : string
}.

(** The part of a geocoding answer that is read: ["status"] and the
    ["address_components"] of each entry of ["results"]. *)
Record geocoding : Type := mk_geocoding {
  status : string;
  results : list (list component)
}.

(** The attributes read from the object returned by [geocoder.ip('me')];
    [g_lat] and [g_lng] are the texts that an f-string prints for [g.lat]
    and [g.lng]. *)
Record geocoder_answer : Type := mk_geocoder_answer {
  g_ok : bool;
  g_lat : string;
  g_lng : string;
  g_city : string;
  g_state : string;
  g_country : string;
  g_ip : string
}.

(** What the outside world answers during one call.  Each field is the
    outcome of the named expression; a missing key or a malformed answer
    is an exception of that expression.  JSON values are strings. *)
Record world : Type := mk_world {
  (** [requests.get('https://ipinfo.io/json').json()] *)
  ipinfo : Py.outcome dict;
  (** [requests.get(geocoding_url).json()], reduced to the part read *)
  geocode : Py.outcome geocoding;
  (** [import geocoder] (installing it when missing) and [geocoder.ip('me')] *)
  geocoder_ip : Py.outcome geocoder_answer;
  (** [webbrowser.open(url)] *)
  webbrowser_open : string -> Py.outcome unit;
  (** the text that an f-string prints for a float *)
  format_float : Q -> string;
  (** [float(text)] *)
  float_of : string -> Py.outcome Q;
  (** writing [get_location.html] and [os.path.abspath] of it *)
  write_page : Py.outcome string;
  (** the first [input(...)] of [get_location_by_google_maps] *)
  typed : Py.outcome string;
  (** [import pyperclip] and [pyperclip.paste()] *)
  clipboard : Py.outcome string;
  (** the second [input(...)], asked when [pyperclip] is missing *)
  typed_again : Py.outcome string;
  (** [platform.system()] *)
  platform_system : string;
  (** [import gpsd], [gpsd.connect()] and the position of
      [gpsd.get_current()] *)
  gpsd_position : Py.outcome (Q * Q);
  (** [subprocess.run(['osascript', ...])]: return code and output *)
  osascript : Py.outcome (Z * string)
}.

Definition ImportError : Py.exn := Py.OtherError "ImportError".
Definition IndexError : Py.exn := Py.OtherError "IndexError".

(** [except ImportError] matches this exception only. *)
Definition is_import_error (e : Py.exn) : bool :=
  match e with
  | Py.OtherError msg => String.eqb msg "ImportError"
  | _ => false
  end.

(** [get_location_by_ip] *)
Definition get_location_by_ip (w : world) : IO.io (option dict) :=
  IO.try_except
    (IO.emit (IO.Http_get "https://ipinfo.io/json") ;;;
     data <~ IO.lift (ipinfo w) ;;
     let ip := get data "ip" "N/A" in
     let city := get data "city" "N/A" in
     let region := get data "region" "N/A" in
     let country := get data "country" "N/A" in
     let loc := get data "loc" "N/A" in
     let org := get data "org" "N/A" in
     let timezone := get data "timezone" "N/A" in
     IO.ret (Some [("city", city); ("region", region); ("country", country);
                   ("loc", loc); ("ip", ip); ("org", org);
                   ("timezone", timezone)]))
    (fun e => IO.ret None).

(** [get_location_by_geocoder] *)
Definition get_location_by_geocoder (w : world) : IO.io (option dict) :=
  IO.try_except
    (g <~ IO.lift (geocoder_ip w) ;;
     if g_ok g then
       let lat := g_lat g in
       let lng := g_lng g in
       let city := g_city g in
       let state := g_state g in
       let country := g_country g in
       IO.ret (Some [("city", city); ("region", state); ("country", country);
                     ("loc", (lat ++ "," ++ lng)%string); ("ip", g_ip g);
                     ("org", "N/A"); ("timezone", "N/A")])
     else get_location_by_ip w)
    (fun e => get_location_by_ip w).

(** One turn of the loop over the address components. *)
Definition scan_component (acc : string * string * string) (component : component)
  : string * string * string :=
  let '(city, region, country) := acc in
  let types := types component in
  if PyStr.member "locality" types
     || PyStr.member "administrative_area_level_2" types
  then (long_name component, region, country)
  else if PyStr.member "administrative_area_level_1" types
  then (city, long_name component, country)
  else if PyStr.member "country" types
  then (city, region, long_name component)
  else (city, region, country).

(** [get_address_from_coordinates]; [key] is [GOOGLE_MAPS_API_KEY]. *)
Definition get_address_from_coordinates (key : string) (w : world) (lat lng : Q)
  : IO.io (option dict) :=
  IO.try_except
    (let geocoding_url :=
       ("https://maps.googleapis.com/maps/api/geocode/json?latlng="
        ++ format_float w lat ++ "," ++ format_float w lng ++ "&key=" ++ key)%string in
     IO.emit (IO.Http_get geocoding_url) ;;;
     data <~ IO.lift (geocode w) ;;
     if negb (String.eqb (status data) "OK") then get_location_by_ip w
     else
       address_components <~
         IO.lift (match results data with
                  | first :: _ => Py.Returns first
                  | [] => Py.Raises IndexError
                  end) ;;
       let '(city, region, country) :=
         fold_left scan_component address_components ("N/A", "N/A", "N/A") in
       let location_data :=
         [("city", city); ("region", region); ("country", country);
          ("loc", (format_float w lat ++ "," ++ format_float w lng)%string);
          ("ip", "N/A"); ("org", "N/A"); ("timezone", "N/A")] in
       IO.ret (Some location_data))
    (fun e => get_location_by_ip w).

(** [get_location_by_google_maps] *)
Definition get_location_by_google_maps (key : string) (w : world)
  : IO.io (option dict) :=
  IO.try_except
    (path <~ IO.lift (write_page w) ;;
     IO.emit (IO.Browser_open ("file://" ++ path)%string) ;;;
     IO.lift (webbrowser_open w ("file://" ++ path)%string) ;;;
     coordinates <~ IO.lift (typed w) ;;
     coordinates <~
       (if String.eqb coordinates "" then
          match clipboard w with
          | Py.Returns pasted => IO.ret pasted
          | Py.Raises e =>
              if is_import_error e then IO.lift (typed_again w)
              else IO.lift (Py.Raises e)
          end
        else IO.ret coordinates) ;;
     if String.eqb coordinates "" || negb (PyStr.contains ","%char coordinates)
     then get_location_by_ip w
     else
       pair <~ IO.lift (PyStr.unpack2 (PyStr.split ","%char coordinates)) ;;
       let '(lat, lng) := pair in
       lat <~ IO.lift (float_of w (PyStr.strip lat)) ;;
       lng <~ IO.lift (float_of w (PyStr.strip lng)) ;;
       get_address_from_coordinates key w lat lng)
    (fun e => get_location_by_ip w).

(** The macOS branch of [get_gps_location], up to its fall-back: the
    address when the helper answered with two numbers, nothing
    otherwise. *)
Definition core_location (key : string) (w : world) : IO.io (option (option dict)) :=
  IO.try_except
    (answer <~ IO.lift (osascript w) ;;
     let '(returncode, stdout) := answer in
     if (returncode =? 0)%Z then
       let location_data := PyStr.split ","%char (PyStr.strip stdout) in
       match location_data with
       | first :: second :: _ =>
           lat <~ IO.lift (float_of w first) ;;
           lng <~ IO.lift (float_of w second) ;;
           found <~ get_address_from_coordinates key w lat lng ;;
           IO.ret (Some found)
       | _ => IO.ret None
       end
     else IO.ret None)
    (fun e => IO.ret None).

(** [get_gps_location] *)
Definition get_gps_location (key : string) (w : world) : IO.io (option dict) :=
  IO.try_except
    (if String.eqb (platform_system w) "Windows" then
       get_location_by_google_maps key w
     else if String.eqb (platform_system w) "Linux" then
       match gpsd_position w with
       | Py.Returns (lat, lng) => get_address_from_coordinates key w lat lng
       | Py.Raises e =>
           if is_import_error e then get_location_by_google_maps key w
           else IO.lift (Py.Raises e)
       end
     else if String.eqb (platform_system w) "Darwin" then
       found <~ core_location key w ;;
       match found with
       | Some location_data => IO.ret location_data
       | None => get_location_by_google_maps key w
       end
     else get_location_by_google_maps key w)
    (fun e => get_location_by_ip w).

(** [open_google_maps] *)
Definition open_google_maps (key : string) (w : world) (location_data : option dict)
  : IO.io bool :=
  match location_data with
  | None | Some [] => IO.ret false
  | Some d =>
      loc <~ IO.lift (getitem d "loc") ;;
      if String.eqb loc "" then IO.ret false
      else
        IO.try_except
          (loc <~ IO.lift (getitem d "loc") ;;
           pair <~ IO.lift (PyStr.unpack2 (PyStr.split ","%char loc)) ;;
           let '(lat, lng) := pair in
           let maps_url :=
             ("https://www.google.com/maps/search/?api=1&query="
              ++ lat ++ "," ++ lng ++ "&key=" ++ key ++ "&zoom=15")%string in
           city <~ IO.lift (getitem d "city") ;;
           region <~ IO.lift (getitem d "region") ;;
           country <~ IO.lift (getitem d "country") ;;
           IO.emit (IO.Browser_open maps_url) ;;;
           IO.lift (webbrowser_open w maps_url) ;;;
           IO.ret true)
          (fun e => IO.ret false)
  end.

End location.

(** ** [gemini_chatbot.py], first section: the chat loop *)

Module chatbot.

Definition EOFError : Py.exn := Py.OtherError "EOFError".

(** The loop of [chat_with_gemini] on the lines that [input] will return,
    read as ASCII text; when they run out [input] raises [EOFError].
    [respond history text] is the outcome of [chat.send_message(text)]
    after the texts of [history] were sent. *)
Fixpoint chat_loop (respond : list string -> string -> Py.outcome string)
    (history lines : list string) : IO.io unit :=
  match lines with
  | [] => IO.lift (Py.Raises EOFError)
  | line :: lines =>
      let user_input := PyStr.strip line in
      if PyStr.member (PyStr.lower user_input) ["quit"; "exit"; "bye"]
      then IO.ret tt
      else
        IO.try_except
          (IO.emit (IO.Send_message user_input) ;;;
           response <~ IO.lift (respond history user_input) ;;
           IO.emit (IO.Show response))
          (fun e => IO.ret tt) ;;;
        chat_loop respond (history ++ [user_input]) lines
  end.

(** [chat_with_gemini] *)
Definition chat_with_gemini (respond : list string -> string -> Py.outcome string)
    (lines : list string) : IO.io unit :=
  chat_loop respond [] lines.

(** The texts handed to [send_message], in order. *)
Fixpoint sent (calls : list IO.call) : list string :=
  match calls with
  | [] => []
  | IO.Send_message text :: calls => text :: sent calls
  | _ :: calls => sent calls
  end.

End chatbot.

(** ** [gemini_chatbot.py], section "mic final.py": [main] *)

Module mic_final_main.

Import mic_final.

(** What happens outside during one turn of the loop of [main]. *)
Record round : Type := mk_round {
  (** [datetime.now()] in [start_motion_tracking] *)
  started : Q;
  (** [record_audio(duration=5)] *)
  record_audio : Py.outcome unit;
  (** the events that the listeners deliver before they are stopped *)
  events : list input_event;
  (** [datetime.now()] in [stop_motion_tracking] *)
  stopped : Q;
  (** [save_audio(audio_data, sample_rate)] *)
  save_audio : Py.outcome unit;
  (** the descriptors computed inside [extract_features] *)
  computed : Py.outcome features;
  (** the answers to the location lookup and the browser *)
  outside : location.world;
  (** [input("Do you want to record another sample? (y/n): ")] *)
  choice : Py.outcome string
}.

(** The body of the [while True] loop; [true] when the loop goes on,
    [false] on [break]. *)
Definition main_round (key : string) (r : round) : IO.io bool :=
  IO.try_except
    (IO.emit IO.Start_listeners ;;;
     let motion_data := start_motion_tracking (started r) in
     IO.lift (record_audio r) ;;;
     let motion_data := fold_left track (events r) motion_data in
     IO.emit IO.Stop_listeners ;;;
     motion_data <~ IO.lift (stop_motion_tracking motion_data (stopped r)) ;;
     IO.lift (save_audio r) ;;;
     audio_stress_detected <~ IO.lift (detect_stress (computed r)) ;;
     motion_stress_detected <~ IO.lift (analyze_motion_data motion_data) ;;
     let stress_detected := audio_stress_detected || motion_stress_detected in
     (if stress_detected then
        location_data <~ location.get_location_by_geocoder (outside r) ;;
        if PyDict.truthy location_data then
          location.open_google_maps key (outside r) location_data ;;;
          IO.ret tt
        else IO.ret tt
      else IO.ret tt) ;;;
     choice <~ IO.lift (choice r) ;;
     if negb (String.eqb (PyStr.lower choice) "y") then IO.ret false
     else IO.ret true)
    (fun e => IO.ret false).

(** The loop on the turns that are given; returns how many were run. *)
Fixpoint main_loop (key : string) (rounds : list round) : IO.io nat :=
  match rounds with
  | [] => IO.ret 0%nat
  | r :: rounds =>
      again <~ main_round key r ;;
      if again then n <~ main_loop key rounds ;; IO.ret (S n)
      else IO.ret 1%nat
  end.

End mic_final_main.

(** ** [whatsappfinal.py]: [main] *)

Module whatsappfinal_main.

Import whatsappfinal.

(** What happens outside during one call of [main]. *)
Record session : Type := mk_session {
  (** [check_dependencies()] *)
  check_dependencies : bool;
  (** the [pip install] attempted when a dependency is missing *)
  pip_install : Py.outcome unit;
  (** [IntegratedStressDetector(...)], which opens the camera detector *)
  construct : Py.outcome unit;
  (** first [run_detection]: the captures up to "Get and analyze results",
      then what the analysis observes *)
  capture1 : Py.outcome unit;
  observed1 : collaborators;
  (** [input("Do you want to run another detection? (y/n): ")] *)
  choice : Py.outcome string;
  (** second [run_detection] *)
  capture2 : Py.outcome unit;
  observed2 : collaborators
}.

(** What [main] does with the detector, in order. *)
Inductive step : Type :=
| Run (calls : list call)
| Release.

Definition SystemExit : Py.exn := Py.OtherError "SystemExit".

(** A whole [run_detection]: the captures, then the analysis. *)
Definition full_run (capture : Py.outcome unit) (self : IntegratedStressDetector)
    (w : collaborators) : Py.outcome (IntegratedStressDetector * list call) :=
  _ <- capture ;;
  run_detection self w.

(** [main], from the dependency check on (the arguments are parsed
    before); returns the steps taken and the detector as it is at the end,
    if one was constructed. *)
Definition main (s : session)
  : list step * Py.outcome (option IntegratedStressDetector) :=
  let ready :=
    if check_dependencies s then Py.Returns tt
    else Py.try_except (pip_install s) (fun e => Py.Raises SystemExit) in
  match ready with
  | Py.Raises e => ([], Py.Raises e)
  | Py.Returns _ =>
      match construct s with
      | Py.Raises e => ([], Py.Returns None)
      | Py.Returns _ =>
          let detector := init in
          match full_run (capture1 s) detector (observed1 s) with
          | Py.Raises e => ([Release], Py.Returns (Some detector))
          | Py.Returns (detector, calls1) =>
              match choice s with
              | Py.Raises e => ([Run calls1; Release], Py.Returns (Some detector))
              | Py.Returns text =>
                  if String.eqb (PyStr.lower text) "y" then
                    match full_run (capture2 s) detector (observed2 s) with
                    | Py.Raises e =>
                        ([Run calls1; Release], Py.Returns (Some detector))
                    | Py.Returns (detector, calls2) =>
                        ([Run calls1; Run calls2; Release],
                         Py.Returns (Some detector))
                    end
                  else ([Run calls1; Release], Py.Returns (Some detector))
              end
          end
      end
  end.

(** Number of completed runs among the steps. *)
Definition runs (steps : list step) : nat :=
  List.length (filter (fun st => match st with Run _ => true | Release => false end)
                 steps).

End whatsappfinal_main.

(** ** Reference notions used in the statements *)

Module Spec.

(** Clamping to the unit interval. *)
Definition clip01 (x : Q) : Q :=
  if Qlt_le_dec x 0 then 0
  else if Qlt_le_dec 1 x then 1
  else x.

(** The clip-linear map of a raw value: 0 below the baseline, 1 from
    baseline+range on, linear between. *)
Definition clip_linear (baseline range raw : Q) : Q :=
  if Qlt_le_dec raw baseline then 0
  else if Qlt_le_dec (baseline + range) raw then 1
  else (raw - baseline) / range.

(** Number of [true] entries of a list of indicators. *)
Definition count_true (l : list bool) : nat := count_occ bool_dec l true.

(** The tests of the indicator detectors, in program order: the four of
    [detect_stress] on the audio descriptors and the three of
    [analyze_motion_data] on the activity rates. *)
Definition audio_indicators (f : mic_final.features) : list bool :=
  [mic_final.pitch_mean f >? 150;
   mic_final.energy_mean f >? 0.7;
   mic_final.zcr_mean f >? 0.1;
   mic_final.spectral_centroid_mean f >? 2000].

Definition motion_indicators (movement_rate click_rate keypress_rate : Q)
  : list bool :=
  [movement_rate >? 10; click_rate >? 2; keypress_rate >? 5].

(** A detector instance carries the thresholds that [__init__] sets. *)
Definition configured (self : whatsappfinal.IntegratedStressDetector) : Prop :=
  whatsappfinal.panic_threshold self = 0.7 /\
  whatsappfinal.high_stress_threshold self = 0.5.

End Spec.

(** ** Comparison and arithmetic facts *)

Section PyFacts.

Lemma lt_iff (x y : Q) : (x <? y) = true <-> x < y.
Proof.
  unfold Py.lt. rewrite negb_true_iff. split.
  - intros H. apply Qnot_le_lt. intros Hle.
    apply Qle_bool_iff in Hle. congruence.
  - intros H. destruct (Qle_bool y x) eqn:E; [|reflexivity].
    apply Qle_bool_iff in E. lra.
Qed.

Lemma lt_false_iff (x y : Q) : (x <? y) = false <-> y <= x.
Proof.
  unfold Py.lt. rewrite negb_false_iff. apply Qle_bool_iff.
Qed.

Lemma gt_iff (x y : Q) : (x >? y) = true <-> y < x.
Proof. unfold Py.gt. apply lt_iff. Qed.

Lemma gt_false_iff (x y : Q) : (x >? y) = false <-> x <= y.
Proof. unfold Py.gt. apply lt_false_iff. Qed.

Lemma ge_iff (x y : Q) : (x >=? y) = true <-> y <= x.
Proof. unfold Py.ge, Py.le. apply Qle_bool_iff. Qed.

Lemma ge_false_iff (x y : Q) : (x >=? y) = false <-> x < y.
Proof.
  unfold Py.ge, Py.le. split.
  - intros H. apply Qnot_le_lt. intros Hle.
    apply Qle_bool_iff in Hle. congruence.
  - intros H. destruct (Qle_bool y x) eqn:E; [|reflexivity].
    apply Qle_bool_iff in E. lra.
Qed.

(** A non-zero divisor never raises. *)
Lemma truediv_returns (x y : Q) : ~ y == 0 -> Py.truediv x y = Py.Returns (x / y).
Proof.
  intros H. unfold Py.truediv.
  destruct (Qeq_bool y 0) eqn:E; [|reflexivity].
  apply Qeq_bool_iff in E. contradiction.
Qed.

Lemma truediv_zero (x y : Q) : y == 0 -> Py.truediv x y = Py.Raises Py.ZeroDivisionError.
Proof.
  intros H. unfold Py.truediv.
  apply Qeq_bool_iff in H. now rewrite H.
Qed.

(** [min(1.0, max(0.0, x))] is the clamp to the unit interval. *)
Lemma min_max_clip01 (x : Q) : Py.min 1.0 (Py.max 0.0 x) == Spec.clip01 x.
Proof.
  unfold Py.min, Py.max, Spec.clip01.
  destruct (Qlt_le_dec x 0) as [H0|H0].
  - assert (E : (x >? 0.0) = false) by (apply gt_false_iff; lra).
    rewrite E.
    assert (E1 : (0.0 <? 1.0) = true) by reflexivity.
    rewrite E1. reflexivity.
  - destruct (x >? 0.0) eqn:E.
    + apply gt_iff in E.
      destruct (Qlt_le_dec 1 x) as [H1|H1].
      * assert (E1 : (x <? 1.0) = false) by (apply lt_false_iff; lra).
        rewrite E1. reflexivity.
      * destruct (x <? 1.0) eqn:E1; [reflexivity|].
        apply lt_false_iff in E1. lra.
    + apply gt_false_iff in E.
      assert (E1 : (0.0 <? 1.0) = true) by reflexivity.
      rewrite E1.
      destruct (Qlt_le_dec 1 x) as [H1|H1]; lra.
Qed.

End PyFacts.

(** Turns every boolean comparison in sight into its order statement. *)
Ltac py_cmp :=
  repeat match goal with
  | H : (_ <? _) = true |- _ => apply lt_iff in H
  | H : (_ <? _) = false |- _ => apply lt_false_iff in H
  | H : (_ >? _) = true |- _ => apply gt_iff in H
  | H : (_ >? _) = false |- _ => apply gt_false_iff in H
  | H : (_ >=? _) = true |- _ => apply ge_iff in H
  | H : (_ >=? _) = false |- _ => apply ge_false_iff in H
  end.

Ltac py_case c := let E := fresh "E" in destruct c eqn:E; py_cmp.

(** ** Severity bands and the weighted fusion *)

Section Fusion.

Import whatsappfinal.

(** Both occurrences of the band expression are [description_of]. *)
Lemma analyze_combined_stress_components self d a m :
  analyze_combined_stress self d a m =
    (a * 0.4 + m * 0.6 >=? panic_threshold self,
     a * 0.4 + m * 0.6 >=? high_stress_threshold self,
     a * 0.4 + m * 0.6,
     description_of (a * 0.4 + m * 0.6)).
Proof. reflexivity. Qed.

Lemma description_of_calm level : level < 0.3 -> description_of level = "Calm".
Proof.
  intros H. unfold description_of.
  py_case (level <? 0.3); [reflexivity | lra].
Qed.

Lemma description_of_mild level :
  0.3 <= level < 0.5 -> description_of level = "Mild Stress".
Proof.
  intros H. unfold description_of.
  py_case (level <? 0.3); [lra|].
  py_case (level <? 0.5); [reflexivity | lra].
Qed.

Lemma description_of_moderate level :
  0.5 <= level < 0.7 -> description_of level = "Moderate Stress".
Proof.
  intros H. unfold description_of.
  py_case (level <? 0.3); [lra|].
  py_case (level <? 0.5); [lra|].
  py_case (level <? 0.7); [reflexivity | lra].
Qed.

Lemma description_of_high level :
  0.7 <= level < 0.9 -> description_of level = "High Stress".
Proof.
  intros H. unfold description_of.
  py_case (level <? 0.3); [lra|].
  py_case (level <? 0.5); [lra|].
  py_case (level <? 0.7); [lra|].
  py_case (level <? 0.9); [reflexivity | lra].
Qed.

Lemma description_of_panic level : 0.9 <= level -> description_of level = "Panic".
Proof.
  intros H. unfold description_of.
  py_case (level <? 0.3); [lra|].
  py_case (level <? 0.5); [lra|].
  py_case (level <? 0.7); [lra|].
  py_case (level <? 0.9); [lra | reflexivity].
Qed.

(** Every level falls in one of the five ranges. *)
Lemma level_cases (level : Q) :
  level < 0.3 \/ 0.3 <= level < 0.5 \/ 0.5 <= level < 0.7 \/
  0.7 <= level < 0.9 \/ 0.9 <= level.
Proof.
  destruct (Qlt_le_dec level 0.3); [lra|].
  destruct (Qlt_le_dec level 0.5); [lra|].
  destruct (Qlt_le_dec level 0.7); [lra|].
  destruct (Qlt_le_dec level 0.9); lra.
Qed.

(** The weighted sum without a clamp: outside the unit square the level
    leaves the unit interval. *)
Remark combined_level_outside_unit_square :
  combined_level_of (analyze_combined_stress init false 2 2) == 2.
Proof. reflexivity. Qed.

End Fusion.

(** C3. The band expression splits the levels into five ranges without gap
    or overlap: below 0.3 Calm, from 0.3 below 0.5 Mild Stress, from 0.5
    below 0.7 Moderate Stress, from 0.7 below 0.9 High Stress, from 0.9 on
    Panic; 0.0 is Calm, 0.3 is Mild Stress and 1.0 is Panic.  The same
    expression names the combined level and the voice level. *)
Theorem severity_bands_partition :
  (forall level : Q,
     (whatsappfinal.description_of level = "Calm" <-> level < 0.3) /\
     (whatsappfinal.description_of level = "Mild Stress" <-> 0.3 <= level < 0.5) /\
     (whatsappfinal.description_of level = "Moderate Stress" <-> 0.5 <= level < 0.7) /\
     (whatsappfinal.description_of level = "High Stress" <-> 0.7 <= level < 0.9) /\
     (whatsappfinal.description_of level = "Panic" <-> 0.9 <= level)) /\
  whatsappfinal.description_of 0.0 = "Calm" /\
  whatsappfinal.description_of 0.3 = "Mild Stress" /\
  whatsappfinal.description_of 1.0 = "Panic" /\
  (forall self d a m,
     whatsappfinal.description_in (whatsappfinal.analyze_combined_stress self d a m) =
     whatsappfinal.description_of
       (whatsappfinal.combined_level_of (whatsappfinal.analyze_combined_stress self d a m))).
Proof.
  split; [|repeat split].
  intros level.
  destruct (level_cases level) as [H|[H|[H|[H|H]]]].
  - rewrite (description_of_calm level H).
    repeat split; intros; try discriminate; try lra.
  - rewrite (description_of_mild level H).
    repeat split; intros; try discriminate; try lra.
  - rewrite (description_of_moderate level H).
    repeat split; intros; try discriminate; try lra.
  - rewrite (description_of_high level H).
    repeat split; intros; try discriminate; try lra.
  - rewrite (description_of_panic level H).
    repeat split; intros; try discriminate; try lra.
Qed.

(** ** Voice analysis of the integrated detector *)

Section VoiceLevel.

Import whatsappfinal.

Lemma clip01_clip_linear (baseline range raw : Q) :
  0 < range ->
  Spec.clip01 ((raw - baseline) / range) == Spec.clip_linear baseline range raw.
Proof.
  intros Hr. unfold Spec.clip01, Spec.clip_linear.
  assert (Hmul : (raw - baseline) / range * range == raw - baseline)
    by (field; lra).
  destruct (Qlt_le_dec ((raw - baseline) / range) 0) as [H0|H0].
  - destruct (Qlt_le_dec raw baseline) as [Hb|Hb]; [reflexivity|].
    exfalso.
    assert (0 <= (raw - baseline) / range)
      by (apply Qle_shift_div_l; lra).
    lra.
  - assert (Hb : baseline <= raw).
    { assert (0 <= (raw - baseline) / range * range)
        by (apply Qmult_le_0_compat; lra).
      lra. }
    destruct (Qlt_le_dec raw baseline) as [Hb'|_].
    + assert (E : raw == baseline) by lra.
      destruct (Qlt_le_dec 1 ((raw - baseline) / range)) as [H1|H1]; lra.
    + destruct (Qlt_le_dec 1 ((raw - baseline) / range)) as [H1|H1];
        destruct (Qlt_le_dec (baseline + range) raw) as [H2|H2];
        try reflexivity.
      * exfalso.
        assert ((raw - baseline) / range <= 1)
          by (apply Qle_shift_div_r; lra).
        lra.
      * assert (1 <= (raw - baseline) / range)
          by (apply Qle_shift_div_l; lra).
        lra.
Qed.

(** The four contributions, in the order of the [append]s. *)
Lemma stress_levels_returns (f : features) :
  stress_levels f =
    Py.Returns
      [Py.min 1.0 (Py.max 0.0 ((pitch_mean f - 130) / 50));
       Py.min 1.0 (Py.max 0.0 ((energy_mean f - 0.5) / 0.5));
       Py.min 1.0 (Py.max 0.0 ((zcr_mean f - 0.08) / 0.12));
       Py.min 1.0 (Py.max 0.0 ((spectral_centroid_mean f - 1800) / 700))].
Proof. reflexivity. Qed.

(** With features at hand the voice analysis averages the four
    contributions and never raises. *)
Lemma detect_stress_features (w : collaborators) (f : features) :
  extract_features w = Py.Returns (Some f) ->
  exists p e z s overall,
    stress_levels f = Py.Returns [p; e; z; s] /\
    overall = (0 + p + e + z + s) / 4 /\
    detect_stress w =
      Py.Returns (overall >? 0.3, overall, description_of overall).
Proof.
  intros Hx. rewrite stress_levels_returns.
  do 5 eexists.
  split; [reflexivity|]. split; [reflexivity|].
  unfold detect_stress. rewrite Hx. cbn [Py.bind].
  rewrite stress_levels_returns. reflexivity.
Qed.

(** The voice analysis is total: whatever the extraction does, a triple
    comes back. *)
Lemma detect_stress_total (w : collaborators) :
  exists d a desc, detect_stress w = Py.Returns (d, a, desc).
Proof.
  destruct (extract_features w) as [[f|]|e] eqn:Hx.
  - destruct (detect_stress_features w f Hx)
      as (p & e & z & s & overall & _ & _ & H).
    rewrite H. eauto.
  - unfold detect_stress. rewrite Hx. cbn. eauto.
  - unfold detect_stress. rewrite Hx. cbn. eauto.
Qed.

End VoiceLevel.

(** C6. With features at hand, [detect_stress] of the integrated detector
    gives every descriptor the contribution
    clip01((raw - baseline) / range), which is 0 below the baseline, 1 from
    baseline+range on and linear between, for the pairs pitch (130, 50),
    energy (0.5, 0.5), zero-crossing rate (0.08, 0.12) and spectral
    centroid (1800, 700); the voice level is the mean of the four. *)
Theorem clip_linear_contributions :
  forall f : whatsappfinal.features,
  exists p e z s : Q,
    whatsappfinal.stress_levels f = Py.Returns [p; e; z; s] /\
    (p == Spec.clip01 ((whatsappfinal.pitch_mean f - 130) / 50) /\
     p == Spec.clip_linear 130 50 (whatsappfinal.pitch_mean f)) /\
    (e == Spec.clip01 ((whatsappfinal.energy_mean f - 0.5) / 0.5) /\
     e == Spec.clip_linear 0.5 0.5 (whatsappfinal.energy_mean f)) /\
    (z == Spec.clip01 ((whatsappfinal.zcr_mean f - 0.08) / 0.12) /\
     z == Spec.clip_linear 0.08 0.12 (whatsappfinal.zcr_mean f)) /\
    (s == Spec.clip01 ((whatsappfinal.spectral_centroid_mean f - 1800) / 700) /\
     s == Spec.clip_linear 1800 700 (whatsappfinal.spectral_centroid_mean f)) /\
    (forall w,
       whatsappfinal.extract_features w = Py.Returns (Some f) ->
       exists overall,
         overall = (0 + p + e + z + s) / 4 /\
         whatsappfinal.detect_stress w =
           Py.Returns (overall >? 0.3, overall,
                       whatsappfinal.description_of overall)).
Proof.
  intros f. rewrite stress_levels_returns. do 4 eexists.
  split; [reflexivity|].
  repeat split.
  - apply min_max_clip01.
  - rewrite min_max_clip01. apply clip01_clip_linear. lra.
  - apply min_max_clip01.
  - rewrite min_max_clip01. apply clip01_clip_linear. lra.
  - apply min_max_clip01.
  - rewrite min_max_clip01. apply clip01_clip_linear. lra.
  - apply min_max_clip01.
  - rewrite min_max_clip01. apply clip01_clip_linear. lra.
  - intros w Hx.
    destruct (detect_stress_features w f Hx)
      as (p & e & z & s & overall & Hl & Ho & H).
    rewrite stress_levels_returns in Hl. injection Hl as <- <- <- <-.
    exists overall. split; assumption.
Qed.

Lemma clip_linear_contributions_witness :
  let f := {| whatsappfinal.pitch_mean := 155;
              whatsappfinal.energy_mean := 0.75;
              whatsappfinal.zcr_mean := 0.14;
              whatsappfinal.spectral_centroid_mean := 2150 |} in
  let w := {| whatsappfinal.extract_features := Py.Returns (Some f);
              whatsappfinal.analyze_stress := 0;
              whatsappfinal.get_location_by_geocoder := None |} in
  exists p e z s overall : Q,
    whatsappfinal.stress_levels f = Py.Returns [p; e; z; s] /\
    p == Spec.clip_linear 130 50 155 /\
    overall = (0 + p + e + z + s) / 4 /\
    whatsappfinal.detect_stress w =
      Py.Returns (overall >? 0.3, overall, whatsappfinal.description_of overall).
Proof.
  intros f w.
  destruct (clip_linear_contributions f)
    as (p & e & z & s & Hl & [_ Hp] & _ & _ & _ & Hd).
  destruct (Hd w eq_refl) as (overall & Ho & H).
  exists p, e, z, s, overall.
  exact (conj Hl (conj Hp (conj Ho H))).
Defined.

(** C9. The audio flag handed to [analyze_combined_stress] has no
    influence on the tuple it returns. *)
Theorem analyze_combined_stress_ignores_audio_flag :
  forall (self : whatsappfinal.IntegratedStressDetector)
         (audio_stress_detected audio_stress_detected' : bool)
         (audio_stress_level motion_stress_level : Q),
    whatsappfinal.analyze_combined_stress self audio_stress_detected
      audio_stress_level motion_stress_level =
    whatsappfinal.analyze_combined_stress self audio_stress_detected'
      audio_stress_level motion_stress_level.
Proof. reflexivity. Qed.

(** ** The weighted sum under rounding *)

Section Rounding.

Variable rnd : Q -> Q.
Hypothesis rnd_monotone : rounded.monotone rnd.
Hypothesis rnd_idempotent : rounded.idempotent rnd.
Hypothesis rnd_zero : rnd 0 == 0.

Lemma rnd_nonneg (x : Q) : 0 <= x -> 0 <= rnd x.
Proof. intros H. rewrite <- rnd_zero. apply rnd_monotone; lra. Qed.

(** A product of a level in [0,1] with a rounded weight rounds to at most
    that weight. *)
Lemma rnd_scaled_weight (level weight : Q) :
  0 <= level <= 1 -> 0 <= weight ->
  0 <= rnd (level * rnd weight) <= rnd weight.
Proof.
  intros [H0 H1] Hw.
  assert (Hc : 0 <= rnd weight) by now apply rnd_nonneg.
  split.
  - apply rnd_nonneg. now apply Qmult_le_0_compat.
  - apply Qle_trans with (rnd (rnd weight)).
    + apply rnd_monotone; [now apply Qmult_le_0_compat|].
      apply Qle_trans with (1 * rnd weight); [|lra].
      now apply Qmult_le_compat_r.
    + apply Qle_lteq. right. now apply rnd_idempotent.
Qed.

Lemma rounded_combined_level_bounds (v m : Q) :
  rnd (rnd 0.4 + rnd 0.6) <= 1 ->
  0 <= v <= 1 -> 0 <= m <= 1 ->
  0 <= rounded.combined_level rnd v m <= 1.
Proof.
  intros Hcorner Hv Hm. unfold rounded.combined_level.
  destruct (rnd_scaled_weight v 0.4 Hv) as [Hv0 Hv1]; [lra|].
  destruct (rnd_scaled_weight m 0.6 Hm) as [Hm0 Hm1]; [lra|].
  split.
  - apply rnd_nonneg. lra.
  - apply Qle_trans with (rnd (rnd 0.4 + rnd 0.6)); [|exact Hcorner].
    apply rnd_monotone; lra.
Qed.

Lemma rounded_combined_level_monotone (v v' m m' : Q) :
  0 <= v -> 0 <= m -> v <= v' -> m <= m' ->
  rounded.combined_level rnd v m <= rounded.combined_level rnd v' m'.
Proof.
  intros Hv0 Hm0 Hv Hm. unfold rounded.combined_level.
  assert (H4 : 0 <= rnd 0.4) by (apply rnd_nonneg; lra).
  assert (H6 : 0 <= rnd 0.6) by (apply rnd_nonneg; lra).
  assert (Pv : 0 <= v * rnd 0.4) by now apply Qmult_le_0_compat.
  assert (Pm : 0 <= m * rnd 0.6) by now apply Qmult_le_0_compat.
  assert (rnd (v * rnd 0.4) <= rnd (v' * rnd 0.4))
    by (apply rnd_monotone; [exact Pv | now apply Qmult_le_compat_r]).
  assert (rnd (m * rnd 0.6) <= rnd (m' * rnd 0.6))
    by (apply rnd_monotone; [exact Pm | now apply Qmult_le_compat_r]).
  pose proof (rnd_nonneg _ Pv). pose proof (rnd_nonneg _ Pm).
  apply rnd_monotone; lra.
Qed.

End Rounding.

(** ** Rounding to double precision *)

Section NearestEven.

Import rounded.

Lemma pow2_pos (k : Z) : 0 < 2 ^ k.
Proof. apply Qpower_0_lt. reflexivity. Qed.

Lemma pow2_nonzero (k : Z) : ~ 2 ^ k == 0.
Proof. pose proof (pow2_pos k). lra. Qed.

Lemma pow2_inject (k : Z) : (0 <= k)%Z -> inject_Z (2 ^ k) == 2 ^ k.
Proof. intros H. now rewrite Zpower_Qpower. Qed.

Lemma pow2_le (a b : Z) : (a <= b)%Z -> 2 ^ a <= 2 ^ b.
Proof. intros H. apply Qpower_le_compat_l; [exact H | lra]. Qed.

Lemma pow2_lt (a b : Z) : (a < b)%Z -> 2 ^ a < 2 ^ b.
Proof. intros H. apply Qpower_lt_compat_l; [exact H | lra]. Qed.

Lemma pow2_lt_inv (a b : Z) : 2 ^ a < 2 ^ b -> (a < b)%Z.
Proof. intros H. apply (Qpower_lt_compat_l_inv 2); [exact H | lra]. Qed.

Lemma pow2_add (a b : Z) : 2 ^ (a + b) == 2 ^ a * 2 ^ b.
Proof. apply Qpower_plus. lra. Qed.

Lemma pow2_succ (a : Z) : 2 ^ (a + 1) == 2 * 2 ^ a.
Proof. rewrite pow2_add. change (2 ^ 1) with 2. ring. Qed.

(** Bounds of a positive rational from the bit lengths of its terms. *)
Lemma log2_bounds (x : Q) :
  0 < x ->
  let k := (Z.log2 (Qnum x) - Z.log2 (Zpos (Qden x)))%Z in
  2 ^ (k - 1) < x /\ x < 2 ^ (k + 1).
Proof.
  intros Hx k.
  destruct x as [p d]. cbn [Qnum Qden] in k.
  assert (Hp : (0 < p)%Z).
  { unfold Qlt in Hx. cbn in Hx. lia. }
  set (a := Z.log2 p) in *. set (b := Z.log2 (Zpos d)) in *.
  assert (Ha0 : (0 <= a)%Z) by apply Z.log2_nonneg.
  assert (Hb0 : (0 <= b)%Z) by apply Z.log2_nonneg.
  destruct (Z.log2_spec p Hp) as [Ha1 Ha2]. fold a in Ha1, Ha2.
  destruct (Z.log2_spec (Zpos d) (Pos2Z.is_pos d)) as [Hb1 Hb2].
  fold b in Hb1, Hb2.
  rewrite Zle_Qle in Ha1, Hb1. rewrite Zlt_Qlt in Ha2, Hb2.
  rewrite pow2_inject in Ha1, Hb1 by assumption.
  rewrite pow2_inject in Ha2, Hb2 by lia.
  replace (Z.succ a) with (a + 1)%Z in Ha2 by lia.
  replace (Z.succ b) with (b + 1)%Z in Hb2 by lia.
  rewrite pow2_succ in Ha2, Hb2.
  assert (Hk1 : 2 ^ a == 2 ^ (k - 1) * (2 * 2 ^ b)).
  { rewrite <- pow2_succ, <- pow2_add. apply Qpower_comp; [reflexivity|]. subst k. lia. }
  assert (Hk2 : 2 * 2 ^ a == 2 ^ (k + 1) * 2 ^ b).
  { rewrite <- pow2_succ, <- pow2_add. apply Qpower_comp; [reflexivity|]. subst k. lia. }
  assert (Hd : 0 < inject_Z (Zpos d)) by reflexivity.
  assert (Hx' : p # d == inject_Z p / inject_Z (Zpos d)) by apply Qmake_Qdiv.
  pose proof (pow2_pos (k - 1)) as P1. pose proof (pow2_pos (k + 1)) as P2.
  pose proof (pow2_pos b) as Pb.
  rewrite Hx'. split.
  - apply Qlt_shift_div_l; [exact Hd|].
    apply Qlt_le_trans with (2 ^ a); [|exact Ha1].
    rewrite Hk1. apply Qmult_lt_l; assumption.
  - apply Qlt_shift_div_r; [exact Hd|].
    apply Qlt_le_trans with (2 * 2 ^ a); [exact Ha2|].
    rewrite Hk2. apply Qmult_le_l; assumption.
Qed.

Lemma binade_spec (x : Q) :
  0 < x -> 2 ^ binade x <= x /\ x < 2 ^ (binade x + 1).
Proof.
  intros Hx. destruct (log2_bounds x Hx) as [H1 H2].
  unfold binade.
  set (k := (Z.log2 (Qnum x) - Z.log2 (Zpos (Qden x)))%Z) in *.
  destruct (Qle_bool (2 ^ k) x) eqn:E.
  - apply Qle_bool_iff in E. split; assumption.
  - assert (Hlt : x < 2 ^ k).
    { apply Qnot_le_lt. intros Hle. apply Qle_bool_iff in Hle. congruence. }
    split; [apply Qlt_le_weak; exact H1|].
    replace (k - 1 + 1)%Z with k by lia. exact Hlt.
Qed.

Lemma binade_unique (x : Q) (e : Z) :
  2 ^ e <= x -> x < 2 ^ (e + 1) -> binade x = e.
Proof.
  intros H1 H2.
  assert (Hx : 0 < x) by (pose proof (pow2_pos e); lra).
  destruct (binade_spec x Hx) as [B1 B2].
  assert (2 ^ e < 2 ^ (binade x + 1)) by lra.
  assert (2 ^ binade x < 2 ^ (e + 1)) by lra.
  apply pow2_lt_inv in H, H0. lia.
Qed.

Lemma binade_le (x y : Q) : 0 < x -> x <= y -> (binade x <= binade y)%Z.
Proof.
  intros Hx Hxy.
  destruct (binade_spec x Hx) as [B1 _].
  destruct (binade_spec y) as [_ B2]; [lra|].
  assert (H : 2 ^ binade x < 2 ^ (binade y + 1)) by lra.
  apply pow2_lt_inv in H. lia.
Qed.

Ltac qcmp :=
  repeat match goal with
  | H : Qcompare _ _ = Lt |- _ => apply <- Qlt_alt in H
  | H : Qcompare _ _ = Gt |- _ => apply <- Qgt_alt in H
  | H : Qcompare _ _ = Eq |- _ => apply <- Qeq_alt in H
  end.

Lemma round_half_even_bounds (m : Q) :
  (Qfloor m <= round_half_even m <= Qfloor m + 1)%Z.
Proof.
  unfold round_half_even.
  destruct (Qcompare (m - inject_Z (Qfloor m)) (1 # 2));
    [destruct (Z.even (Qfloor m))| |]; lia.
Qed.

Lemma round_half_even_integer (n : Z) : round_half_even (inject_Z n) = n.
Proof.
  unfold round_half_even. rewrite Qfloor_Z.
  assert (E : Qcompare (inject_Z n - inject_Z n) (1 # 2) = Lt).
  { apply -> Qlt_alt. lra. }
  now rewrite E.
Qed.

Lemma round_half_even_monotone (m m' : Q) :
  m <= m' -> (round_half_even m <= round_half_even m')%Z.
Proof.
  intros H.
  pose proof (Qfloor_resp_le m m' H) as Hf.
  pose proof (round_half_even_bounds m) as B.
  pose proof (round_half_even_bounds m') as B'.
  destruct (Z.eq_dec (Qfloor m) (Qfloor m')) as [E|E]; [|lia].
  unfold round_half_even in *. rewrite <- E in *.
  remember (inject_Z (Qfloor m)) as f eqn:Ef. clear Ef.
  destruct (Qcompare (m - f) (1 # 2)) eqn:C;
    destruct (Qcompare (m' - f) (1 # 2)) eqn:C';
    qcmp; cbv iota; try lia; try (exfalso; lra);
    destruct (Z.even (Qfloor m)); lia.
Qed.

Lemma round_half_even_comp (m m' : Q) :
  m == m' -> round_half_even m = round_half_even m'.
Proof.
  intros H.
  assert (m <= m') by lra. assert (m' <= m) by lra.
  apply round_half_even_monotone in H0, H1. lia.
Qed.

Lemma round_half_even_ge (k : Z) (m : Q) :
  inject_Z k <= m -> (k <= round_half_even m)%Z.
Proof.
  intros H. apply round_half_even_monotone in H.
  now rewrite round_half_even_integer in H.
Qed.

Lemma round_half_even_le (k : Z) (m : Q) :
  m <= inject_Z k -> (round_half_even m <= k)%Z.
Proof.
  intros H. apply round_half_even_monotone in H.
  now rewrite round_half_even_integer in H.
Qed.

Lemma quantum_le (x y : Q) : 0 < x -> x <= y -> (quantum x <= quantum y)%Z.
Proof.
  intros Hx Hxy. unfold quantum.
  pose proof (binade_le x y Hx Hxy). lia.
Qed.

(** A power of two that is at least the quantum bounds the rounding from
    above when it bounds the number from above, and from below when it
    bounds the number from below. *)
Lemma nearest_even_le_pow2 (x : Q) (E : Z) :
  (quantum x <= E)%Z -> x <= 2 ^ E -> nearest_even x <= 2 ^ E.
Proof.
  intros Hq Hx. unfold nearest_even.
  set (q := quantum x) in *.
  pose proof (pow2_pos q) as Pq.
  assert (HE : 2 ^ E == inject_Z (2 ^ (E - q)) * 2 ^ q).
  { rewrite pow2_inject by lia. rewrite <- pow2_add.
    apply Qpower_comp; [reflexivity | lia]. }
  rewrite HE. apply Qmult_le_r; [exact Pq|].
  rewrite <- Zle_Qle. apply round_half_even_le.
  apply Qle_shift_div_r; [exact Pq|]. now rewrite <- HE.
Qed.

Lemma nearest_even_ge_pow2 (x : Q) (E : Z) :
  (quantum x <= E)%Z -> 2 ^ E <= x -> 2 ^ E <= nearest_even x.
Proof.
  intros Hq Hx. unfold nearest_even.
  set (q := quantum x) in *.
  pose proof (pow2_pos q) as Pq.
  assert (HE : 2 ^ E == inject_Z (2 ^ (E - q)) * 2 ^ q).
  { rewrite pow2_inject by lia. rewrite <- pow2_add.
    apply Qpower_comp; [reflexivity | lia]. }
  rewrite HE. apply Qmult_le_r; [exact Pq|].
  rewrite <- Zle_Qle. apply round_half_even_ge.
  apply Qle_shift_div_l; [exact Pq|]. now rewrite <- HE.
Qed.

Lemma nearest_even_monotone (x y : Q) :
  0 < x -> x <= y -> nearest_even x <= nearest_even y.
Proof.
  intros Hx Hxy.
  pose proof (quantum_le x y Hx Hxy) as Hq.
  destruct (Z.eq_dec (quantum x) (quantum y)) as [E|E].
  - unfold nearest_even. rewrite E.
    pose proof (pow2_pos (quantum y)) as Pq.
    apply Qmult_le_r; [exact Pq|].
    rewrite <- Zle_Qle. apply round_half_even_monotone.
    apply Qmult_le_r; [now apply Qinv_lt_0_compat | exact Hxy].
  - assert (Hy : 0 < y) by lra.
    destruct (binade_spec x Hx) as [_ Bx].
    destruct (binade_spec y Hy) as [By _].
    assert (Hqy : quantum y = (binade y - 52)%Z) by (unfold quantum in *; lia).
    assert (Hex : (binade x + 1 <= binade y)%Z) by (unfold quantum in *; lia).
    apply Qle_trans with (2 ^ binade y).
    + apply nearest_even_le_pow2; [unfold quantum in *; lia|].
      apply Qle_trans with (2 ^ (binade x + 1)); [lra|].
      now apply pow2_le.
    + apply nearest_even_ge_pow2; [lia | exact By].
Qed.

Lemma nearest_even_nonneg (x : Q) : 0 < x -> 0 <= nearest_even x.
Proof.
  intros Hx. unfold nearest_even.
  pose proof (pow2_pos (quantum x)) as Pq.
  apply Qmult_le_0_compat; [|lra].
  change 0 with (inject_Z 0). rewrite <- Zle_Qle.
  apply round_half_even_ge. change (inject_Z 0) with 0.
  apply Qle_shift_div_l; [exact Pq | lra].
Qed.

Lemma binary64_pos (x : Q) : 0 < x -> binary64 x = nearest_even x.
Proof.
  intros Hx. unfold binary64.
  assert (E : Qcompare x 0 = Gt) by (apply -> Qgt_alt; exact Hx).
  now rewrite E.
Qed.

Lemma binary64_zero (x : Q) : x == 0 -> binary64 x = 0.
Proof.
  intros Hx. unfold binary64.
  assert (E : Qcompare x 0 = Eq) by (apply -> Qeq_alt; exact Hx).
  now rewrite E.
Qed.

Lemma binary64_monotone (x y : Q) :
  0 <= x -> x <= y -> binary64 x <= binary64 y.
Proof.
  intros Hx Hxy.
  destruct (Qlt_le_dec 0 x) as [Px|Zx].
  - rewrite !binary64_pos by lra. now apply nearest_even_monotone.
  - rewrite (binary64_zero x) by lra.
    destruct (Qlt_le_dec 0 y) as [Py|Zy].
    + rewrite binary64_pos by exact Py. now apply nearest_even_nonneg.
    + rewrite (binary64_zero y) by lra. lra.
Qed.

(** The rounded significand has at most 53 bits, carry included. *)
Lemma significand_bound (x : Q) :
  0 < x -> (0 <= round_half_even (x / 2 ^ quantum x) <= 2 ^ 53)%Z.
Proof.
  intros Hx. set (q := quantum x).
  pose proof (pow2_pos q) as Pq.
  destruct (binade_spec x Hx) as [_ B].
  split.
  - apply round_half_even_ge. change (inject_Z 0) with 0.
    apply Qle_shift_div_l; [exact Pq | lra].
  - apply round_half_even_le.
    apply Qle_shift_div_r; [exact Pq|].
    rewrite pow2_inject by lia. rewrite <- pow2_add.
    apply Qle_trans with (2 ^ (binade x + 1)); [lra|].
    apply pow2_le. subst q. unfold quantum. lia.
Qed.

(** A number with a significand of at most 53 bits and a quantum not below
    the smallest one is left alone. *)
Lemma nearest_even_representable (n q : Z) :
  (0 < n <= 2 ^ 53)%Z -> (-1074 <= q)%Z ->
  nearest_even (inject_Z n * 2 ^ q) == inject_Z n * 2 ^ q.
Proof.
  intros Hn Hq. set (r := inject_Z n * 2 ^ q).
  pose proof (pow2_pos q) as Pq.
  assert (Hn1 : 1 <= inject_Z n).
  { change 1 with (inject_Z 1). rewrite <- Zle_Qle. lia. }
  assert (Hr : 0 < r) by (subst r; nra).
  destruct (binade_spec r Hr) as [B1 B2].
  assert (Hint : exists N : Z, r == inject_Z N * 2 ^ quantum r).
  { destruct (Z_le_gt_dec (quantum r) q) as [Hle|Hgt].
    - exists (n * 2 ^ (q - quantum r))%Z.
      rewrite inject_Z_mult, pow2_inject by lia.
      rewrite <- Qmult_assoc, <- pow2_add.
      subst r. apply Qmult_comp; [reflexivity|].
      apply Qpower_comp; [reflexivity | lia].
    - assert (He : (q + 53 <= binade r)%Z) by (unfold quantum in Hgt; lia).
      assert (H53 : 2 ^ (q + 53) <= r).
      { apply Qle_trans with (2 ^ binade r); [now apply pow2_le | exact B1]. }
      assert (Hn53 : n = (2 ^ 53)%Z).
      { assert (inject_Z (2 ^ 53) <= inject_Z n).
        { rewrite pow2_inject by lia.
          apply Qmult_le_r with (2 ^ q); [exact Pq|].
          rewrite <- pow2_add.
          replace (53 + q)%Z with (q + 53)%Z by lia. exact H53. }
        rewrite <- Zle_Qle in H. lia. }
      assert (Er : r == 2 ^ (q + 53)).
      { subst r. rewrite Hn53, pow2_inject by lia.
        rewrite <- pow2_add. apply Qpower_comp; [reflexivity | lia]. }
      assert (Eb : binade r = (q + 53)%Z).
      { apply binade_unique; [lra|].
        rewrite Er. apply pow2_lt. lia. }
      assert (Eq' : quantum r = (q + 1)%Z) by (unfold quantum; lia).
      exists (2 ^ 52)%Z. rewrite Eq', Er, pow2_inject by lia.
      rewrite <- pow2_add. apply Qpower_comp; [reflexivity | lia]. }
  destruct Hint as [N HN].
  unfold nearest_even. fold r.
  pose proof (pow2_pos (quantum r)) as Pqr.
  assert (Em : r / 2 ^ quantum r == inject_Z N).
  { apply Qmult_inj_r with (2 ^ quantum r); [lra|].
    rewrite <- HN. field. lra. }
  rewrite (round_half_even_comp _ _ Em), round_half_even_integer.
  symmetry. exact HN.
Qed.

Lemma quantum_min (x : Q) : (-1074 <= quantum x)%Z.
Proof. unfold quantum. lia. Qed.

Lemma binary64_idempotent (x : Q) :
  0 <= x -> binary64 (binary64 x) == binary64 x.
Proof.
  intros Hx.
  destruct (Qlt_le_dec 0 x) as [Px|Zx].
  - rewrite (binary64_pos x Px).
    pose proof (significand_bound x Px) as [S0 S1].
    destruct (Z.eq_dec (round_half_even (x / 2 ^ quantum x)) 0) as [E|E].
    + assert (Z0 : nearest_even x == 0).
      { unfold nearest_even. rewrite E. change (inject_Z 0) with 0. ring. }
      rewrite (binary64_zero _ Z0). symmetry. exact Z0.
    + assert (P : 0 < nearest_even x).
      { unfold nearest_even. pose proof (pow2_pos (quantum x)).
        assert (1 <= inject_Z (round_half_even (x / 2 ^ quantum x))).
        { change 1 with (inject_Z 1). rewrite <- Zle_Qle. lia. }
        nra. }
      rewrite (binary64_pos _ P).
      unfold nearest_even at 2 3.
      apply nearest_even_representable; [lia | apply quantum_min].
  - rewrite (binary64_zero x) by lra. now rewrite binary64_zero.
Qed.

Lemma binary64_corner : binary64 (binary64 0.4 + binary64 0.6) == 1.
Proof. vm_compute. reflexivity. Qed.

End NearestEven.

(** With the identity as rounding, the rounded sum is the sum that
    [analyze_combined_stress] returns. *)
Remark rounded_combined_level_exact self d a m :
  rounded.combined_level (fun x => x) a m =
  whatsappfinal.combined_level_of (whatsappfinal.analyze_combined_stress self d a m).
Proof. reflexivity. Qed.

(** On hardware floats the two weights add up to exactly one, and the
    sum is 1 at (1,1) and 0 at (0,0). *)
Remark float64_weights :
  (0.4 + 0.6 =? 1)%float = true /\
  (float64.combined_level 1 1 =? 1)%float = true /\
  (float64.combined_level 0 0 =? 0)%float = true.
Proof. repeat split; vm_compute; reflexivity. Qed.

(** The rational rounding and the hardware agree on the literals and on
    the sums that the statements name. *)
Remark float64_agrees_with_binary64 :
  float64.value 0.4 == rounded.binary64 0.4 /\
  float64.value 0.6 == rounded.binary64 0.6 /\
  float64.value 0.7 == rounded.binary64 0.7 /\
  float64.value (float64.combined_level 0.9 0) ==
    rounded.combined_level rounded.binary64 (rounded.binary64 0.9) 0 /\
  float64.value (float64.combined_level 0.6 0.8) ==
    rounded.combined_level rounded.binary64
      (rounded.binary64 0.6) (rounded.binary64 0.8) /\
  float64.value (float64.combined_level 1 1) ==
    rounded.combined_level rounded.binary64 1 1.
Proof. repeat split; vm_compute; reflexivity. Qed.

(** C2. For voice and motion levels in [0,1] the combined level returned
    by [analyze_combined_stress] is voice*0.4 + motion*0.6 and lies in
    [0,1], so that clamping it to [0,1] changes nothing.  The bound
    survives rounding: it holds when every literal and operation is rounded
    to double precision, and more generally under any rounding that is
    monotone and idempotent on the non-negative numbers, keeps 0 and takes
    the sum of the two rounded weights to at most 1. *)
Theorem combined_level_weighted_in_unit_interval :
  forall (self : whatsappfinal.IntegratedStressDetector) (d : bool)
         (voice_level motion_level : Q),
    0 <= voice_level <= 1 ->
    0 <= motion_level <= 1 ->
    let combined :=
      whatsappfinal.combined_level_of
        (whatsappfinal.analyze_combined_stress self d voice_level motion_level) in
    combined = voice_level * 0.4 + motion_level * 0.6 /\
    0 <= combined <= 1 /\
    Spec.clip01 combined = combined /\
    0 <= rounded.combined_level rounded.binary64 voice_level motion_level <= 1 /\
    (forall rnd : Q -> Q,
       rounded.monotone rnd ->
       rounded.idempotent rnd ->
       rnd 0 == 0 ->
       rnd (rnd 0.4 + rnd 0.6) <= 1 ->
       0 <= rounded.combined_level rnd voice_level motion_level <= 1).
Proof.
  intros self d v m Hv Hm combined. subst combined.
  rewrite analyze_combined_stress_components.
  unfold whatsappfinal.combined_level_of. cbn [fst snd].
  split; [reflexivity|]. split; [lra|]. split; [|split].
  - unfold Spec.clip01.
    destruct (Qlt_le_dec (v * 0.4 + m * 0.6) 0); [lra|].
    destruct (Qlt_le_dec 1 (v * 0.4 + m * 0.6)); [lra|reflexivity].
  - apply rounded_combined_level_bounds; try assumption.
    + exact binary64_monotone.
    + exact binary64_idempotent.
    + reflexivity.
    + apply Qle_lteq. right. exact binary64_corner.
  - intros rnd Hmono Hidem Hzero Hcorner.
    now apply rounded_combined_level_bounds.
Qed.

Lemma combined_level_weighted_in_unit_interval_witness :
  let combined :=
    whatsappfinal.combined_level_of
      (whatsappfinal.analyze_combined_stress whatsappfinal.init false 0.6 0.8) in
  (combined = 0.6 * 0.4 + 0.8 * 0.6 /\
   0 <= combined <= 1 /\
   Spec.clip01 combined = combined) /\
  0 <= rounded.combined_level rounded.binary64 0.6 0.8 <= 1.
Proof.
  intros combined.
  destruct (combined_level_weighted_in_unit_interval
              whatsappfinal.init false 0.6 0.8) as (H1 & H2 & H3 & H4 & _);
    [lra | lra |].
  exact (conj (conj H1 (conj H2 H3)) H4).
Defined.

(** C8. The combined level does not decrease when the voice level or the
    motion level grows, it is 0 at (0,0) and 1 at (1,1); the same holds
    when every literal and operation is rounded to double precision. *)
Theorem combined_level_monotone :
  (forall (self : whatsappfinal.IntegratedStressDetector) (d d' : bool)
          (v v' m m' : Q),
     0 <= v <= 1 -> 0 <= v' <= 1 -> 0 <= m <= 1 -> 0 <= m' <= 1 ->
     v <= v' -> m <= m' ->
     whatsappfinal.combined_level_of
       (whatsappfinal.analyze_combined_stress self d v m) <=
     whatsappfinal.combined_level_of
       (whatsappfinal.analyze_combined_stress self d' v' m') /\
     rounded.combined_level rounded.binary64 v m <=
     rounded.combined_level rounded.binary64 v' m') /\
  (forall self d,
     whatsappfinal.combined_level_of
       (whatsappfinal.analyze_combined_stress self d 0 0) == 0) /\
  (forall self d,
     whatsappfinal.combined_level_of
       (whatsappfinal.analyze_combined_stress self d 1 1) == 1) /\
  rounded.combined_level rounded.binary64 0 0 == 0 /\
  rounded.combined_level rounded.binary64 1 1 == 1.
Proof.
  split; [|split; [|split; [|split]]].
  - intros self d d' v v' m m' Hv _ Hm _ Hvv Hmm. split.
    + rewrite !analyze_combined_stress_components.
      unfold whatsappfinal.combined_level_of. cbn [fst snd]. lra.
    + apply rounded_combined_level_monotone; try tauto.
      * exact binary64_monotone.
      * reflexivity.
  - intros. reflexivity.
  - intros. reflexivity.
  - vm_compute. reflexivity.
  - vm_compute. reflexivity.
Qed.

Lemma combined_level_monotone_witness :
  whatsappfinal.combined_level_of
    (whatsappfinal.analyze_combined_stress whatsappfinal.init false 0.2 0.5) <=
  whatsappfinal.combined_level_of
    (whatsappfinal.analyze_combined_stress whatsappfinal.init true 0.6 0.8) /\
  rounded.combined_level rounded.binary64 0.2 0.5 <=
  rounded.combined_level rounded.binary64 0.6 0.8.
Proof.
  apply (proj1 combined_level_monotone
           whatsappfinal.init false true 0.2 0.6 0.5 0.8); lra.
Defined.

(** ** The action decision of [run_detection] *)

Section ActionDecision.

Import whatsappfinal.

(** Thresholds are read-only attributes: a run leaves them alone. *)
Lemma init_configured : Spec.configured init.
Proof. split; reflexivity. Qed.

Lemma run_detection_configured self w self' calls :
  Spec.configured self ->
  run_detection self w = Py.Returns (self', calls) ->
  Spec.configured self'.
Proof.
  intros Hc. unfold run_detection.
  destruct (detect_stress w) as [[[d a] desc]|e]; cbn [Py.bind]; [|discriminate].
  rewrite analyze_combined_stress_components.
  unfold _handle_stress_detection.
  destruct (_ >=? panic_threshold self);
    [|destruct (_ >=? high_stress_threshold self)];
    try destruct (get_location_by_geocoder w);
    intros H; injection H as <- <-; exact Hc.
Qed.

(** As the class stands, the extractor attribute is missing and the
    voice analysis reports the error triple. *)
Lemma detect_stress_without_extractor (w : collaborators) :
  extract_features w = Py.Raises Py.AttributeError ->
  detect_stress w = Py.Returns (false, 0.0, "Error in stress detection").
Proof. intros H. unfold detect_stress. now rewrite H. Qed.

Lemma detect_stress_failed (w : collaborators) :
  extract_features w = Py.Returns None \/
  (exists e, extract_features w = Py.Raises e) ->
  exists desc, detect_stress w = Py.Returns (false, 0.0, desc).
Proof.
  intros [H|[e H]]; unfold detect_stress; rewrite H; cbn; eauto.
Qed.

End ActionDecision.

(** C1. The decision is taken from the number: with the thresholds of
    [__init__], [is_panic] holds exactly when the combined level is at least
    0.7 and [is_high_stress] exactly when it is at least 0.5; a level from
    0.7 below 0.9 is named High Stress and still flagged as panic.
    [run_detection] always completes, and it enters the handler that looks
    the location up and opens the map exactly when one of the two flags
    holds, with the panic argument exactly on [is_panic]; the map itself is
    opened when, in addition, the lookup gave a location. *)
Theorem trigger_decided_by_numeric_level :
  forall self : whatsappfinal.IntegratedStressDetector,
    Spec.configured self ->
    (forall d a m,
       let t := whatsappfinal.analyze_combined_stress self d a m in
       (whatsappfinal.is_panic_of t = true <->
          0.7 <= whatsappfinal.combined_level_of t) /\
       (whatsappfinal.is_high_stress_of t = true <->
          0.5 <= whatsappfinal.combined_level_of t) /\
       (0.7 <= whatsappfinal.combined_level_of t < 0.9 ->
          whatsappfinal.description_in t = "High Stress" /\
          whatsappfinal.is_panic_of t = true)) /\
    (forall w : whatsappfinal.collaborators,
     exists d a desc self' calls,
       whatsappfinal.detect_stress w = Py.Returns (d, a, desc) /\
       whatsappfinal.run_detection self w = Py.Returns (self', calls) /\
       let t :=
         whatsappfinal.analyze_combined_stress self d a
           (whatsappfinal.analyze_stress w) in
       whatsappfinal.combined_stress_level (whatsappfinal.self_results self') =
         whatsappfinal.combined_level_of t /\
       whatsappfinal.panic_detected (whatsappfinal.self_results self') =
         whatsappfinal.is_panic_of t /\
       ((exists b, In (whatsappfinal.Handle_stress_detection b) calls) <->
          (whatsappfinal.is_high_stress_of t = true \/
           whatsappfinal.is_panic_of t = true)) /\
       (In whatsappfinal.Get_location_by_geocoder calls <->
          (whatsappfinal.is_high_stress_of t = true \/
           whatsappfinal.is_panic_of t = true)) /\
       ((exists l, In (whatsappfinal.Open_google_maps l) calls) <->
          ((whatsappfinal.is_high_stress_of t = true \/
            whatsappfinal.is_panic_of t = true) /\
           whatsappfinal.get_location_by_geocoder w <> None)) /\
       (In (whatsappfinal.Handle_stress_detection true) calls <->
          whatsappfinal.is_panic_of t = true)).
Proof.
  intros self [Hp Hh]. split.
  - intros d a m t. subst t.
    rewrite analyze_combined_stress_components.
    unfold whatsappfinal.is_panic_of, whatsappfinal.is_high_stress_of,
      whatsappfinal.combined_level_of, whatsappfinal.description_in.
    cbn [fst snd]. rewrite Hp, Hh.
    split; [apply ge_iff|]. split; [apply ge_iff|].
    intros H. split; [apply description_of_high; exact H|].
    apply ge_iff. lra.
  - intros w.
    destruct (detect_stress_total w) as (d & a & desc & Hd).
    exists d, a, desc.
    unfold whatsappfinal.run_detection. rewrite Hd. cbn [Py.bind].
    rewrite analyze_combined_stress_components.
    unfold whatsappfinal.is_panic_of, whatsappfinal.is_high_stress_of,
      whatsappfinal.combined_level_of, whatsappfinal._handle_stress_detection.
    cbn [fst snd]. rewrite Hp, Hh.
    set (level := a * 0.4 + whatsappfinal.analyze_stress w * 0.6).
    destruct (level >=? 0.7) eqn:E7; destruct (level >=? 0.5) eqn:E5;
      destruct (whatsappfinal.get_location_by_geocoder w) as [l|] eqn:El;
      py_cmp; try lra;
      do 2 eexists; (split; [reflexivity|]); (split; [reflexivity|]);
      cbn [whatsappfinal.self_results whatsappfinal.set_results
           whatsappfinal.set_location_data
           whatsappfinal.combined_stress_level whatsappfinal.panic_detected
           In];
      (split; [reflexivity|]); (split; [reflexivity|]);
      repeat split; intros;
      repeat match goal with
             | H : exists _, _ |- _ => destruct H
             | H : _ /\ _ |- _ => destruct H
             | H : _ \/ _ |- _ => destruct H
             | H : False |- _ => destruct H
             end;
      try discriminate; try congruence; eauto.
Qed.

Lemma trigger_decided_by_numeric_level_witness :
  let t := whatsappfinal.analyze_combined_stress whatsappfinal.init false 0.6 0.8 in
  (whatsappfinal.is_panic_of t = true <->
     0.7 <= whatsappfinal.combined_level_of t) /\
  (whatsappfinal.is_high_stress_of t = true <->
     0.5 <= whatsappfinal.combined_level_of t) /\
  (0.7 <= whatsappfinal.combined_level_of t < 0.9 ->
     whatsappfinal.description_in t = "High Stress" /\
     whatsappfinal.is_panic_of t = true).
Proof.
  apply (proj1 (trigger_decided_by_numeric_level whatsappfinal.init
                  (conj eq_refl eq_refl)) false 0.6 0.8).
Defined.

(** C7. A failed feature extraction (the extractor returns nothing or
    raises) makes the voice modality absent: [detect_stress] returns level
    0 and "not stressed" instead of raising, in the integrated detector and
    in the indicator detector alike, and [run_detection] still completes
    with the combined level computed from level 0.  With one modality at 0
    the fusion stays computable: voice 0.9 and motion 0 combine to 0.36,
    Mild Stress, with neither flag raised. *)
Theorem failed_extraction_is_absent_modality :
  (forall w : whatsappfinal.collaborators,
     whatsappfinal.extract_features w = Py.Returns None \/
     (exists e, whatsappfinal.extract_features w = Py.Raises e) ->
     (exists desc,
        whatsappfinal.detect_stress w = Py.Returns (false, 0.0, desc)) /\
     (forall self, exists self' calls,
        whatsappfinal.run_detection self w = Py.Returns (self', calls) /\
        whatsappfinal.audio_stress_detected (whatsappfinal.self_results self') = false /\
        whatsappfinal.audio_stress_level (whatsappfinal.self_results self') = 0.0 /\
        whatsappfinal.combined_stress_level (whatsappfinal.self_results self') ==
          0 * 0.4 + whatsappfinal.analyze_stress w * 0.6)) /\
  (forall e : Py.exn, mic_final.detect_stress (Py.Raises e) = Py.Returns false) /\
  (forall self d,
     let t := whatsappfinal.analyze_combined_stress self d 0.9 0 in
     whatsappfinal.combined_level_of t == 0.9 * 0.4 + 0 * 0.6 /\
     whatsappfinal.combined_level_of t == 0.36 /\
     whatsappfinal.description_in t = "Mild Stress") /\
  (let t := whatsappfinal.analyze_combined_stress whatsappfinal.init false 0.9 0 in
   whatsappfinal.is_panic_of t = false /\
   whatsappfinal.is_high_stress_of t = false).
Proof.
  split; [|split; [|split]].
  - intros w Hfail.
    destruct (detect_stress_failed w Hfail) as [desc Hd].
    split; [eauto|].
    intros self. unfold whatsappfinal.run_detection.
    rewrite Hd. cbn [Py.bind].
    rewrite analyze_combined_stress_components.
    unfold whatsappfinal._handle_stress_detection.
    destruct (_ >=? whatsappfinal.panic_threshold self);
      [|destruct (_ >=? whatsappfinal.high_stress_threshold self)];
      try destruct (whatsappfinal.get_location_by_geocoder w);
      do 2 eexists; (split; [reflexivity|]);
      cbn [whatsappfinal.self_results whatsappfinal.set_results
           whatsappfinal.set_location_data
           whatsappfinal.audio_stress_detected
           whatsappfinal.audio_stress_level
           whatsappfinal.combined_stress_level];
      (split; [reflexivity|]); (split; [reflexivity|]); lra.
  - intros e. reflexivity.
  - intros self d t. subst t.
    rewrite analyze_combined_stress_components.
    unfold whatsappfinal.combined_level_of, whatsappfinal.description_in.
    cbn [fst snd]. repeat split.
  - split; reflexivity.
Qed.

Lemma failed_extraction_is_absent_modality_witness :
  let w := {| whatsappfinal.extract_features := Py.Raises Py.AttributeError;
              whatsappfinal.analyze_stress := 0.4;
              whatsappfinal.get_location_by_geocoder := None |} in
  (exists desc,
     whatsappfinal.detect_stress w = Py.Returns (false, 0.0, desc)) /\
  (forall self, exists self' calls,
     whatsappfinal.run_detection self w = Py.Returns (self', calls) /\
     whatsappfinal.audio_stress_detected (whatsappfinal.self_results self') = false /\
     whatsappfinal.audio_stress_level (whatsappfinal.self_results self') = 0.0 /\
     whatsappfinal.combined_stress_level (whatsappfinal.self_results self') ==
       0 * 0.4 + whatsappfinal.analyze_stress w * 0.6).
Proof.
  intros w.
  apply (proj1 failed_extraction_is_absent_modality w).
  right. exists Py.AttributeError. reflexivity.
Defined.

(** ** The indicator detectors *)

Section Indicators.

Import mic_final.

Lemma stress_indicators_count (f : features) :
  stress_indicators f = Spec.count_true (Spec.audio_indicators f).
Proof.
  unfold stress_indicators, Spec.audio_indicators.
  destruct (pitch_mean f >? 150), (energy_mean f >? 0.7),
    (zcr_mean f >? 0.1), (spectral_centroid_mean f >? 2000);
    reflexivity.
Qed.

Lemma detect_stress_quorum (f : features) :
  detect_stress (Py.Returns f) =
    Py.Returns (2 <=? Spec.count_true (Spec.audio_indicators f))%nat.
Proof.
  unfold detect_stress, extract_features. cbn [Py.try_except].
  now rewrite stress_indicators_count.
Qed.

Lemma motion_stress_indicators_count (d : motion_data) (m c k : Q) :
  mouse_movement_rate d = Some m ->
  mouse_click_rate d = Some c ->
  key_press_rate d = Some k ->
  motion_stress_indicators d =
    Py.Returns (Spec.count_true (Spec.motion_indicators m c k)).
Proof.
  intros Hm Hc Hk.
  unfold motion_stress_indicators, Spec.motion_indicators.
  rewrite Hm, Hc, Hk. cbn [getitem Py.bind].
  destruct (m >? 10), (c >? 2), (k >? 5); reflexivity.
Qed.

(** Tracking events touch the counters only. *)
Lemma track_start_time (events : list input_event) (d : motion_data) :
  start_time (fold_left track events d) = start_time d.
Proof.
  revert d. induction events as [|ev events IH]; intros d; [reflexivity|].
  cbn [fold_left]. rewrite IH.
  destruct ev as [|[]|]; reflexivity.
Qed.

End Indicators.

(** C4. The audio detector declares stress exactly when at least 2 of its
    4 tests hold (2 holding gives stressed, 1 holding gives not stressed);
    the activity detector declares stress exactly when at least 1 of its 3
    tests holds. *)
Theorem indicator_quorums :
  (forall computed : Py.outcome mic_final.features,
   exists b,
     mic_final.detect_stress computed = Py.Returns b /\
     (b = true <->
      exists f, computed = Py.Returns f /\
                (2 <= Spec.count_true (Spec.audio_indicators f))%nat)) /\
  (forall f,
     Spec.count_true (Spec.audio_indicators f) = 2%nat ->
     mic_final.detect_stress (Py.Returns f) = Py.Returns true) /\
  (forall f,
     Spec.count_true (Spec.audio_indicators f) = 1%nat ->
     mic_final.detect_stress (Py.Returns f) = Py.Returns false) /\
  (forall (d : mic_final.motion_data) (m c k : Q),
     mic_final.mouse_movement_rate d = Some m ->
     mic_final.mouse_click_rate d = Some c ->
     mic_final.key_press_rate d = Some k ->
     exists b,
       mic_final.analyze_motion_data d = Py.Returns b /\
       (b = true <-> (1 <= Spec.count_true (Spec.motion_indicators m c k))%nat)).
Proof.
  split; [|split; [|split]].
  - intros [f|e].
    + rewrite detect_stress_quorum. eexists. split; [reflexivity|].
      rewrite Nat.leb_le. split.
      * intros H. exists f. split; [reflexivity|exact H].
      * intros (f' & Hf & H). injection Hf as <-. exact H.
    + exists false. split; [reflexivity|].
      split; [discriminate|]. intros (f & Hf & _). discriminate.
  - intros f H. rewrite detect_stress_quorum, H. reflexivity.
  - intros f H. rewrite detect_stress_quorum, H. reflexivity.
  - intros d m c k Hm Hc Hk.
    unfold mic_final.analyze_motion_data.
    rewrite (motion_stress_indicators_count d m c k Hm Hc Hk).
    cbn [Py.bind]. eexists. split; [reflexivity|].
    apply Nat.leb_le.
Qed.

Lemma indicator_quorums_witness :
  mic_final.detect_stress
    (Py.Returns {| mic_final.pitch_mean := 200; mic_final.energy_mean := 0.9;
                   mic_final.zcr_mean := 0.05;
                   mic_final.spectral_centroid_mean := 1000 |}) =
    Py.Returns true /\
  mic_final.detect_stress
    (Py.Returns {| mic_final.pitch_mean := 200; mic_final.energy_mean := 0.3;
                   mic_final.zcr_mean := 0.05;
                   mic_final.spectral_centroid_mean := 1000 |}) =
    Py.Returns false /\
  exists b,
    mic_final.analyze_motion_data
      {| mic_final.mouse_movements := 60; mic_final.mouse_clicks := 5;
         mic_final.key_presses := 10;
         mic_final.start_time := Some 0; mic_final.end_time := Some 10;
         mic_final.mouse_movement_rate := Some 6;
         mic_final.mouse_click_rate := Some 0.5;
         mic_final.key_press_rate := Some 1 |} = Py.Returns b /\
    (b = true <-> (1 <= Spec.count_true (Spec.motion_indicators 6 0.5 1))%nat).
Proof.
  split; [|split].
  - apply (proj1 (proj2 indicator_quorums)). reflexivity.
  - apply (proj1 (proj2 (proj2 indicator_quorums))). reflexivity.
  - apply (proj2 (proj2 (proj2 indicator_quorums))); reflexivity.
Defined.

(** C5. Each test of the indicator detectors holds exactly when the raw
    value is strictly above its cutoff (pitch 150, energy 0.7,
    zero-crossing rate 0.1, spectral centroid 2000; movement rate 10,
    click rate 2, key-press rate 5), so a value equal to the cutoff does
    not count; the counters of [detect_stress] and [analyze_motion_data]
    are the numbers of tests that hold. *)
Theorem indicators_strictly_above_cutoff :
  (forall f : mic_final.features,
   exists i1 i2 i3 i4 : bool,
     Spec.audio_indicators f = [i1; i2; i3; i4] /\
     mic_final.stress_indicators f = Spec.count_true [i1; i2; i3; i4] /\
     (i1 = true <-> 150 < mic_final.pitch_mean f) /\
     (i2 = true <-> 0.7 < mic_final.energy_mean f) /\
     (i3 = true <-> 0.1 < mic_final.zcr_mean f) /\
     (i4 = true <-> 2000 < mic_final.spectral_centroid_mean f) /\
     (mic_final.pitch_mean f == 150 -> i1 = false) /\
     (mic_final.energy_mean f == 0.7 -> i2 = false) /\
     (mic_final.zcr_mean f == 0.1 -> i3 = false) /\
     (mic_final.spectral_centroid_mean f == 2000 -> i4 = false)) /\
  (forall (d : mic_final.motion_data) (m c k : Q),
     mic_final.mouse_movement_rate d = Some m ->
     mic_final.mouse_click_rate d = Some c ->
     mic_final.key_press_rate d = Some k ->
     exists j1 j2 j3 : bool,
       Spec.motion_indicators m c k = [j1; j2; j3] /\
       mic_final.motion_stress_indicators d =
         Py.Returns (Spec.count_true [j1; j2; j3]) /\
       (j1 = true <-> 10 < m) /\
       (j2 = true <-> 2 < c) /\
       (j3 = true <-> 5 < k) /\
       (m == 10 -> j1 = false) /\
       (c == 2 -> j2 = false) /\
       (k == 5 -> j3 = false)).
Proof.
  split.
  - intros f. do 4 eexists.
    split; [reflexivity|].
    split; [apply stress_indicators_count|].
    repeat match goal with |- _ /\ _ => split end;
      try apply gt_iff;
      intros H; apply gt_false_iff; lra.
  - intros d m c k Hm Hc Hk. do 3 eexists.
    split; [reflexivity|].
    split; [apply (motion_stress_indicators_count d m c k Hm Hc Hk)|].
    repeat match goal with |- _ /\ _ => split end;
      try apply gt_iff;
      intros H; apply gt_false_iff; lra.
Qed.

Lemma indicators_strictly_above_cutoff_witness :
  exists j1 j2 j3 : bool,
    Spec.motion_indicators 10 2.5 5 = [j1; j2; j3] /\
    mic_final.motion_stress_indicators
      {| mic_final.mouse_movements := 100; mic_final.mouse_clicks := 25;
         mic_final.key_presses := 50;
         mic_final.start_time := Some 0; mic_final.end_time := Some 10;
         mic_final.mouse_movement_rate := Some 10;
         mic_final.mouse_click_rate := Some 2.5;
         mic_final.key_press_rate := Some 5 |} =
      Py.Returns (Spec.count_true [j1; j2; j3]) /\
    (j1 = true <-> 10 < 10) /\
    (j2 = true <-> 2 < 2.5) /\
    (j3 = true <-> 5 < 5) /\
    (10 == 10 -> j1 = false) /\
    (2.5 == 2 -> j2 = false) /\
    (5 == 5 -> j3 = false).
Proof.
  apply (proj2 indicators_strictly_above_cutoff); reflexivity.
Defined.

(** C10. [stop_motion_tracking] never divides by a duration that is not
    strictly positive: for a window opened by [start_motion_tracking] and
    any events and both clock readings, it returns; the three rates are 0
    when the duration is zero or negative (where an unguarded division by
    a zero duration raises [ZeroDivisionError]) and count/duration when it
    is positive. *)
Theorem stop_motion_tracking_division_guarded :
  forall (start now : Q) (events : list mic_final.input_event),
    let d := fold_left mic_final.track events (mic_final.start_motion_tracking start) in
    let duration := now - start in
    exists d',
      mic_final.stop_motion_tracking d now = Py.Returns d' /\
      (duration <= 0 ->
         mic_final.mouse_movement_rate d' = Some 0 /\
         mic_final.mouse_click_rate d' = Some 0 /\
         mic_final.key_press_rate d' = Some 0) /\
      (0 < duration ->
         mic_final.mouse_movement_rate d' =
           Some (inject_Z (mic_final.mouse_movements d) / duration) /\
         mic_final.mouse_click_rate d' =
           Some (inject_Z (mic_final.mouse_clicks d) / duration) /\
         mic_final.key_press_rate d' =
           Some (inject_Z (mic_final.key_presses d) / duration)) /\
      (duration == 0 ->
         forall count,
           Py.truediv (inject_Z count) duration = Py.Raises Py.ZeroDivisionError).
Proof.
  intros start now events d duration.
  unfold mic_final.stop_motion_tracking.
  assert (Hs : mic_final.start_time d = Some start)
    by (subst d; now rewrite track_start_time).
  rewrite Hs. cbn [mic_final.total_seconds Py.bind].
  fold duration.
  destruct (duration >? 0) eqn:E; py_cmp.
  - rewrite !truediv_returns by lra. cbn [Py.bind].
    eexists. split; [reflexivity|].
    cbn [mic_final.mouse_movement_rate mic_final.mouse_click_rate
         mic_final.key_press_rate].
    split; [intros; lra|]. split; [intros; repeat split|].
    intros; lra.
  - cbn [Py.bind]. eexists. split; [reflexivity|].
    cbn [mic_final.mouse_movement_rate mic_final.mouse_click_rate
         mic_final.key_press_rate].
    split; [intros; repeat split|]. split; [intros; lra|].
    intros H0 count. now apply truediv_zero.
Qed.

Lemma stop_motion_tracking_division_guarded_witness :
  exists d',
    mic_final.stop_motion_tracking
      (fold_left mic_final.track
         [mic_final.On_move; mic_final.On_click true; mic_final.On_press]
         (mic_final.start_motion_tracking 5)) 5 = Py.Returns d' /\
    mic_final.mouse_movement_rate d' = Some 0 /\
    mic_final.mouse_click_rate d' = Some 0 /\
    mic_final.key_press_rate d' = Some 0.
Proof.
  destruct (stop_motion_tracking_division_guarded 5 5
              [mic_final.On_move; mic_final.On_click true; mic_final.On_press])
    as (d' & Hr & Hz & _ & _).
  exists d'. split; [exact Hr|].
  apply Hz. discriminate.
Defined.

(** ** Worked scenarios *)

Section Scenarios.

Import mic_final.

(** Pitch alone above its cutoff: one indicator, not stressed. *)
Example scenario_one_indicator :
  detect_stress
    (Py.Returns {| pitch_mean := 200; energy_mean := 0.3; zcr_mean := 0.05;
                   spectral_centroid_mean := 1000 |}) = Py.Returns false.
Proof. reflexivity. Qed.

(** All four descriptors above their cutoffs: stressed. *)
Example scenario_four_indicators :
  detect_stress
    (Py.Returns {| pitch_mean := 200; energy_mean := 0.9; zcr_mean := 0.2;
                   spectral_centroid_mean := 3000 |}) = Py.Returns true.
Proof. reflexivity. Qed.

(** Voice 0.6 and motion 0.8 combine to 0.72: High Stress, both flags. *)
Example scenario_high_stress_panic :
  let t := whatsappfinal.analyze_combined_stress whatsappfinal.init true 0.6 0.8 in
  whatsappfinal.combined_level_of t == 0.72 /\
  whatsappfinal.description_in t = "High Stress" /\
  whatsappfinal.is_panic_of t = true /\
  whatsappfinal.is_high_stress_of t = true.
Proof. repeat split. Qed.

(** A ten-second window with 60 moves, 5 clicks and 10 key presses: rates
    6, 0.5 and 1 per second, no indicator, not stressed. *)
Example scenario_quiet_window :
  let events :=
    repeat On_move 60 ++ repeat (On_click true) 5 ++ repeat On_press 10 in
  exists d,
    stop_motion_tracking (fold_left track events (start_motion_tracking 0)) 10 =
      Py.Returns d /\
    (exists m c k,
       mouse_movement_rate d = Some m /\ m == 6 /\
       mouse_click_rate d = Some c /\ c == 0.5 /\
       key_press_rate d = Some k /\ k == 1) /\
    analyze_motion_data d = Py.Returns false.
Proof.
  eexists. split; [vm_compute; reflexivity|].
  split; [|reflexivity].
  do 3 eexists. cbn [mouse_movement_rate mouse_click_rate key_press_rate].
  repeat split.
Qed.

(** The points that the statements name, evaluated on hardware floats. *)
Example float64_named_points :
  float64.description_of 0 = "Calm" /\
  float64.description_of 0.3 = "Mild Stress" /\
  float64.description_of 1 = "Panic" /\
  float64.description_of (float64.combined_level 0.9 0) = "Mild Stress" /\
  float64.description_of (float64.combined_level 0.6 0.8) = "High Stress" /\
  (0.7 <=? float64.combined_level 0.6 0.8)%float = true.
Proof. repeat split; vm_compute; reflexivity. Qed.

End Scenarios.

(** ** Strings and dictionaries *)

Section PyStrFacts.

Import PyStr.

Lemma split_not_nil (sep : ascii) (s : string) : split sep s <> [].
Proof.
  destruct s as [|c rest]; cbn; [discriminate|].
  destruct (Ascii.eqb c sep); [discriminate|].
  destruct (split sep rest); discriminate.
Qed.

Lemma split_length (sep : ascii) (s : string) :
  List.length (split sep s) = S (count sep s).
Proof.
  induction s as [|c rest IH]; [reflexivity|].
  cbn [split count]. destruct (Ascii.eqb c sep).
  - cbn. now rewrite IH.
  - pose proof (split_not_nil sep rest) as Hn.
    destruct (split sep rest) as [|piece pieces]; [contradiction|].
    cbn in *. exact IH.
Qed.

Lemma join_cons (sep a b : string) (rest : list string) :
  join sep (a :: b :: rest) = (a ++ sep ++ join sep (b :: rest))%string.
Proof. reflexivity. Qed.

(** Joining the pieces with the separator gives the text back. *)
Lemma join_split (sep : ascii) (s : string) :
  join (String sep EmptyString) (split sep s) = s.
Proof.
  induction s as [|c rest IH]; [reflexivity|].
  cbn [split]. destruct (Ascii.eqb c sep) eqn:E.
  - apply Ascii.eqb_eq in E. subst c.
    pose proof (split_not_nil sep rest) as Hn.
    destruct (split sep rest) as [|piece pieces]; [contradiction|].
    rewrite join_cons, IH. reflexivity.
  - pose proof (split_not_nil sep rest) as Hn.
    destruct (split sep rest) as [|piece pieces]; [contradiction|].
    destruct pieces as [|piece' pieces].
    + cbn [join] in *. now rewrite IH.
    + rewrite join_cons in *. rewrite <- IH. reflexivity.
Qed.

Lemma contains_count (c : ascii) (s : string) :
  contains c s = true <-> (0 < count c s)%nat.
Proof.
  induction s as [|c' rest IH]; cbn [contains count].
  - split; [discriminate | lia].
  - destruct (Ascii.eqb c' c); cbn; [split; [lia | reflexivity]|].
    exact IH.
Qed.

(** No piece of a split contains the separator. *)
Lemma split_pieces_clean (sep : ascii) (s : string) :
  Forall (fun piece => count sep piece = 0%nat) (split sep s).
Proof.
  induction s as [|c rest IH]; cbn [split].
  - constructor; [reflexivity | constructor].
  - destruct (Ascii.eqb c sep) eqn:E.
    + constructor; [reflexivity | exact IH].
    + pose proof (split_not_nil sep rest) as Hn.
      destruct (split sep rest) as [|piece pieces]; [contradiction|].
      inversion IH as [|? ? Hp Hps]; subst.
      constructor; [|exact Hps].
      cbn [count]. rewrite E. exact Hp.
Qed.

(** Unpacking into two names succeeds exactly on one separator, and the
    two pieces put the text back together. *)
Lemma unpack2_split (sep : ascii) (s : string) :
  (count sep s = 1%nat ->
   exists a b,
     unpack2 (split sep s) = Py.Returns (a, b) /\
     (a ++ String sep b)%string = s) /\
  (count sep s <> 1%nat ->
   unpack2 (split sep s) = Py.Raises (Py.OtherError "ValueError")).
Proof.
  pose proof (split_length sep s) as Hl.
  pose proof (join_split sep s) as Hj.
  destruct (split sep s) as [|a [|b [|c rest]]]; cbn in Hl.
  - discriminate.
  - split; [intros H; lia | reflexivity].
  - split; [|intros H; lia].
    intros _. exists a, b. split; [reflexivity|].
    cbn [join] in Hj. exact Hj.
  - split; [intros H; lia | reflexivity].
Qed.

Lemma count_app (c : ascii) (s t : string) :
  count c (s ++ t)%string = (count c s + count c t)%nat.
Proof.
  induction s as [|c' rest IH]; [reflexivity|].
  cbn [String.append count]. rewrite IH. lia.
Qed.

Lemma append_assoc (s t u : string) :
  ((s ++ t) ++ u)%string = (s ++ (t ++ u))%string.
Proof.
  induction s as [|c rest IH]; [reflexivity|].
  cbn [String.append]. now rewrite IH.
Qed.

End PyStrFacts.

(** ** Opening the map *)

Section OpenGoogleMaps.

Import PyDict location.

Lemma getitem_some (d : dict) (key v : string) :
  lookup d key = Some v -> getitem d key = Py.Returns v.
Proof. intros H. unfold getitem. now rewrite H. Qed.

Lemma getitem_none (d : dict) (key : string) :
  lookup d key = None -> getitem d key = Py.Raises (Py.KeyError key).
Proof. intros H. unfold getitem. now rewrite H. Qed.

Lemma count_empty_loc (loc : string) :
  PyStr.count ","%char loc = 1%nat -> String.eqb loc "" = false.
Proof. destruct loc; [discriminate | reflexivity]. Qed.

(** The map address is the fixed prefix, the ['loc'] text as it stands,
    the key and the zoom. *)
Lemma maps_url_of_pieces (key loc lat lng : string) :
  (lat ++ String ","%char lng)%string = loc ->
  ("https://www.google.com/maps/search/?api=1&query="
   ++ lat ++ "," ++ lng ++ "&key=" ++ key ++ "&zoom=15")%string =
  ("https://www.google.com/maps/search/?api=1&query="
   ++ loc ++ "&key=" ++ key ++ "&zoom=15")%string.
Proof.
  intros <-. f_equal. rewrite append_assoc. reflexivity.
Qed.

(** What [open_google_maps] does on a dictionary that has a ['loc']. *)
Lemma open_google_maps_with_loc key w kv d loc :
  lookup (kv :: d) "loc" = Some loc ->
  open_google_maps key w (Some (kv :: d)) =
    if String.eqb loc "" then IO.ret false
    else
      match PyStr.unpack2 (PyStr.split ","%char loc) with
      | Py.Raises _ => IO.ret false
      | Py.Returns (lat, lng) =>
          match lookup (kv :: d) "city", lookup (kv :: d) "region",
                lookup (kv :: d) "country" with
          | Some _, Some _, Some _ =>
              let maps_url :=
                ("https://www.google.com/maps/search/?api=1&query="
                 ++ lat ++ "," ++ lng ++ "&key=" ++ key ++ "&zoom=15")%string in
              ([IO.Browser_open maps_url],
               match webbrowser_open w maps_url with
               | Py.Returns _ => Py.Returns true
               | Py.Raises _ => Py.Returns false
               end)
          | _, _, _ => IO.ret false
          end
      end.
Proof.
  intros Hloc. unfold open_google_maps.
  rewrite (getitem_some _ _ _ Hloc). cbn [IO.lift IO.bind].
  destruct (IO.ret false) as [t0 r0] eqn:E0. cbn [app].
  destruct (String.eqb loc "") eqn:El.
  - rewrite <- E0. reflexivity.
  - rewrite <- E0. clear E0 t0 r0.
    destruct (PyStr.unpack2 (PyStr.split ","%char loc)) as [[lat lng]|e];
      [|reflexivity].
    cbn [IO.lift IO.bind IO.try_except app].
    unfold getitem.
    destruct (lookup (kv :: d) "city"); [|reflexivity].
    destruct (lookup (kv :: d) "region"); [|reflexivity].
    destruct (lookup (kv :: d) "country"); [|reflexivity].
    cbn [IO.lift IO.bind IO.try_except IO.emit app].
    destruct (webbrowser_open w _); reflexivity.
Qed.

End OpenGoogleMaps.


(** X2. [open_google_maps] raises only on a non-empty dictionary without
    ['loc'], and then [KeyError] before any call; with a ['loc'] that is
    empty or has no comma or several, such as ["N/A"], and with no
    dictionary or an empty one, it returns [False] and calls nothing. *)
Theorem open_google_maps_refuses :
  forall (key : string) (w : location.world),
    (forall location_data e,
       IO.result (location.open_google_maps key w location_data) = Py.Raises e <->
       exists kv d,
         location_data = Some (kv :: d) /\
         PyDict.lookup (kv :: d) "loc" = None /\
         e = Py.KeyError "loc") /\
    (forall location_data e,
       IO.result (location.open_google_maps key w location_data) = Py.Raises e ->
       IO.calls (location.open_google_maps key w location_data) = []) /\
    location.open_google_maps key w None = ([], Py.Returns false) /\
    location.open_google_maps key w (Some []) = ([], Py.Returns false) /\
    (forall d loc,
       PyDict.lookup d "loc" = Some loc ->
       PyStr.count ","%char loc <> 1%nat ->
       location.open_google_maps key w (Some d) = ([], Py.Returns false)).
Proof.
  intros key w.
  assert (Hraise : forall location_data e,
    IO.result (location.open_google_maps key w location_data) = Py.Raises e ->
    exists kv d,
      location_data = Some (kv :: d) /\
      PyDict.lookup (kv :: d) "loc" = None /\
      e = Py.KeyError "loc").
  { intros ld e. destruct ld as [[|kv d]|]; try discriminate.
    destruct (PyDict.lookup (kv :: d) "loc") as [loc|] eqn:Hloc.
    - rewrite (open_google_maps_with_loc key w kv d loc Hloc).
      destruct (String.eqb loc ""); [discriminate|].
      destruct (PyStr.unpack2 _) as [[lat lng]|e']; [|discriminate].
      destruct (PyDict.lookup (kv :: d) "city"); [|discriminate].
      destruct (PyDict.lookup (kv :: d) "region"); [|discriminate].
      destruct (PyDict.lookup (kv :: d) "country"); [|discriminate].
      cbn. destruct (location.webbrowser_open w _); discriminate.
    - unfold location.open_google_maps.
      rewrite (getitem_none _ _ Hloc). cbn.
      intros H. injection H as <-. eauto. }
  split; [|split; [|split; [|split]]].
  - intros ld e. split; [apply Hraise|].
    intros (kv & d & -> & Hloc & ->).
    unfold location.open_google_maps.
    now rewrite (getitem_none _ _ Hloc).
  - intros ld e H.
    destruct (Hraise ld e H) as (kv & d & -> & Hloc & ->).
    unfold location.open_google_maps.
    now rewrite (getitem_none _ _ Hloc).
  - reflexivity.
  - reflexivity.
  - intros d loc Hloc Hc.
    destruct d as [|kv d]; [reflexivity|].
    rewrite (open_google_maps_with_loc key w kv d loc Hloc).
    destruct (String.eqb loc ""); [reflexivity|].
    now rewrite (proj2 (unpack2_split ","%char loc) Hc).
Qed.

Lemma open_google_maps_refuses_witness :
  location.open_google_maps "k"
    {| location.ipinfo := Py.Returns [];
       location.geocode := Py.Raises Py.TypeError;
       location.geocoder_ip := Py.Raises Py.TypeError;
       location.webbrowser_open := fun _ => Py.Returns tt;
       location.format_float := fun _ => "0";
       location.float_of := fun _ => Py.Returns 0;
       location.write_page := Py.Returns "p";
       location.typed := Py.Returns "";
       location.clipboard := Py.Returns "";
       location.typed_again := Py.Returns "";
       location.platform_system := "Linux";
       location.gpsd_position := Py.Raises Py.TypeError;
       location.osascript := Py.Raises Py.TypeError |}
    (Some [("city", "N/A"); ("loc", "N/A")]) = ([], Py.Returns false).
Proof.
  apply (proj2 (proj2 (proj2 (proj2 (open_google_maps_refuses _ _)))))
    with (loc := "N/A"); [reflexivity | discriminate].
Defined.

(** ** Looking the location up *)

Section LocationLookup.

Import PyDict location.

Lemma get_location_by_ip_unfold (w : world) :
  get_location_by_ip w =
    ([IO.Http_get "https://ipinfo.io/json"],
     match ipinfo w with
     | Py.Returns data =>
         Py.Returns
           (Some [("city", get data "city" "N/A");
                  ("region", get data "region" "N/A");
                  ("country", get data "country" "N/A");
                  ("loc", get data "loc" "N/A");
                  ("ip", get data "ip" "N/A");
                  ("org", get data "org" "N/A");
                  ("timezone", get data "timezone" "N/A")])
     | Py.Raises _ => Py.Returns None
     end).
Proof.
  unfold get_location_by_ip. destruct (ipinfo w); reflexivity.
Qed.

Lemma get_location_by_ip_returns (w : world) :
  exists r, IO.result (get_location_by_ip w) = Py.Returns r.
Proof.
  rewrite get_location_by_ip_unfold. cbn. destruct (ipinfo w); eauto.
Qed.

(** A handler that returns makes the whole [try] return. *)
Lemma try_except_returns {A : Type} (m : IO.io A) (h : Py.exn -> IO.io A) :
  (forall e, exists r, IO.result (h e) = Py.Returns r) ->
  exists r, IO.result (IO.try_except m h) = Py.Returns r.
Proof.
  intros Hh. destruct m as [t [a|e]]; cbn; [eauto|].
  destruct (Hh e) as [r Hr]. destruct (h e) as [t' r']. cbn in *. eauto.
Qed.

Lemma last_cons {A : Type} (a d : A) (l : list A) :
  last (a :: l) d = last l a.
Proof.
  revert a d. induction l as [|b l IH]; intros a d; [reflexivity|].
  change (last (a :: b :: l) d) with (last (b :: l) d).
  now rewrite !IH.
Qed.

(** The loop over the components keeps, for each of the three names, the
    last component that reaches its branch. *)
Lemma scan_components (components : list component) (city region country : string) :
  fold_left scan_component components (city, region, country) =
    (last (map long_name
             (filter (fun c => PyStr.member "locality" (types c)
                               || PyStr.member "administrative_area_level_2" (types c))
                components)) city,
     last (map long_name
             (filter (fun c => negb (PyStr.member "locality" (types c)
                                     || PyStr.member "administrative_area_level_2" (types c))
                               && PyStr.member "administrative_area_level_1" (types c))
                components)) region,
     last (map long_name
             (filter (fun c => negb (PyStr.member "locality" (types c)
                                     || PyStr.member "administrative_area_level_2" (types c))
                               && negb (PyStr.member "administrative_area_level_1" (types c))
                               && PyStr.member "country" (types c))
                components)) country).
Proof.
  revert city region country.
  induction components as [|c components IH]; intros city region country;
    [reflexivity|].
  cbn [fold_left filter]. unfold scan_component at 2.
  destruct (PyStr.member "locality" (types c)
            || PyStr.member "administrative_area_level_2" (types c)).
  - cbn [negb andb map]. now rewrite IH, last_cons.
  - destruct (PyStr.member "administrative_area_level_1" (types c)).
    + cbn [negb andb map]. now rewrite IH, last_cons.
    + destruct (PyStr.member "country" (types c)).
      * cbn [negb andb map]. now rewrite IH, last_cons.
      * cbn [negb andb map]. now rewrite IH.
Qed.

End LocationLookup.

(** X3. [get_location_by_ip] makes one request and never raises: a failed
    request or answer gives [None]; otherwise the dictionary has exactly
    the seven keys, each with the value of the answer or ["N/A"] when the
    answer lacks it. *)
Theorem get_location_by_ip_answer :
  forall w : location.world,
    IO.calls (location.get_location_by_ip w) =
      [IO.Http_get "https://ipinfo.io/json"] /\
    ((exists e, location.ipinfo w = Py.Raises e) ->
     IO.result (location.get_location_by_ip w) = Py.Returns None) /\
    (forall data,
       location.ipinfo w = Py.Returns data ->
       exists d,
         IO.result (location.get_location_by_ip w) = Py.Returns (Some d) /\
         PyDict.keys d =
           ["city"; "region"; "country"; "loc"; "ip"; "org"; "timezone"] /\
         forall key,
           In key (PyDict.keys d) ->
           PyDict.lookup d key = Some (PyDict.get data key "N/A")).
Proof.
  intros w. rewrite get_location_by_ip_unfold. cbn [IO.calls IO.result fst snd].
  split; [reflexivity|]. split.
  - intros [e ->]. reflexivity.
  - intros data ->. eexists. split; [reflexivity|]. split; [reflexivity|].
    intros key Hin. cbn in Hin.
    repeat (destruct Hin as [<-|Hin]; [reflexivity|]).
    contradiction.
Qed.

Lemma get_location_by_ip_answer_witness :
  let w :=
    {| location.ipinfo := Py.Returns [("city", "Pune"); ("loc", "18.52,73.85")];
       location.geocode := Py.Raises Py.TypeError;
       location.geocoder_ip := Py.Raises Py.TypeError;
       location.webbrowser_open := fun _ => Py.Returns tt;
       location.format_float := fun _ => "0";
       location.float_of := fun _ => Py.Returns 0;
       location.write_page := Py.Returns "p";
       location.typed := Py.Returns "";
       location.clipboard := Py.Returns "";
       location.typed_again := Py.Returns "";
       location.platform_system := "Linux";
       location.gpsd_position := Py.Raises Py.TypeError;
       location.osascript := Py.Raises Py.TypeError |} in
  exists d,
    IO.result (location.get_location_by_ip w) = Py.Returns (Some d) /\
    PyDict.keys d =
      ["city"; "region"; "country"; "loc"; "ip"; "org"; "timezone"] /\
    forall key,
      In key (PyDict.keys d) ->
      PyDict.lookup d key =
        Some (PyDict.get [("city", "Pune"); ("loc", "18.52,73.85")] key "N/A").
Proof.
  intros w.
  apply (proj2 (proj2 (get_location_by_ip_answer w))). reflexivity.
Defined.

(** X4. Handing the answer of [get_location_by_ip] to [open_google_maps]
    never raises.  The map is opened only when the service answered with a
    ['loc'] that has exactly one comma; when the answer has no ['loc'] the
    default ["N/A"] is refused and nothing is opened. *)
Theorem ip_location_then_map :
  forall (key : string) (w : location.world),
    let run :=
      IO.bind (location.get_location_by_ip w)
        (fun location_data => location.open_google_maps key w location_data) in
    (exists opened, IO.result run = Py.Returns opened) /\
    (IO.result run = Py.Returns true ->
     exists data loc,
       location.ipinfo w = Py.Returns data /\
       PyDict.lookup data "loc" = Some loc /\
       PyStr.count ","%char loc = 1%nat) /\
    (forall data,
       location.ipinfo w = Py.Returns data ->
       PyDict.lookup data "loc" = None ->
       run = ([IO.Http_get "https://ipinfo.io/json"], Py.Returns false)).
Proof.
  intros key w run. subst run.
  rewrite get_location_by_ip_unfold.
  destruct (location.ipinfo w) as [data|e] eqn:Hi.
  - cbn [IO.bind].
    rewrite (open_google_maps_with_loc key w
               ("city", PyDict.get data "city" "N/A")
               [("region", PyDict.get data "region" "N/A");
                ("country", PyDict.get data "country" "N/A");
                ("loc", PyDict.get data "loc" "N/A");
                ("ip", PyDict.get data "ip" "N/A");
                ("org", PyDict.get data "org" "N/A");
                ("timezone", PyDict.get data "timezone" "N/A")]
               (PyDict.get data "loc" "N/A") eq_refl).
    change (PyDict.lookup (_ :: _) "city")
      with (Some (PyDict.get data "city" "N/A")).
    change (PyDict.lookup (_ :: _) "region")
      with (Some (PyDict.get data "region" "N/A")).
    change (PyDict.lookup (_ :: _) "country")
      with (Some (PyDict.get data "country" "N/A")).
    set (loc := PyDict.get data "loc" "N/A") in *.
    destruct (String.eqb loc "") eqn:El.
    + cbn. split; [eauto|]. split; [discriminate|]. reflexivity.
    + destruct (Nat.eq_dec (PyStr.count ","%char loc) 1) as [Hc|Hc].
      * destruct (proj1 (unpack2_split ","%char loc) Hc) as (lat & lng & Hu & Hj).
        rewrite Hu. cbv zeta. cbn [IO.result snd app].
        split; [destruct (location.webbrowser_open w _); eauto|].
        split.
        -- intros _. exists data. subst loc. unfold PyDict.get in *.
           destruct (PyDict.lookup data "loc") as [v|]; [eauto|].
           discriminate.
        -- intros data' Hd Hn. injection Hd as <-.
           subst loc. unfold PyDict.get in Hc. rewrite Hn in Hc. discriminate.
      * rewrite (proj2 (unpack2_split ","%char loc) Hc). cbn.
        split; [eauto|]. split; [discriminate|]. reflexivity.
  - cbn. split; [eauto|]. split; [discriminate|]. intros data Hd. discriminate.
Qed.

Lemma ip_location_then_map_witness :
  let w :=
    {| location.ipinfo := Py.Returns [("city", "Pune")];
       location.geocode := Py.Raises Py.TypeError;
       location.geocoder_ip := Py.Raises Py.TypeError;
       location.webbrowser_open := fun _ => Py.Returns tt;
       location.format_float := fun _ => "0";
       location.float_of := fun _ => Py.Returns 0;
       location.write_page := Py.Returns "p";
       location.typed := Py.Returns "";
       location.clipboard := Py.Returns "";
       location.typed_again := Py.Returns "";
       location.platform_system := "Linux";
       location.gpsd_position := Py.Raises Py.TypeError;
       location.osascript := Py.Raises Py.TypeError |} in
  IO.bind (location.get_location_by_ip w)
    (fun location_data => location.open_google_maps "k" w location_data) =
  ([IO.Http_get "https://ipinfo.io/json"], Py.Returns false).
Proof.
  intros w.
  apply (proj2 (proj2 (ip_location_then_map "k" w)) [("city", "Pune")]);
    reflexivity.
Defined.

(** X5. With an ["OK"] geocoding answer, [get_address_from_coordinates]
    makes one request and builds the dictionary from the first result: the
    city is the name of the last component typed [locality] or
    [administrative_area_level_2], the region that of the last component
    typed [administrative_area_level_1] among the others, the country that
    of the last one typed [country] among the rest, each ["N/A"] when there
    is none, and ['loc'] is the two coordinates joined by a comma. *)
Theorem address_from_components :
  forall (key : string) (w : location.world) (lat lng : Q)
         (data : location.geocoding) (components : list location.component)
         (others : list (list location.component)),
    location.geocode w = Py.Returns data ->
    location.status data = "OK" ->
    location.results data = components :: others ->
    location.get_address_from_coordinates key w lat lng =
      ([IO.Http_get
          ("https://maps.googleapis.com/maps/api/geocode/json?latlng="
           ++ location.format_float w lat ++ ","
           ++ location.format_float w lng ++ "&key=" ++ key)%string],
       Py.Returns
         (Some
            [("city",
              last (map location.long_name
                      (filter (fun c =>
                                 PyStr.member "locality" (location.types c)
                                 || PyStr.member "administrative_area_level_2"
                                      (location.types c))
                         components)) "N/A");
             ("region",
              last (map location.long_name
                      (filter (fun c =>
                                 negb (PyStr.member "locality" (location.types c)
                                       || PyStr.member "administrative_area_level_2"
                                            (location.types c))
                                 && PyStr.member "administrative_area_level_1"
                                      (location.types c))
                         components)) "N/A");
             ("country",
              last (map location.long_name
                      (filter (fun c =>
                                 negb (PyStr.member "locality" (location.types c)
                                       || PyStr.member "administrative_area_level_2"
                                            (location.types c))
                                 && negb (PyStr.member "administrative_area_level_1"
                                            (location.types c))
                                 && PyStr.member "country" (location.types c))
                         components)) "N/A");
             ("loc",
              (location.format_float w lat ++ ","
               ++ location.format_float w lng)%string);
             ("ip", "N/A"); ("org", "N/A"); ("timezone", "N/A")])).
Proof.
  intros key w lat lng data components others Hg Hs Hr.
  unfold location.get_address_from_coordinates.
  rewrite Hg. cbn [IO.emit IO.lift IO.bind app]. rewrite Hs, Hr.
  cbn [String.eqb Ascii.eqb Bool.eqb negb IO.lift IO.bind app].
  rewrite scan_components. reflexivity.
Qed.

Lemma address_from_components_witness :
  let w :=
    {| location.ipinfo := Py.Raises Py.TypeError;
       location.geocode :=
         Py.Returns
           {| location.status := "OK";
              location.results :=
                [[{| location.types := ["locality"; "political"];
                     location.long_name := "Pune" |};
                  {| location.types := ["administrative_area_level_1"];
                     location.long_name := "Maharashtra" |};
                  {| location.types := ["country"; "locality"];
                     location.long_name := "India" |}]] |};
       location.geocoder_ip := Py.Raises Py.TypeError;
       location.webbrowser_open := fun _ => Py.Returns tt;
       location.format_float := fun _ => "1.5";
       location.float_of := fun _ => Py.Returns 0;
       location.write_page := Py.Returns "p";
       location.typed := Py.Returns "";
       location.clipboard := Py.Returns "";
       location.typed_again := Py.Returns "";
       location.platform_system := "Linux";
       location.gpsd_position := Py.Raises Py.TypeError;
       location.osascript := Py.Raises Py.TypeError |} in
  IO.result (location.get_address_from_coordinates "k" w 1.5 1.5) =
    Py.Returns
      (Some [("city", "India"); ("region", "Maharashtra"); ("country", "N/A");
             ("loc", "1.5,1.5"); ("ip", "N/A"); ("org", "N/A");
             ("timezone", "N/A")]).
Proof.
  intros w.
  rewrite (address_from_components "k" w 1.5 1.5 _ _ [] eq_refl eq_refl eq_refl).
  reflexivity.
Defined.

(** X6. [get_address_from_coordinates] never raises.  When the geocoding
    request fails, its status is not ["OK"] or it has no result, the
    function asks [get_location_by_ip] after its one request and returns
    what that returns. *)
Theorem address_falls_back_to_ip :
  forall (key : string) (w : location.world) (lat lng : Q),
    (exists r,
       IO.result (location.get_address_from_coordinates key w lat lng) =
         Py.Returns r) /\
    ((exists e, location.geocode w = Py.Raises e) \/
     (exists data,
        location.geocode w = Py.Returns data /\
        (location.status data <> "OK" \/ location.results data = [])) ->
     location.get_address_from_coordinates key w lat lng =
       (IO.Http_get
          ("https://maps.googleapis.com/maps/api/geocode/json?latlng="
           ++ location.format_float w lat ++ ","
           ++ location.format_float w lng ++ "&key=" ++ key)%string
        :: IO.calls (location.get_location_by_ip w),
        IO.result (location.get_location_by_ip w))).
Proof.
  intros key w lat lng. split.
  - apply try_except_returns. intros e. apply get_location_by_ip_returns.
  - unfold location.get_address_from_coordinates.
    intros [[e He]|(data & Hd & Hcase)].
    + rewrite He. cbn [IO.emit IO.lift IO.bind IO.try_except app].
      destruct (location.get_location_by_ip w). reflexivity.
    + rewrite Hd. cbn [IO.emit IO.lift IO.bind app].
      destruct (String.eqb (location.status data) "OK") eqn:Es.
      * destruct Hcase as [Hs|Hr];
          [apply String.eqb_eq in Es; contradiction|].
        rewrite Hr. cbn [negb IO.lift IO.bind IO.try_except app].
        destruct (location.get_location_by_ip w). reflexivity.
      * cbn [negb].
        destruct (get_location_by_ip_returns w) as [r Hr].
        destruct (location.get_location_by_ip w) as [t o]. cbn in Hr. subst o.
        reflexivity.
Qed.

Lemma address_falls_back_to_ip_witness :
  let w :=
    {| location.ipinfo := Py.Returns [("loc", "1,2")];
       location.geocode :=
         Py.Returns {| location.status := "ZERO_RESULTS";
                       location.results := [] |};
       location.geocoder_ip := Py.Raises Py.TypeError;
       location.webbrowser_open := fun _ => Py.Returns tt;
       location.format_float := fun _ => "1.5";
       location.float_of := fun _ => Py.Returns 0;
       location.write_page := Py.Returns "p";
       location.typed := Py.Returns "";
       location.clipboard := Py.Returns "";
       location.typed_again := Py.Returns "";
       location.platform_system := "Linux";
       location.gpsd_position := Py.Raises Py.TypeError;
       location.osascript := Py.Raises Py.TypeError |} in
  IO.result (location.get_address_from_coordinates "k" w 1.5 1.5) =
  IO.result (location.get_location_by_ip w).
Proof.
  intros w.
  rewrite (proj2 (address_falls_back_to_ip "k" w 1.5 1.5)); [reflexivity|].
  right. eexists. split; [reflexivity|]. left. discriminate.
Defined.

(** X7. [get_location_by_geocoder] never raises.  When the geocoder
    answers and reports success the dictionary comes from it, without any
    request of the function's own; when it raises or reports failure the
    function does what [get_location_by_ip] does. *)
Theorem geocoder_or_ip :
  forall w : location.world,
    (exists r,
       IO.result (location.get_location_by_geocoder w) = Py.Returns r) /\
    (forall g,
       location.geocoder_ip w = Py.Returns g ->
       location.g_ok g = true ->
       location.get_location_by_geocoder w =
         ([], Py.Returns
                (Some [("city", location.g_city g);
                       ("region", location.g_state g);
                       ("country", location.g_country g);
                       ("loc", (location.g_lat g ++ "," ++ location.g_lng g)%string);
                       ("ip", location.g_ip g);
                       ("org", "N/A"); ("timezone", "N/A")]))) /\
    ((exists e, location.geocoder_ip w = Py.Raises e) \/
     (exists g, location.geocoder_ip w = Py.Returns g /\ location.g_ok g = false) ->
     location.get_location_by_geocoder w = location.get_location_by_ip w).
Proof.
  intros w. split; [|split].
  - apply try_except_returns. intros e. apply get_location_by_ip_returns.
  - intros g Hg Hok. unfold location.get_location_by_geocoder.
    rewrite Hg. cbn [IO.lift IO.bind]. rewrite Hok. reflexivity.
  - unfold location.get_location_by_geocoder.
    destruct (get_location_by_ip_returns w) as [r Hr].
    intros [[e He]|(g & Hg & Hok)].
    + rewrite He. cbn [IO.lift IO.bind IO.try_except app].
      destruct (location.get_location_by_ip w). reflexivity.
    + rewrite Hg. cbn [IO.lift IO.bind]. rewrite Hok.
      destruct (location.get_location_by_ip w) as [t o]. cbn in Hr. subst o.
      reflexivity.
Qed.

Lemma geocoder_or_ip_witness :
  let w :=
    {| location.ipinfo := Py.Returns [("loc", "1,2")];
       location.geocode := Py.Raises Py.TypeError;
       location.geocoder_ip :=
         Py.Returns {| location.g_ok := false; location.g_lat := "None";
                       location.g_lng := "None"; location.g_city := "";
                       location.g_state := ""; location.g_country := "";
                       location.g_ip := "" |};
       location.webbrowser_open := fun _ => Py.Returns tt;
       location.format_float := fun _ => "1.5";
       location.float_of := fun _ => Py.Returns 0;
       location.write_page := Py.Returns "p";
       location.typed := Py.Returns "";
       location.clipboard := Py.Returns "";
       location.typed_again := Py.Returns "";
       location.platform_system := "Linux";
       location.gpsd_position := Py.Raises Py.TypeError;
       location.osascript := Py.Raises Py.TypeError |} in
  location.get_location_by_geocoder w = location.get_location_by_ip w.
Proof.
  intros w.
  apply (proj2 (proj2 (geocoder_or_ip w))).
  right. eexists. split; reflexivity.
Defined.

Lemma open_map_for_answer (key : string) (w : location.world)
    (g : location.geocoder_answer) :
  PyStr.count ","%char (location.g_lat g) = 0%nat ->
  PyStr.count ","%char (location.g_lng g) = 0%nat ->
  let url :=
    ("https://www.google.com/maps/search/?api=1&query="
     ++ (location.g_lat g ++ "," ++ location.g_lng g)
     ++ "&key=" ++ key ++ "&zoom=15")%string in
  location.open_google_maps key w
    (Some [("city", location.g_city g);
           ("region", location.g_state g);
           ("country", location.g_country g);
           ("loc", (location.g_lat g ++ "," ++ location.g_lng g)%string);
           ("ip", location.g_ip g);
           ("org", "N/A"); ("timezone", "N/A")]) =
  ([IO.Browser_open url],
   match location.webbrowser_open w url with
   | Py.Returns _ => Py.Returns true
   | Py.Raises _ => Py.Returns false
   end).
Proof.
  intros Hlat Hlng url.
  set (loc := (location.g_lat g ++ "," ++ location.g_lng g)%string) in *.
  assert (Hc : PyStr.count ","%char loc = 1%nat).
  { subst loc. rewrite count_app. cbn [String.append PyStr.count Ascii.eqb Bool.eqb].
    rewrite Hlat, Hlng. reflexivity. }
  rewrite (open_google_maps_with_loc key w
             ("city", location.g_city g)
             [("region", location.g_state g);
              ("country", location.g_country g);
              ("loc", loc); ("ip", location.g_ip g);
              ("org", "N/A"); ("timezone", "N/A")] loc eq_refl).
  rewrite (count_empty_loc loc Hc).
  destruct (proj1 (unpack2_split ","%char loc) Hc) as (lat & lng & Hu & Hj).
  rewrite Hu.
  change (PyDict.lookup (_ :: _) "city") with (Some (location.g_city g)).
  change (PyDict.lookup (_ :: _) "region") with (Some (location.g_state g)).
  change (PyDict.lookup (_ :: _) "country") with (Some (location.g_country g)).
  cbv zeta. rewrite (maps_url_of_pieces key loc lat lng Hj).
  reflexivity.
Qed.

Lemma geocoder_answer_opens_map :
  forall (key : string) (w : location.world) (g : location.geocoder_answer),
    location.geocoder_ip w = Py.Returns g ->
    location.g_ok g = true ->
    PyStr.count ","%char (location.g_lat g) = 0%nat ->
    PyStr.count ","%char (location.g_lng g) = 0%nat ->
    let url :=
      ("https://www.google.com/maps/search/?api=1&query="
       ++ (location.g_lat g ++ "," ++ location.g_lng g)
       ++ "&key=" ++ key ++ "&zoom=15")%string in
    IO.bind (location.get_location_by_geocoder w)
      (fun location_data => location.open_google_maps key w location_data) =
    ([IO.Browser_open url],
     match location.webbrowser_open w url with
     | Py.Returns _ => Py.Returns true
     | Py.Raises _ => Py.Returns false
     end).
Proof.
  intros key w g Hg Hok Hlat Hlng url.
  unfold location.get_location_by_geocoder.
  rewrite Hg. cbn [IO.lift IO.bind IO.try_except]. rewrite Hok.
  cbn [IO.ret IO.try_except IO.bind].
  rewrite (open_map_for_answer key w g Hlat Hlng). reflexivity.
Qed.

(** X8. A successful geocoder answer whose two coordinate texts contain no
    comma always passes [open_google_maps]: one browser call, to the
    address with the query "lat,lng", and [True] unless that call
    raises. *)
Theorem geocoder_location_then_map :
  forall (key : string) (w : location.world) (g : location.geocoder_answer),
    location.geocoder_ip w = Py.Returns g ->
    location.g_ok g = true ->
    PyStr.count ","%char (location.g_lat g) = 0%nat ->
    PyStr.count ","%char (location.g_lng g) = 0%nat ->
    let url :=
      ("https://www.google.com/maps/search/?api=1&query="
       ++ (location.g_lat g ++ "," ++ location.g_lng g)
       ++ "&key=" ++ key ++ "&zoom=15")%string in
    IO.bind (location.get_location_by_geocoder w)
      (fun location_data => location.open_google_maps key w location_data) =
    ([IO.Browser_open url],
     match location.webbrowser_open w url with
     | Py.Returns _ => Py.Returns true
     | Py.Raises _ => Py.Returns false
     end).
Proof. exact geocoder_answer_opens_map. Qed.

Lemma geocoder_location_then_map_witness :
  let g :=
    {| location.g_ok := true; location.g_lat := "18.52";
       location.g_lng := "73.85"; location.g_city := "Pune";
       location.g_state := "MH"; location.g_country := "IN";
       location.g_ip := "1.2.3.4" |} in
  let w :=
    {| location.ipinfo := Py.Raises Py.TypeError;
       location.geocode := Py.Raises Py.TypeError;
       location.geocoder_ip := Py.Returns g;
       location.webbrowser_open := fun _ => Py.Returns tt;
       location.format_float := fun _ => "1.5";
       location.float_of := fun _ => Py.Returns 0;
       location.write_page := Py.Returns "p";
       location.typed := Py.Returns "";
       location.clipboard := Py.Returns "";
       location.typed_again := Py.Returns "";
       location.platform_system := "Linux";
       location.gpsd_position := Py.Raises Py.TypeError;
       location.osascript := Py.Raises Py.TypeError |} in
  IO.bind (location.get_location_by_geocoder w)
    (fun location_data => location.open_google_maps "k" w location_data) =
  ([IO.Browser_open
      "https://www.google.com/maps/search/?api=1&query=18.52,73.85&key=k&zoom=15"],
   Py.Returns true).
Proof.
  intros g w.
  apply (geocoder_location_then_map "k" w g); reflexivity.
Defined.

(** ** Coordinates typed by the user and the platform dispatch *)

Section TypedCoordinates.

Import PyDict location.

Lemma result_bind {A B : Type} (m : IO.io A) (k : A -> IO.io B) :
  IO.result (IO.bind m k) =
    match IO.result m with
    | Py.Returns a => IO.result (k a)
    | Py.Raises e => Py.Raises e
    end.
Proof.
  destruct m as [t [a|e]]; cbn; [|reflexivity].
  destruct (k a). reflexivity.
Qed.

Lemma result_try_except {A : Type} (m : IO.io A) (h : Py.exn -> IO.io A) :
  IO.result (IO.try_except m h) =
    match IO.result m with
    | Py.Returns a => Py.Returns a
    | Py.Raises e => IO.result (h e)
    end.
Proof.
  destruct m as [t [a|e]]; cbn; [reflexivity|].
  destruct (h e). reflexivity.
Qed.

Lemma result_lift {A : Type} (o : Py.outcome A) : IO.result (IO.lift o) = o.
Proof. reflexivity. Qed.

Lemma get_address_returns key w lat lng :
  exists r, IO.result (get_address_from_coordinates key w lat lng) = Py.Returns r.
Proof.
  apply try_except_returns. intros e. apply get_location_by_ip_returns.
Qed.

Lemma get_location_by_google_maps_returns key w :
  exists r, IO.result (get_location_by_google_maps key w) = Py.Returns r.
Proof.
  apply try_except_returns. intros e. apply get_location_by_ip_returns.
Qed.

Lemma split_clean (sep : ascii) (s : string) :
  PyStr.count sep s = 0%nat -> PyStr.split sep s = [s].
Proof.
  induction s as [|c rest IH]; [reflexivity|].
  cbn [PyStr.count PyStr.split].
  destruct (Ascii.eqb c sep); [discriminate|].
  intros H. rewrite IH by exact H. reflexivity.
Qed.

Lemma split_pair (sep : ascii) (a b : string) :
  PyStr.count sep a = 0%nat -> PyStr.count sep b = 0%nat ->
  PyStr.split sep (a ++ String sep b)%string = [a; b].
Proof.
  intros Ha Hb. induction a as [|c rest IH].
  - cbn [String.append PyStr.split]. rewrite Ascii.eqb_refl.
    now rewrite split_clean.
  - cbn [String.append PyStr.split PyStr.count] in *.
    destruct (Ascii.eqb c sep); [discriminate|].
    rewrite IH by exact Ha. reflexivity.
Qed.

End TypedCoordinates.

(** X9. [get_location_by_google_maps] never raises.  A typed text that is
    not empty and does not have exactly one comma ends in the IP lookup,
    whatever else happens; a text "a,b" whose two parts parse as floats
    (after stripping blanks) ends in [get_address_from_coordinates] on
    those floats. *)
Theorem typed_coordinates_validated :
  forall (key : string) (w : location.world),
    (exists r,
       IO.result (location.get_location_by_google_maps key w) = Py.Returns r) /\
    (forall text,
       location.typed w = Py.Returns text ->
       text <> "" ->
       PyStr.count ","%char text <> 1%nat ->
       IO.result (location.get_location_by_google_maps key w) =
       IO.result (location.get_location_by_ip w)) /\
    (forall path u a b lat lng,
       location.write_page w = Py.Returns path ->
       location.webbrowser_open w ("file://" ++ path)%string = Py.Returns u ->
       location.typed w = Py.Returns (a ++ "," ++ b)%string ->
       PyStr.count ","%char a = 0%nat ->
       PyStr.count ","%char b = 0%nat ->
       location.float_of w (PyStr.strip a) = Py.Returns lat ->
       location.float_of w (PyStr.strip b) = Py.Returns lng ->
       IO.result (location.get_location_by_google_maps key w) =
       IO.result (location.get_address_from_coordinates key w lat lng)).
Proof.
  intros key w. split; [apply get_location_by_google_maps_returns|]. split.
  - intros text Ht Hne Hc.
    destruct (get_location_by_ip_returns w) as [r Hr].
    unfold location.get_location_by_google_maps.
    rewrite result_try_except, result_bind, result_lift.
    destruct (location.write_page w) as [path|e]; [|reflexivity].
    rewrite result_bind. cbn [IO.emit IO.result snd].
    rewrite result_bind, result_lift.
    destruct (location.webbrowser_open w _) as [u|e]; [|reflexivity].
    rewrite result_bind, result_lift, Ht.
    assert (Ee : String.eqb text "" = false)
      by (apply String.eqb_neq; exact Hne).
    rewrite Ee, result_bind. cbn [IO.ret IO.result snd].
    rewrite Ee. cbn [orb].
    destruct (PyStr.contains ","%char text) eqn:Ec; cbn [negb].
    + rewrite result_bind, result_lift.
      rewrite (proj2 (unpack2_split ","%char text) Hc). reflexivity.
    + rewrite Hr. reflexivity.
  - intros path u a b lat lng Hw Hb Ht Ha Hbb Hlat Hlng.
    destruct (get_address_returns key w lat lng) as [r Hr].
    unfold location.get_location_by_google_maps.
    rewrite result_try_except, result_bind, result_lift, Hw.
    rewrite result_bind. cbn [IO.emit IO.result snd].
    rewrite result_bind, result_lift, Hb.
    rewrite result_bind, result_lift, Ht.
    assert (Hc : (0 < PyStr.count ","%char (a ++ "," ++ b)%string)%nat).
    { rewrite count_app. cbn. lia. }
    assert (Ee : String.eqb (a ++ "," ++ b)%string "" = false).
    { destruct a; reflexivity. }
    rewrite Ee, result_bind. cbn [IO.ret IO.result snd].
    rewrite Ee. cbn [orb].
    rewrite (proj2 (contains_count ","%char _) Hc). cbn [negb].
    rewrite result_bind, result_lift.
    change (a ++ "," ++ b)%string with (a ++ String ","%char b)%string.
    rewrite (split_pair ","%char a b Ha Hbb). cbn [PyStr.unpack2].
    rewrite result_bind, result_lift, Hlat.
    rewrite result_bind, result_lift, Hlng.
    rewrite Hr. reflexivity.
Qed.

Lemma typed_coordinates_validated_witness :
  let w :=
    {| location.ipinfo := Py.Returns [("loc", "1,2")];
       location.geocode := Py.Raises Py.TypeError;
       location.geocoder_ip := Py.Raises Py.TypeError;
       location.webbrowser_open := fun _ => Py.Returns tt;
       location.format_float := fun _ => "1.5";
       location.float_of := fun _ => Py.Returns 0;
       location.write_page := Py.Returns "p";
       location.typed := Py.Returns "12.97,77.59,10";
       location.clipboard := Py.Returns "";
       location.typed_again := Py.Returns "";
       location.platform_system := "Linux";
       location.gpsd_position := Py.Raises Py.TypeError;
       location.osascript := Py.Raises Py.TypeError |} in
  IO.result (location.get_location_by_google_maps "k" w) =
  IO.result (location.get_location_by_ip w).
Proof.
  intros w.
  apply (proj1 (proj2 (typed_coordinates_validated "k" w)) "12.97,77.59,10");
    [reflexivity | discriminate | discriminate].
Defined.

(** X10. [get_gps_location] never raises.  On Linux a position from
    [gpsd] goes to [get_address_from_coordinates], a missing [gpsd] module
    goes to the browser page and any other [gpsd] failure goes straight to
    the IP lookup; on a platform other than Linux and macOS the function
    returns what [get_location_by_google_maps] returns. *)
Theorem gps_dispatch :
  forall (key : string) (w : location.world),
    (exists r, IO.result (location.get_gps_location key w) = Py.Returns r) /\
    (location.platform_system w = "Linux" ->
     match location.gpsd_position w with
     | Py.Returns (lat, lng) =>
         IO.result (location.get_gps_location key w) =
         IO.result (location.get_address_from_coordinates key w lat lng)
     | Py.Raises e =>
         if location.is_import_error e then
           IO.result (location.get_gps_location key w) =
           IO.result (location.get_location_by_google_maps key w)
         else
           IO.result (location.get_gps_location key w) =
           IO.result (location.get_location_by_ip w)
     end) /\
    (location.platform_system w <> "Linux" ->
     location.platform_system w <> "Darwin" ->
     IO.result (location.get_gps_location key w) =
     IO.result (location.get_location_by_google_maps key w)).
Proof.
  intros key w. split; [|split].
  - apply try_except_returns. intros e. apply get_location_by_ip_returns.
  - intros Hp. unfold location.get_gps_location.
    rewrite result_try_except, Hp. cbn [String.eqb Ascii.eqb Bool.eqb].
    destruct (location.gpsd_position w) as [[lat lng]|e].
    + destruct (get_address_returns key w lat lng) as [r Hr]. now rewrite Hr.
    + destruct (location.is_import_error e).
      * destruct (get_location_by_google_maps_returns key w) as [r Hr].
        now rewrite Hr.
      * reflexivity.
  - intros Hl Hd. unfold location.get_gps_location.
    rewrite result_try_except.
    destruct (get_location_by_google_maps_returns key w) as [r Hr].
    destruct (String.eqb (location.platform_system w) "Windows");
      [now rewrite Hr|].
    apply String.eqb_neq in Hl, Hd. rewrite Hl, Hd. now rewrite Hr.
Qed.

Lemma gps_dispatch_witness :
  let w :=
    {| location.ipinfo := Py.Returns [("loc", "1,2")];
       location.geocode := Py.Raises Py.TypeError;
       location.geocoder_ip := Py.Raises Py.TypeError;
       location.webbrowser_open := fun _ => Py.Returns tt;
       location.format_float := fun _ => "1.5";
       location.float_of := fun _ => Py.Returns 0;
       location.write_page := Py.Returns "p";
       location.typed := Py.Returns "1,2";
       location.clipboard := Py.Returns "";
       location.typed_again := Py.Returns "";
       location.platform_system := "Linux";
       location.gpsd_position := Py.Raises (Py.OtherError "ConnectionRefusedError");
       location.osascript := Py.Raises Py.TypeError |} in
  IO.result (location.get_gps_location "k" w) =
  IO.result (location.get_location_by_ip w).
Proof.
  intros w.
  exact (proj1 (proj2 (gps_dispatch "k" w)) eq_refl).
Defined.

(** ** Activity windows *)

Section ActivityWindow.

Import mic_final.

(** The three counters after a list of events, from any starting point. *)
Lemma track_counters (events : list input_event) (d : motion_data) :
  let d' := fold_left track events d in
  mouse_movements d' =
    (mouse_movements d
     + Z.of_nat (List.length
         (filter (fun ev => match ev with On_move => true | _ => false end)
            events)))%Z /\
  mouse_clicks d' =
    (mouse_clicks d
     + Z.of_nat (List.length
         (filter (fun ev => match ev with On_click true => true | _ => false end)
            events)))%Z /\
  key_presses d' =
    (key_presses d
     + Z.of_nat (List.length
         (filter (fun ev => match ev with On_press => true | _ => false end)
            events)))%Z.
Proof.
  revert d. induction events as [|ev events IH]; intros d.
  - cbn. repeat split; lia.
  - cbn [fold_left]. destruct (IH (track d ev)) as (H1 & H2 & H3).
    cbv zeta. rewrite H1, H2, H3.
    destruct ev as [|[]|]; cbn [filter List.length track track_mouse_movement
      track_mouse_click track_key_press mouse_movements mouse_clicks key_presses];
      repeat split; lia.
Qed.

Lemma track_rates (events : list input_event) (d : motion_data) :
  let d' := fold_left track events d in
  mouse_movement_rate d' = mouse_movement_rate d /\
  mouse_click_rate d' = mouse_click_rate d /\
  key_press_rate d' = key_press_rate d.
Proof.
  revert d. induction events as [|ev events IH]; intros d; [now cbn|].
  cbn [fold_left]. destruct (IH (track d ev)) as (H1 & H2 & H3).
  cbv zeta. rewrite H1, H2, H3. destruct ev as [|[]|]; now cbn.
Qed.

(** A rate exceeds a threshold exactly when the count exceeds the
    threshold times the duration. *)
Lemma rate_above (count : Z) (duration threshold : Q) :
  0 < duration ->
  (inject_Z count / duration >? threshold) = true <->
  threshold * duration < inject_Z count.
Proof.
  intros Hd. rewrite gt_iff. split; intros H.
  - assert (E : inject_Z count / duration * duration == inject_Z count)
      by (field; lra).
    rewrite <- E. apply Qmult_lt_r; assumption.
  - apply Qlt_shift_div_l; [exact Hd | exact H].
Qed.

End ActivityWindow.

(** X11. During a window the three counters count the events of their
    kind since [start_motion_tracking]: every move, every key press, and
    of the clicks only the presses, a release leaving the counters as they
    are. *)
Theorem tracking_counts_events :
  forall (start : Q) (events : list mic_final.input_event),
    let d := fold_left mic_final.track events (mic_final.start_motion_tracking start) in
    mic_final.mouse_movements d =
      Z.of_nat (List.length
        (filter (fun ev => match ev with mic_final.On_move => true | _ => false end)
           events)) /\
    mic_final.mouse_clicks d =
      Z.of_nat (List.length
        (filter (fun ev => match ev with
                           | mic_final.On_click true => true
                           | _ => false
                           end) events)) /\
    mic_final.key_presses d =
      Z.of_nat (List.length
        (filter (fun ev => match ev with mic_final.On_press => true | _ => false end)
           events)) /\
    (forall d0, mic_final.track d0 (mic_final.On_click false) = d0).
Proof.
  intros start events d. subst d.
  destruct (track_counters events (mic_final.start_motion_tracking start))
    as (H1 & H2 & H3).
  cbv zeta in H1, H2, H3. rewrite H1, H2, H3.
  cbn [mic_final.start_motion_tracking mic_final.mouse_movements
       mic_final.mouse_clicks mic_final.key_presses].
  repeat split.
Qed.

Lemma window_stressed_iff :
  forall (start now : Q) (events : list mic_final.input_event),
    let d := fold_left mic_final.track events (mic_final.start_motion_tracking start) in
    let duration := now - start in
    let moves :=
      Z.of_nat (List.length
        (filter (fun ev => match ev with mic_final.On_move => true | _ => false end)
           events)) in
    let clicks :=
      Z.of_nat (List.length
        (filter (fun ev => match ev with
                           | mic_final.On_click true => true
                           | _ => false
                           end) events)) in
    let keys :=
      Z.of_nat (List.length
        (filter (fun ev => match ev with mic_final.On_press => true | _ => false end)
           events)) in
    exists d' stressed,
      mic_final.stop_motion_tracking d now = Py.Returns d' /\
      mic_final.analyze_motion_data d' = Py.Returns stressed /\
      (stressed = true <->
       0 < duration /\
       (10 * duration < inject_Z moves \/
        2 * duration < inject_Z clicks \/
        5 * duration < inject_Z keys)).
Proof.
  intros start now events d duration moves clicks keys.
  destruct (track_counters events (mic_final.start_motion_tracking start))
    as (H1 & H2 & H3).
  cbv zeta in H1, H2, H3. fold d in H1, H2, H3.
  cbn [mic_final.start_motion_tracking mic_final.mouse_movements
       mic_final.mouse_clicks mic_final.key_presses Z.add] in H1, H2, H3.
  fold moves in H1. fold clicks in H2. fold keys in H3.
  assert (Hs : mic_final.start_time d = Some start)
    by (subst d; now rewrite track_start_time).
  unfold mic_final.stop_motion_tracking.
  rewrite Hs. cbn [mic_final.total_seconds Py.bind]. fold duration.
  rewrite H1, H2, H3.
  destruct (duration >? 0) eqn:E; py_cmp.
  - rewrite !truediv_returns by lra. cbn [Py.bind].
    eexists. eexists. split; [reflexivity|].
    unfold mic_final.analyze_motion_data, mic_final.motion_stress_indicators.
    cbn [mic_final.getitem mic_final.mouse_movement_rate
         mic_final.mouse_click_rate mic_final.key_press_rate Py.bind].
    split; [reflexivity|].
    pose proof (rate_above moves duration 10 E) as R1.
    pose proof (rate_above clicks duration 2 E) as R2.
    pose proof (rate_above keys duration 5 E) as R3.
    destruct (inject_Z moves / duration >? 10);
      destruct (inject_Z clicks / duration >? 2);
      destruct (inject_Z keys / duration >? 5);
      cbn; split; intros H;
      try reflexivity; try discriminate;
      try (split; [exact E|]; intuition fail).
    destruct H as [_ [H|[H|H]]];
      [apply R1 in H | apply R2 in H | apply R3 in H]; discriminate.
  - cbn [Py.bind]. eexists. eexists. split; [reflexivity|].
    split; [reflexivity|].
    split; [discriminate|]. intros [H _]. lra.
Qed.

(** X12. A window that was started, fed any events and stopped can always
    be analysed: neither [stop_motion_tracking] nor [analyze_motion_data]
    raises.  The window is declared stressed exactly when its duration is
    positive and there were more than 10 moves, more than 2 click presses
    or more than 5 key presses per second of it. *)
Theorem window_analysis :
  forall (start now : Q) (events : list mic_final.input_event),
    let d := fold_left mic_final.track events (mic_final.start_motion_tracking start) in
    let duration := now - start in
    let moves :=
      Z.of_nat (List.length
        (filter (fun ev => match ev with mic_final.On_move => true | _ => false end)
           events)) in
    let clicks :=
      Z.of_nat (List.length
        (filter (fun ev => match ev with
                           | mic_final.On_click true => true
                           | _ => false
                           end) events)) in
    let keys :=
      Z.of_nat (List.length
        (filter (fun ev => match ev with mic_final.On_press => true | _ => false end)
           events)) in
    exists d' stressed,
      mic_final.stop_motion_tracking d now = Py.Returns d' /\
      mic_final.analyze_motion_data d' = Py.Returns stressed /\
      (stressed = true <->
       0 < duration /\
       (10 * duration < inject_Z moves \/
        2 * duration < inject_Z clicks \/
        5 * duration < inject_Z keys)).
Proof. exact window_stressed_iff. Qed.

(** X13. Outside that order the two functions raise.  Stopping a window
    that was never started, as with the initial module-level dictionary,
    raises [TypeError] at the subtraction of the times; analysing a
    dictionary without rates, as a window that is still open, raises
    [KeyError] on the first rate. *)
Theorem window_misuse_raises :
  (forall (d : mic_final.motion_data) (now : Q),
     mic_final.start_time d = None ->
     mic_final.stop_motion_tracking d now = Py.Raises Py.TypeError) /\
  (forall (now : Q) (events : list mic_final.input_event),
     mic_final.stop_motion_tracking
       (fold_left mic_final.track events mic_final.motion_data_initial) now =
     Py.Raises Py.TypeError) /\
  (forall d : mic_final.motion_data,
     mic_final.mouse_movement_rate d = None ->
     mic_final.analyze_motion_data d =
       Py.Raises (Py.KeyError "mouse_movement_rate")) /\
  (forall (start : Q) (events : list mic_final.input_event),
     mic_final.analyze_motion_data
       (fold_left mic_final.track events (mic_final.start_motion_tracking start)) =
     Py.Raises (Py.KeyError "mouse_movement_rate")).
Proof.
  assert (Hstop : forall d now,
            mic_final.start_time d = None ->
            mic_final.stop_motion_tracking d now = Py.Raises Py.TypeError).
  { intros d now H. unfold mic_final.stop_motion_tracking. now rewrite H. }
  assert (Han : forall d,
            mic_final.mouse_movement_rate d = None ->
            mic_final.analyze_motion_data d =
              Py.Raises (Py.KeyError "mouse_movement_rate")).
  { intros d H.
    unfold mic_final.analyze_motion_data, mic_final.motion_stress_indicators.
    now rewrite H. }
  split; [exact Hstop|]. split; [|split; [exact Han|]].
  - intros now events. apply Hstop. now rewrite track_start_time.
  - intros start events. apply Han.
    now rewrite (proj1 (track_rates events _)).
Qed.

Lemma window_misuse_raises_witness :
  mic_final.stop_motion_tracking mic_final.motion_data_initial 5 =
    Py.Raises Py.TypeError /\
  mic_final.analyze_motion_data (mic_final.start_motion_tracking 0) =
    Py.Raises (Py.KeyError "mouse_movement_rate").
Proof.
  split.
  - apply (proj1 window_misuse_raises). reflexivity.
  - apply (proj1 (proj2 (proj2 window_misuse_raises))). reflexivity.
Defined.

(** ** Voice level and the stored results *)

Section VoiceBounds.

Import whatsappfinal.

Lemma clip01_bounds (x : Q) : 0 <= Spec.clip01 x <= 1.
Proof.
  unfold Spec.clip01.
  destruct (Qlt_le_dec x 0); [lra|].
  destruct (Qlt_le_dec 1 x); lra.
Qed.

Lemma clip01_monotone (x y : Q) : x <= y -> Spec.clip01 x <= Spec.clip01 y.
Proof.
  intros H. unfold Spec.clip01.
  destruct (Qlt_le_dec x 0); destruct (Qlt_le_dec y 0);
    destruct (Qlt_le_dec 1 x); destruct (Qlt_le_dec 1 y); lra.
Qed.

Lemma contribution_bounds (x : Q) : 0 <= Py.min 1.0 (Py.max 0.0 x) <= 1.
Proof. rewrite min_max_clip01. apply clip01_bounds. Qed.

Lemma contribution_monotone (x y : Q) :
  x <= y -> Py.min 1.0 (Py.max 0.0 x) <= Py.min 1.0 (Py.max 0.0 y).
Proof. intros H. rewrite !min_max_clip01. now apply clip01_monotone. Qed.

(** The voice level that [detect_stress] returns for given features. *)
Lemma detect_stress_level (w : collaborators) (f : features) :
  extract_features w = Py.Returns (Some f) ->
  let level :=
    (0 + Py.min 1.0 (Py.max 0.0 ((pitch_mean f - 130) / 50))
       + Py.min 1.0 (Py.max 0.0 ((energy_mean f - 0.5) / 0.5))
       + Py.min 1.0 (Py.max 0.0 ((zcr_mean f - 0.08) / 0.12))
       + Py.min 1.0 (Py.max 0.0 ((spectral_centroid_mean f - 1800) / 700))) / 4 in
  detect_stress w = Py.Returns (level >? 0.3, level, description_of level).
Proof.
  intros Hx level.
  destruct (detect_stress_features w f Hx) as (p & e & z & s & o & Hl & Ho & H).
  rewrite stress_levels_returns in Hl. injection Hl as <- <- <- <-.
  subst o. exact H.
Qed.

Lemma detect_stress_level_bounds (w : collaborators) :
  exists stressed level desc,
    detect_stress w = Py.Returns (stressed, level, desc) /\ 0 <= level <= 1.
Proof.
  destruct (extract_features w) as [[f|]|e] eqn:Hx.
  - pose proof (detect_stress_level w f Hx) as H. cbv zeta in H.
    do 3 eexists. split; [exact H|].
    pose proof (contribution_bounds ((pitch_mean f - 130) / 50)).
    pose proof (contribution_bounds ((energy_mean f - 0.5) / 0.5)).
    pose proof (contribution_bounds ((zcr_mean f - 0.08) / 0.12)).
    pose proof (contribution_bounds ((spectral_centroid_mean f - 1800) / 700)).
    unfold Qdiv at 1 6. cbn [Qinv Qnum Qden]. lra.
  - unfold detect_stress. rewrite Hx. cbn. do 3 eexists.
    split; [reflexivity | lra].
  - unfold detect_stress. rewrite Hx. cbn. do 3 eexists.
    split; [reflexivity | lra].
Qed.

(** What one run stores and calls, given the voice analysis. *)
Lemma run_detection_given_voice self w stressed a desc :
  detect_stress w = Py.Returns (stressed, a, desc) ->
  let level := a * 0.4 + analyze_stress w * 0.6 in
  let triggered := (level >=? panic_threshold self)
                   || (level >=? high_stress_threshold self) in
  exists self' calls,
    run_detection self w = Py.Returns (self', calls) /\
    audio_stress_detected (self_results self') = stressed /\
    audio_stress_level (self_results self') = a /\
    motion_stress_level (self_results self') = analyze_stress w /\
    combined_stress_level (self_results self') = level /\
    panic_detected (self_results self') = (level >=? panic_threshold self) /\
    location_data (self_results self') =
      (if triggered then get_location_by_geocoder w
       else location_data (self_results self)) /\
    (calls = [] <-> triggered = false) /\
    (In (Handle_stress_detection true) calls <->
       (level >=? panic_threshold self) = true) /\
    (In (Handle_stress_detection false) calls <->
       (level >=? panic_threshold self) = false /\
       (level >=? high_stress_threshold self) = true).
Proof.
  intros Hd level triggered. subst triggered.
  unfold run_detection. rewrite Hd. cbn [Py.bind].
  rewrite analyze_combined_stress_components. fold level.
  unfold _handle_stress_detection.
  destruct (level >=? panic_threshold self);
    destruct (level >=? high_stress_threshold self);
    destruct (get_location_by_geocoder w) eqn:El;
    do 2 eexists; (split; [reflexivity|]);
    cbn [self_results set_results set_location_data audio_stress_detected
         audio_stress_level motion_stress_level combined_stress_level
         panic_detected location_data orb In];
    repeat split; intros;
    repeat match goal with
           | H : _ /\ _ |- _ => destruct H
           | H : _ \/ _ |- _ => destruct H
           | H : False |- _ => destruct H
           end;
    try discriminate; try congruence; auto.
Qed.

End VoiceBounds.

(** X14. With features at hand, the voice level of the integrated
    detector lies in [0,1] and the voice is declared stressed exactly
    when the level is strictly above 0.3.  At a level of exactly 0.3 the
    flag is false although the description is already "Mild Stress"; a
    stressed voice is never described as "Calm". *)
Theorem voice_level_bounds :
  forall (w : whatsappfinal.collaborators) (f : whatsappfinal.features),
    whatsappfinal.extract_features w = Py.Returns (Some f) ->
    exists stressed level desc,
      whatsappfinal.detect_stress w = Py.Returns (stressed, level, desc) /\
      0 <= level <= 1 /\
      (stressed = true <-> 0.3 < level) /\
      (level == 0.3 -> stressed = false /\ desc = "Mild Stress") /\
      (stressed = true -> desc <> "Calm").
Proof.
  intros w f Hx.
  destruct (detect_stress_level_bounds w) as (s & a & desc & Hd & Hb).
  pose proof (detect_stress_level w f Hx) as H. cbv zeta in H.
  rewrite H in Hd. injection Hd as <- <- <-.
  set (level := (0 + _ + _ + _ + _) / 4) in *.
  exists (level >? 0.3), level, (whatsappfinal.description_of level).
  split; [exact H|]. split; [exact Hb|].
  split; [apply gt_iff|]. split.
  - intros E. split; [apply gt_false_iff; lra|].
    apply description_of_mild. lra.
  - intros Hs. apply gt_iff in Hs.
    unfold whatsappfinal.description_of.
    py_case (level <? 0.3); [lra|].
    py_case (level <? 0.5); [discriminate|].
    py_case (level <? 0.7); [discriminate|].
    py_case (level <? 0.9); discriminate.
Qed.

Lemma voice_level_bounds_witness :
  let f := {| whatsappfinal.pitch_mean := 180;
              whatsappfinal.energy_mean := 0.6;
              whatsappfinal.zcr_mean := 0.05;
              whatsappfinal.spectral_centroid_mean := 1500 |} in
  let w := {| whatsappfinal.extract_features := Py.Returns (Some f);
              whatsappfinal.analyze_stress := 0;
              whatsappfinal.get_location_by_geocoder := None |} in
  exists level,
    whatsappfinal.detect_stress w = Py.Returns (false, level, "Mild Stress") /\
    level == 0.3.
Proof.
  intros f w.
  destruct (voice_level_bounds w f eq_refl)
    as (stressed & level & desc & Hd & _ & _ & Hedge & _).
  assert (E : level == 0.3).
  { unfold whatsappfinal.detect_stress in Hd. cbn in Hd.
    injection Hd as _ <- _. reflexivity. }
  destruct (Hedge E) as [-> ->].
  exists level. split; [exact Hd | exact E].
Defined.

(** X15. The voice level never decreases when a descriptor grows: for two
    feature sets with each descriptor of the second at least that of the
    first, the second level is at least the first. *)
Theorem voice_level_monotone :
  forall (w w' : whatsappfinal.collaborators) (f f' : whatsappfinal.features),
    whatsappfinal.extract_features w = Py.Returns (Some f) ->
    whatsappfinal.extract_features w' = Py.Returns (Some f') ->
    whatsappfinal.pitch_mean f <= whatsappfinal.pitch_mean f' ->
    whatsappfinal.energy_mean f <= whatsappfinal.energy_mean f' ->
    whatsappfinal.zcr_mean f <= whatsappfinal.zcr_mean f' ->
    whatsappfinal.spectral_centroid_mean f <=
      whatsappfinal.spectral_centroid_mean f' ->
    exists stressed level desc stressed' level' desc',
      whatsappfinal.detect_stress w = Py.Returns (stressed, level, desc) /\
      whatsappfinal.detect_stress w' = Py.Returns (stressed', level', desc') /\
      level <= level' /\
      (stressed = true -> stressed' = true).
Proof.
  intros w w' f f' Hx Hx' Hp He Hz Hs.
  pose proof (detect_stress_level w f Hx) as H. cbv zeta in H.
  pose proof (detect_stress_level w' f' Hx') as H'. cbv zeta in H'.
  do 6 eexists. split; [exact H|]. split; [exact H'|].
  assert (Hle :
    (0 + Py.min 1.0 (Py.max 0.0 ((whatsappfinal.pitch_mean f - 130) / 50))
       + Py.min 1.0 (Py.max 0.0 ((whatsappfinal.energy_mean f - 0.5) / 0.5))
       + Py.min 1.0 (Py.max 0.0 ((whatsappfinal.zcr_mean f - 0.08) / 0.12))
       + Py.min 1.0 (Py.max 0.0
           ((whatsappfinal.spectral_centroid_mean f - 1800) / 700))) / 4 <=
    (0 + Py.min 1.0 (Py.max 0.0 ((whatsappfinal.pitch_mean f' - 130) / 50))
       + Py.min 1.0 (Py.max 0.0 ((whatsappfinal.energy_mean f' - 0.5) / 0.5))
       + Py.min 1.0 (Py.max 0.0 ((whatsappfinal.zcr_mean f' - 0.08) / 0.12))
       + Py.min 1.0 (Py.max 0.0
           ((whatsappfinal.spectral_centroid_mean f' - 1800) / 700))) / 4).
  { assert (P : Py.min 1.0 (Py.max 0.0 ((whatsappfinal.pitch_mean f - 130) / 50))
                <= Py.min 1.0 (Py.max 0.0 ((whatsappfinal.pitch_mean f' - 130) / 50))).
    { apply contribution_monotone. unfold Qdiv. cbn [Qinv Qnum Qden]. lra. }
    assert (E : Py.min 1.0 (Py.max 0.0 ((whatsappfinal.energy_mean f - 0.5) / 0.5))
                <= Py.min 1.0 (Py.max 0.0 ((whatsappfinal.energy_mean f' - 0.5) / 0.5))).
    { apply contribution_monotone. unfold Qdiv. cbn [Qinv Qnum Qden]. lra. }
    assert (Z : Py.min 1.0 (Py.max 0.0 ((whatsappfinal.zcr_mean f - 0.08) / 0.12))
                <= Py.min 1.0 (Py.max 0.0 ((whatsappfinal.zcr_mean f' - 0.08) / 0.12))).
    { apply contribution_monotone. unfold Qdiv. cbn [Qinv Qnum Qden]. lra. }
    assert (S : Py.min 1.0 (Py.max 0.0
                  ((whatsappfinal.spectral_centroid_mean f - 1800) / 700))
                <= Py.min 1.0 (Py.max 0.0
                  ((whatsappfinal.spectral_centroid_mean f' - 1800) / 700))).
    { apply contribution_monotone. unfold Qdiv. cbn [Qinv Qnum Qden]. lra. }
    unfold Qdiv at 1 6. cbn [Qinv Qnum Qden]. lra. }
  split; [exact Hle|].
  intros Hst. apply gt_iff in Hst. apply gt_iff. lra.
Qed.

Lemma voice_level_monotone_witness :
  let f := {| whatsappfinal.pitch_mean := 140;
              whatsappfinal.energy_mean := 0.6;
              whatsappfinal.zcr_mean := 0.05;
              whatsappfinal.spectral_centroid_mean := 1500 |} in
  let f' := {| whatsappfinal.pitch_mean := 170;
               whatsappfinal.energy_mean := 0.9;
               whatsappfinal.zcr_mean := 0.1;
               whatsappfinal.spectral_centroid_mean := 1500 |} in
  let w := {| whatsappfinal.extract_features := Py.Returns (Some f);
              whatsappfinal.analyze_stress := 0;
              whatsappfinal.get_location_by_geocoder := None |} in
  let w' := {| whatsappfinal.extract_features := Py.Returns (Some f');
               whatsappfinal.analyze_stress := 0;
               whatsappfinal.get_location_by_geocoder := None |} in
  exists stressed level desc stressed' level' desc',
    whatsappfinal.detect_stress w = Py.Returns (stressed, level, desc) /\
    whatsappfinal.detect_stress w' = Py.Returns (stressed', level', desc') /\
    level <= level' /\
    (stressed = true -> stressed' = true).
Proof.
  intros f f' w w'.
  apply (voice_level_monotone w w' f f' eq_refl eq_refl); discriminate.
Defined.

(** X16. Whatever the extraction does, when the motion level is in [0,1]
    a run stores a voice level and a combined level that are in [0,1]
    too, so the weighted sum never leaves the unit interval in
    [run_detection]. *)
Theorem run_detection_levels_in_unit_interval :
  forall (self : whatsappfinal.IntegratedStressDetector)
         (w : whatsappfinal.collaborators),
    0 <= whatsappfinal.analyze_stress w <= 1 ->
    exists self' calls,
      whatsappfinal.run_detection self w = Py.Returns (self', calls) /\
      0 <= whatsappfinal.audio_stress_level (whatsappfinal.self_results self') <= 1 /\
      whatsappfinal.motion_stress_level (whatsappfinal.self_results self') =
        whatsappfinal.analyze_stress w /\
      0 <= whatsappfinal.combined_stress_level (whatsappfinal.self_results self') <= 1.
Proof.
  intros self w Hm.
  destruct (detect_stress_level_bounds w) as (s & a & desc & Hd & Ha).
  destruct (run_detection_given_voice self w s a desc Hd)
    as (self' & calls & Hr & _ & Hlevel & Hmot & Hcomb & _).
  exists self', calls. rewrite Hlevel, Hmot, Hcomb.
  split; [exact Hr|]. split; [exact Ha|]. split; [reflexivity|]. lra.
Qed.

Lemma run_detection_levels_in_unit_interval_witness :
  let w := {| whatsappfinal.extract_features := Py.Raises Py.AttributeError;
              whatsappfinal.analyze_stress := 0.9;
              whatsappfinal.get_location_by_geocoder := None |} in
  exists self' calls,
    whatsappfinal.run_detection whatsappfinal.init w = Py.Returns (self', calls) /\
    0 <= whatsappfinal.audio_stress_level (whatsappfinal.self_results self') <= 1 /\
    whatsappfinal.motion_stress_level (whatsappfinal.self_results self') = 0.9 /\
    0 <= whatsappfinal.combined_stress_level (whatsappfinal.self_results self') <= 1.
Proof.
  intros w.
  apply (run_detection_levels_in_unit_interval whatsappfinal.init w).
  split; discriminate.
Defined.

(** X17. When the extraction fails, as it does with the class as written,
    the combined level is 0.6 times the motion level.  For a motion level
    in [0,1] the panic branch is then never taken; the high-stress handler
    runs exactly when the motion level is at least 5/6. *)
Theorem failed_extraction_never_panics :
  forall (self : whatsappfinal.IntegratedStressDetector)
         (w : whatsappfinal.collaborators),
    Spec.configured self ->
    whatsappfinal.extract_features w = Py.Returns None \/
    (exists e, whatsappfinal.extract_features w = Py.Raises e) ->
    0 <= whatsappfinal.analyze_stress w <= 1 ->
    exists self' calls,
      whatsappfinal.run_detection self w = Py.Returns (self', calls) /\
      whatsappfinal.combined_stress_level (whatsappfinal.self_results self') ==
        whatsappfinal.analyze_stress w * 0.6 /\
      whatsappfinal.panic_detected (whatsappfinal.self_results self') = false /\
      ~ In (whatsappfinal.Handle_stress_detection true) calls /\
      (In (whatsappfinal.Handle_stress_detection false) calls <->
       5 # 6 <= whatsappfinal.analyze_stress w).
Proof.
  intros self w [Hp Hh] Hfail Hm.
  destruct (detect_stress_failed w Hfail) as [desc Hd].
  destruct (run_detection_given_voice self w false 0.0 desc Hd)
    as (self' & calls & Hr & _ & _ & _ & Hcomb & Hpanic & _ & _ & Ht & Hf).
  cbv zeta in Hcomb, Hpanic, Ht, Hf. rewrite Hp in *. rewrite Hh in *.
  assert (Enp : (0.0 * 0.4 + whatsappfinal.analyze_stress w * 0.6 >=? 0.7) = false)
    by (apply ge_false_iff; lra).
  rewrite Enp in *.
  exists self', calls. split; [exact Hr|]. rewrite Hcomb, Hpanic.
  split; [lra|]. split; [reflexivity|]. split.
  - intros Hin. apply Ht in Hin. discriminate.
  - rewrite Hf. rewrite ge_iff. split.
    + intros [_ H]. lra.
    + intros H. split; [reflexivity | lra].
Qed.

Lemma failed_extraction_never_panics_witness :
  let w := {| whatsappfinal.extract_features := Py.Raises Py.AttributeError;
              whatsappfinal.analyze_stress := 1;
              whatsappfinal.get_location_by_geocoder := None |} in
  exists self' calls,
    whatsappfinal.run_detection whatsappfinal.init w = Py.Returns (self', calls) /\
    whatsappfinal.combined_stress_level (whatsappfinal.self_results self') ==
      1 * 0.6 /\
    whatsappfinal.panic_detected (whatsappfinal.self_results self') = false /\
    ~ In (whatsappfinal.Handle_stress_detection true) calls /\
    (In (whatsappfinal.Handle_stress_detection false) calls <-> 5 # 6 <= 1).
Proof.
  intros w.
  apply (failed_extraction_never_panics whatsappfinal.init w).
  - split; reflexivity.
  - right. exists Py.AttributeError. reflexivity.
  - split; discriminate.
Defined.

(** X18. The stored location survives a run that takes no action: when
    neither flag holds, [run_detection] calls nothing and leaves
    ['location_data'] as the previous run left it.  When a flag holds the
    entry becomes what the lookup returned, [None] included. *)
Theorem location_data_across_runs :
  forall (self : whatsappfinal.IntegratedStressDetector)
         (w : whatsappfinal.collaborators),
  exists self' calls,
    whatsappfinal.run_detection self w = Py.Returns (self', calls) /\
    (calls = [] ->
     whatsappfinal.location_data (whatsappfinal.self_results self') =
     whatsappfinal.location_data (whatsappfinal.self_results self)) /\
    (calls <> [] ->
     whatsappfinal.location_data (whatsappfinal.self_results self') =
     whatsappfinal.get_location_by_geocoder w /\
     In whatsappfinal.Get_location_by_geocoder calls) /\
    whatsappfinal.panic_threshold self' = whatsappfinal.panic_threshold self /\
    whatsappfinal.high_stress_threshold self' =
      whatsappfinal.high_stress_threshold self.
Proof.
  intros self w.
  destruct (detect_stress_total w) as (s & a & desc & Hd).
  unfold whatsappfinal.run_detection. rewrite Hd. cbn [Py.bind].
  rewrite analyze_combined_stress_components.
  unfold whatsappfinal._handle_stress_detection.
  destruct (_ >=? whatsappfinal.panic_threshold self);
    [|destruct (_ >=? whatsappfinal.high_stress_threshold self)];
    try destruct (whatsappfinal.get_location_by_geocoder w) eqn:El;
    do 2 eexists; (split; [reflexivity|]);
    cbn [whatsappfinal.self_results whatsappfinal.set_results
         whatsappfinal.set_location_data whatsappfinal.location_data
         whatsappfinal.panic_threshold whatsappfinal.high_stress_threshold In];
    repeat split; intros; try discriminate; try congruence; auto.
Qed.

(** ** The chat loop *)

Section ChatLoop.

Import chatbot.

Lemma sent_app (t t' : list IO.call) : sent (t ++ t') = sent t ++ sent t'.
Proof.
  induction t as [|c t IH]; [reflexivity|].
  destruct c; cbn [app sent]; now rewrite IH.
Qed.

(** One exchange sends the text once and never raises. *)
Lemma exchange (respond : list string -> string -> Py.outcome string)
    (history : list string) (text : string) :
  let m :=
    IO.try_except
      (IO.bind (IO.emit (IO.Send_message text))
         (fun _ => IO.bind (IO.lift (respond history text))
                     (fun response => IO.emit (IO.Show response))))
      (fun e => IO.ret tt) in
  IO.result m = Py.Returns tt /\ sent (IO.calls m) = [text].
Proof.
  cbn. destruct (respond history text); cbn; split; reflexivity.
Qed.

Lemma chat_loop_step respond history line lines :
  PyStr.member (PyStr.lower (PyStr.strip line)) ["quit"; "exit"; "bye"] = false ->
  IO.result (chat_loop respond history (line :: lines)) =
    IO.result (chat_loop respond (history ++ [PyStr.strip line]) lines) /\
  sent (IO.calls (chat_loop respond history (line :: lines))) =
    PyStr.strip line
    :: sent (IO.calls (chat_loop respond (history ++ [PyStr.strip line]) lines)).
Proof.
  intros Hq. cbn [chat_loop]. cbv zeta. rewrite Hq.
  destruct (exchange respond history (PyStr.strip line)) as [Hr Hs].
  cbv zeta in Hr, Hs.
  destruct (IO.try_except _ _) as [t o]. cbn in Hr, Hs. subst o.
  cbn [IO.bind].
  destruct (chat_loop respond (history ++ [PyStr.strip line]) lines) as [t' o'].
  cbn [IO.result IO.calls fst snd]. split; [reflexivity|].
  now rewrite sent_app, Hs.
Qed.

Lemma chat_loop_until_quit respond (before : list string) :
  forall (history : list string) (word : string) (after : list string),
    Forall (fun line =>
              PyStr.member (PyStr.lower (PyStr.strip line))
                ["quit"; "exit"; "bye"] = false) before ->
    PyStr.member (PyStr.lower (PyStr.strip word)) ["quit"; "exit"; "bye"] = true ->
    IO.result (chat_loop respond history (before ++ word :: after)) =
      Py.Returns tt /\
    sent (IO.calls (chat_loop respond history (before ++ word :: after))) =
      map PyStr.strip before.
Proof.
  induction before as [|line before IH]; intros history word after Hb Hw.
  - cbn [app chat_loop]. cbv zeta. rewrite Hw. split; reflexivity.
  - inversion Hb as [|? ? Hl Hb']; subst.
    cbn [app map].
    destruct (chat_loop_step respond history line (before ++ word :: after) Hl)
      as [Hr Hs].
    destruct (IH (history ++ [PyStr.strip line]) word after Hb' Hw) as [Hr' Hs'].
    rewrite Hr, Hs, Hr', Hs'. split; reflexivity.
Qed.

Lemma chat_loop_eof respond (lines : list string) :
  forall history : list string,
    Forall (fun line =>
              PyStr.member (PyStr.lower (PyStr.strip line))
                ["quit"; "exit"; "bye"] = false) lines ->
    IO.result (chat_loop respond history lines) = Py.Raises EOFError /\
    sent (IO.calls (chat_loop respond history lines)) = map PyStr.strip lines.
Proof.
  induction lines as [|line lines IH]; intros history Hl.
  - split; reflexivity.
  - inversion Hl as [|? ? Hq Hl']; subst. cbn [map].
    destruct (chat_loop_step respond history line lines Hq) as [Hr Hs].
    destruct (IH (history ++ [PyStr.strip line]) Hl') as [Hr' Hs'].
    rewrite Hr, Hs, Hr', Hs'. split; reflexivity.
Qed.

End ChatLoop.

(** X19. The chat loop sends every line before the first quit word to the
    model, stripped of surrounding blanks and in order, once each, whether
    or not a send fails, and sends nothing after it: a line is a quit word
    when, stripped and lowered, it is "quit", "exit" or "bye".  The loop
    then ends normally; when the lines run out without a quit word it ends
    in [EOFError], all lines having been sent. *)
Theorem chat_sends_until_quit :
  forall (respond : list string -> string -> Py.outcome string),
    (forall (before : list string) (word : string) (after : list string),
       Forall (fun line =>
                 PyStr.member (PyStr.lower (PyStr.strip line))
                   ["quit"; "exit"; "bye"] = false) before ->
       PyStr.member (PyStr.lower (PyStr.strip word)) ["quit"; "exit"; "bye"] = true ->
       IO.result (chatbot.chat_with_gemini respond (before ++ word :: after)) =
         Py.Returns tt /\
       chatbot.sent
         (IO.calls (chatbot.chat_with_gemini respond (before ++ word :: after))) =
         map PyStr.strip before) /\
    (forall lines : list string,
       Forall (fun line =>
                 PyStr.member (PyStr.lower (PyStr.strip line))
                   ["quit"; "exit"; "bye"] = false) lines ->
       IO.result (chatbot.chat_with_gemini respond lines) =
         Py.Raises chatbot.EOFError /\
       chatbot.sent (IO.calls (chatbot.chat_with_gemini respond lines)) =
         map PyStr.strip lines).
Proof.
  intros respond. unfold chatbot.chat_with_gemini. split.
  - intros before word after. apply chat_loop_until_quit.
  - intros lines. apply chat_loop_eof.
Qed.

Lemma chat_sends_until_quit_witness :
  let respond :=
    fun (history : list string) (text : string) =>
      if String.eqb text "hello" then Py.Raises Py.TypeError
      else Py.Returns "ok" in
  IO.result (chatbot.chat_with_gemini respond
               ["  hello "; "how are you"; " Quit  "; "ignored"]) =
    Py.Returns tt /\
  chatbot.sent
    (IO.calls (chatbot.chat_with_gemini respond
                 ["  hello "; "how are you"; " Quit  "; "ignored"])) =
    ["hello"; "how are you"].
Proof.
  intros respond.
  apply (proj1 (chat_sends_until_quit respond)
           ["  hello "; "how are you"] " Quit  " ["ignored"]).
  - repeat constructor.
  - reflexivity.
Defined.

(** ** The loop of [main] in "mic final.py" *)

Section MainLoop.

Import mic_final mic_final_main.

Lemma main_round_returns key r :
  exists again, IO.result (main_round key r) = Py.Returns again.
Proof. apply try_except_returns. intros e. cbn. eauto. Qed.

(** A turn in which recording, saving and the two analyses return. *)
Lemma main_round_analysed key r u u' d' audio motion :
  record_audio r = Py.Returns u ->
  save_audio r = Py.Returns u' ->
  stop_motion_tracking
    (fold_left track (events r) (start_motion_tracking (started r)))
    (stopped r) = Py.Returns d' ->
  detect_stress (computed r) = Py.Returns audio ->
  analyze_motion_data d' = Py.Returns motion ->
  main_round key r =
    IO.try_except
      (IO.bind
         ([IO.Start_listeners; IO.Stop_listeners],
          Py.Returns tt)
         (fun _ =>
            IO.bind
              (if audio || motion then
                 IO.bind (location.get_location_by_geocoder (outside r))
                   (fun location_data =>
                      if PyDict.truthy location_data then
                        IO.bind
                          (location.open_google_maps key (outside r) location_data)
                          (fun _ => IO.ret tt)
                      else IO.ret tt)
               else IO.ret tt)
              (fun _ =>
                 IO.bind (IO.lift (choice r))
                   (fun choice =>
                      if negb (String.eqb (PyStr.lower choice) "y")
                      then IO.ret false else IO.ret true))))
      (fun e => IO.ret false).
Proof.
  intros Hr Hs Hstop Ha Hm. unfold main_round.
  rewrite Hr. cbn [IO.emit IO.lift IO.bind app].
  rewrite Hstop. cbn [IO.emit IO.lift IO.bind app].
  rewrite Hs. cbn [IO.emit IO.lift IO.bind app].
  rewrite Ha. cbn [IO.emit IO.lift IO.bind app].
  rewrite Hm. cbn [IO.emit IO.lift IO.bind app].
  destruct (IO.bind (if audio || motion then _ else _) _) as [t o].
  reflexivity.
Qed.

End MainLoop.

(** X20. A turn of the loop of [main] never raises.  When recording
    raises, the turn ends the loop with the listeners started and never
    stopped.  When neither the voice nor the activity is declared
    stressed, the turn looks up no location and opens no browser, and the
    loop goes on exactly when the answer, lowered, is "y". *)
Theorem main_round_outcomes :
  forall (key : string) (r : mic_final_main.round),
    (exists again,
       IO.result (mic_final_main.main_round key r) = Py.Returns again) /\
    (forall e,
       mic_final_main.record_audio r = Py.Raises e ->
       mic_final_main.main_round key r =
         ([IO.Start_listeners], Py.Returns false)) /\
    (forall u u' d' text,
       mic_final_main.record_audio r = Py.Returns u ->
       mic_final_main.save_audio r = Py.Returns u' ->
       mic_final.stop_motion_tracking
         (fold_left mic_final.track (mic_final_main.events r)
            (mic_final.start_motion_tracking (mic_final_main.started r)))
         (mic_final_main.stopped r) = Py.Returns d' ->
       mic_final.detect_stress (mic_final_main.computed r) = Py.Returns false ->
       mic_final.analyze_motion_data d' = Py.Returns false ->
       mic_final_main.choice r = Py.Returns text ->
       mic_final_main.main_round key r =
         ([IO.Start_listeners; IO.Stop_listeners],
          Py.Returns (String.eqb (PyStr.lower text) "y"))).
Proof.
  intros key r. split; [apply main_round_returns|]. split.
  - intros e He. unfold mic_final_main.main_round. rewrite He. reflexivity.
  - intros u u' d' text Hr Hs Hstop Ha Hm Hc.
    rewrite (main_round_analysed key r u u' d' false false Hr Hs Hstop Ha Hm).
    rewrite Hc. cbn [orb IO.ret IO.lift IO.bind IO.try_except app].
    destruct (String.eqb (PyStr.lower text) "y"); reflexivity.
Qed.

Lemma main_round_outcomes_witness :
  let r :=
    {| mic_final_main.started := 0;
       mic_final_main.record_audio := Py.Raises (Py.OtherError "PortAudioError");
       mic_final_main.events := [mic_final.On_move];
       mic_final_main.stopped := 5;
       mic_final_main.save_audio := Py.Returns tt;
       mic_final_main.computed := Py.Raises Py.TypeError;
       mic_final_main.outside :=
         {| location.ipinfo := Py.Raises Py.TypeError;
            location.geocode := Py.Raises Py.TypeError;
            location.geocoder_ip := Py.Raises Py.TypeError;
            location.webbrowser_open := fun _ => Py.Returns tt;
            location.format_float := fun _ => "0";
            location.float_of := fun _ => Py.Returns 0;
            location.write_page := Py.Returns "p";
            location.typed := Py.Returns "";
            location.clipboard := Py.Returns "";
            location.typed_again := Py.Returns "";
            location.platform_system := "Linux";
            location.gpsd_position := Py.Raises Py.TypeError;
            location.osascript := Py.Raises Py.TypeError |};
       mic_final_main.choice := Py.Returns "y" |} in
  mic_final_main.main_round "k" r = ([IO.Start_listeners], Py.Returns false).
Proof.
  intros r.
  apply (proj1 (proj2 (main_round_outcomes "k" r))
           (Py.OtherError "PortAudioError")).
  reflexivity.
Defined.

(** X21. In a turn where the voice or the activity is declared stressed
    and the geocoder answers successfully with comma-free coordinates, the
    browser is opened once, on the map address of those coordinates, and
    the loop still goes on exactly when the answer, lowered, is "y",
    whether or not the browser call raised. *)
Theorem stressed_round_opens_map :
  forall (key : string) (r : mic_final_main.round) u u' d' audio motion g text,
    mic_final_main.record_audio r = Py.Returns u ->
    mic_final_main.save_audio r = Py.Returns u' ->
    mic_final.stop_motion_tracking
      (fold_left mic_final.track (mic_final_main.events r)
         (mic_final.start_motion_tracking (mic_final_main.started r)))
      (mic_final_main.stopped r) = Py.Returns d' ->
    mic_final.detect_stress (mic_final_main.computed r) = Py.Returns audio ->
    mic_final.analyze_motion_data d' = Py.Returns motion ->
    audio || motion = true ->
    location.geocoder_ip (mic_final_main.outside r) = Py.Returns g ->
    location.g_ok g = true ->
    PyStr.count ","%char (location.g_lat g) = 0%nat ->
    PyStr.count ","%char (location.g_lng g) = 0%nat ->
    mic_final_main.choice r = Py.Returns text ->
    mic_final_main.main_round key r =
      ([IO.Start_listeners; IO.Stop_listeners;
        IO.Browser_open
          ("https://www.google.com/maps/search/?api=1&query="
           ++ (location.g_lat g ++ "," ++ location.g_lng g)
           ++ "&key=" ++ key ++ "&zoom=15")%string],
       Py.Returns (String.eqb (PyStr.lower text) "y")).
Proof.
  intros key r u u' d' audio motion g text
    Hr Hs Hstop Ha Hm Hstress Hg Hok Hlat Hlng Hc.
  rewrite (main_round_analysed key r u u' d' audio motion Hr Hs Hstop Ha Hm).
  rewrite Hstress, Hc.
  unfold location.get_location_by_geocoder.
  rewrite Hg. cbn [IO.lift IO.bind IO.try_except]. rewrite Hok.
  cbn [IO.ret IO.try_except IO.bind PyDict.truthy app].
  rewrite (open_map_for_answer key (mic_final_main.outside r) g Hlat Hlng).
  cbv zeta.
  destruct (location.webbrowser_open _ _);
    destruct (String.eqb (PyStr.lower text) "y"); reflexivity.
Qed.

Lemma stressed_round_opens_map_witness :
  let g :=
    {| location.g_ok := true; location.g_lat := "18.52";
       location.g_lng := "73.85"; location.g_city := "Pune";
       location.g_state := "MH"; location.g_country := "IN";
       location.g_ip := "1.2.3.4" |} in
  let r :=
    {| mic_final_main.started := 0;
       mic_final_main.record_audio := Py.Returns tt;
       mic_final_main.events := repeat mic_final.On_move 60;
       mic_final_main.stopped := 5;
       mic_final_main.save_audio := Py.Returns tt;
       mic_final_main.computed := Py.Raises Py.TypeError;
       mic_final_main.outside :=
         {| location.ipinfo := Py.Raises Py.TypeError;
            location.geocode := Py.Raises Py.TypeError;
            location.geocoder_ip := Py.Returns g;
            location.webbrowser_open := fun _ => Py.Raises Py.TypeError;
            location.format_float := fun _ => "0";
            location.float_of := fun _ => Py.Returns 0;
            location.write_page := Py.Returns "p";
            location.typed := Py.Returns "";
            location.clipboard := Py.Returns "";
            location.typed_again := Py.Returns "";
            location.platform_system := "Linux";
            location.gpsd_position := Py.Raises Py.TypeError;
            location.osascript := Py.Raises Py.TypeError |};
       mic_final_main.choice := Py.Returns "Y" |} in
  mic_final_main.main_round "k" r =
    ([IO.Start_listeners; IO.Stop_listeners;
      IO.Browser_open
        "https://www.google.com/maps/search/?api=1&query=18.52,73.85&key=k&zoom=15"],
     Py.Returns true).
Proof.
  intros g r.
  eapply (stressed_round_opens_map "k" r tt tt _ false true g "Y").
  - reflexivity.
  - reflexivity.
  - vm_compute. reflexivity.
  - reflexivity.
  - vm_compute. reflexivity.
  - reflexivity.
  - reflexivity.
  - reflexivity.
  - reflexivity.
  - reflexivity.
  - reflexivity.
Defined.

(** X22. The loop of [main] runs the turns in order up to the first one
    that breaks and nothing after it: with [n] turns that go on followed
    by a turn that breaks, exactly [n+1] turns run and the calls made are
    those of these turns.  A turn goes on only when its answer was read
    and, lowered, is "y". *)
Theorem main_loop_stops_at_first_break :
  forall (key : string),
    (forall (before : list mic_final_main.round) (r : mic_final_main.round)
            (after : list mic_final_main.round),
       Forall (fun r' =>
                 IO.result (mic_final_main.main_round key r') = Py.Returns true)
         before ->
       IO.result (mic_final_main.main_round key r) = Py.Returns false ->
       IO.result (mic_final_main.main_loop key (before ++ r :: after)) =
         Py.Returns (S (List.length before)) /\
       IO.calls (mic_final_main.main_loop key (before ++ r :: after)) =
         concat (map (fun r' => IO.calls (mic_final_main.main_round key r'))
                   (before ++ [r]))) /\
    (forall r : mic_final_main.round,
       IO.result (mic_final_main.main_round key r) = Py.Returns true ->
       exists text,
         mic_final_main.choice r = Py.Returns text /\
         PyStr.lower text = "y").
Proof.
  intros key. split.
  - intros before r after Hb Hr.
    induction before as [|r0 before IH].
    + cbn [app mic_final_main.main_loop map concat List.length].
      destruct (mic_final_main.main_round key r) as [t o].
      cbn in Hr. subst o. cbn. rewrite !app_nil_r. split; reflexivity.
    + inversion Hb as [|? ? H0 Hb']; subst.
      destruct (IH Hb') as [IHr IHc].
      cbn [app mic_final_main.main_loop map concat List.length].
      destruct (mic_final_main.main_round key r0) as [t o].
      cbn in H0. subst o. cbn [IO.bind].
      destruct (mic_final_main.main_loop key (before ++ r :: after)) as [t' o'].
      cbn in IHr, IHc. subst o'. cbn [IO.bind IO.ret IO.result IO.calls fst snd].
      rewrite app_nil_r, IHc. split; reflexivity.
  - intros r. unfold mic_final_main.main_round.
    rewrite result_try_except, result_bind. cbn [IO.emit IO.result snd].
    rewrite result_bind, result_lift.
    destruct (mic_final_main.record_audio r); [|discriminate].
    rewrite result_bind. cbn [IO.emit IO.result snd].
    rewrite result_bind, result_lift.
    destruct (mic_final.stop_motion_tracking _ _); [|discriminate].
    rewrite result_bind, result_lift.
    destruct (mic_final_main.save_audio r); [|discriminate].
    rewrite result_bind, result_lift.
    destruct (mic_final.detect_stress _); [|discriminate].
    rewrite result_bind, result_lift.
    destruct (mic_final.analyze_motion_data _); [|discriminate].
    rewrite result_bind.
    match goal with
    | |- context [IO.result (if ?c then ?x else ?y)] =>
        destruct (IO.result (if c then x else y)); [|discriminate]
    end.
    rewrite result_bind, result_lift.
    destruct (mic_final_main.choice r) as [text|e]; [|discriminate].
    destruct (String.eqb (PyStr.lower text) "y") eqn:E; [|discriminate].
    intros _. exists text. split; [reflexivity|]. now apply String.eqb_eq.
Qed.

Lemma main_loop_stops_at_first_break_witness :
  let outside :=
    {| location.ipinfo := Py.Raises Py.TypeError;
       location.geocode := Py.Raises Py.TypeError;
       location.geocoder_ip := Py.Raises Py.TypeError;
       location.webbrowser_open := fun _ => Py.Returns tt;
       location.format_float := fun _ => "0";
       location.float_of := fun _ => Py.Returns 0;
       location.write_page := Py.Returns "p";
       location.typed := Py.Returns "";
       location.clipboard := Py.Returns "";
       location.typed_again := Py.Returns "";
       location.platform_system := "Linux";
       location.gpsd_position := Py.Raises Py.TypeError;
       location.osascript := Py.Raises Py.TypeError |} in
  let goes_on :=
    {| mic_final_main.started := 0;
       mic_final_main.record_audio := Py.Returns tt;
       mic_final_main.events := [mic_final.On_move; mic_final.On_press];
       mic_final_main.stopped := 5;
       mic_final_main.save_audio := Py.Returns tt;
       mic_final_main.computed := Py.Raises Py.TypeError;
       mic_final_main.outside := outside;
       mic_final_main.choice := Py.Returns "Y" |} in
  let breaks :=
    {| mic_final_main.started := 5;
       mic_final_main.record_audio := Py.Raises (Py.OtherError "PortAudioError");
       mic_final_main.events := [];
       mic_final_main.stopped := 10;
       mic_final_main.save_audio := Py.Returns tt;
       mic_final_main.computed := Py.Raises Py.TypeError;
       mic_final_main.outside := outside;
       mic_final_main.choice := Py.Returns "y" |} in
  IO.result (mic_final_main.main_loop "k" ([goes_on] ++ breaks :: [goes_on])) =
    Py.Returns 2%nat /\
  IO.calls (mic_final_main.main_loop "k" ([goes_on] ++ breaks :: [goes_on])) =
    concat (map (fun r' => IO.calls (mic_final_main.main_round "k" r'))
              ([goes_on] ++ [breaks])).
Proof.
  intros outside goes_on breaks.
  apply (proj1 (main_loop_stops_at_first_break "k") [goes_on] breaks [goes_on]).
  - constructor; [vm_compute; reflexivity | constructor].
  - vm_compute. reflexivity.
Defined.

(** ** [main] of the integrated detector *)

(** X23. One call of [main] of the integrated detector completes at most
    two detections, the second only when the first completed and the
    answer, lowered, is "y".  Once the detector is constructed it is
    released exactly once, as the last step, whatever raised in between;
    when construction fails nothing is run or released.  The second
    detection works on the results of the first: if it takes no action,
    the location stored at the end is the one the first detection left. *)
Theorem main_runs_and_releases :
  forall s : whatsappfinal_main.session,
    (whatsappfinal_main.runs (fst (whatsappfinal_main.main s)) <= 2)%nat /\
    (whatsappfinal_main.runs (fst (whatsappfinal_main.main s)) = 2%nat ->
     exists text,
       whatsappfinal_main.choice s = Py.Returns text /\
       PyStr.lower text = "y") /\
    (forall e,
       whatsappfinal_main.construct s = Py.Raises e ->
       fst (whatsappfinal_main.main s) = []) /\
    (forall u,
       whatsappfinal_main.check_dependencies s = true \/
       (exists u', whatsappfinal_main.pip_install s = Py.Returns u') ->
       whatsappfinal_main.construct s = Py.Returns u ->
       exists before,
         fst (whatsappfinal_main.main s) = before ++ [whatsappfinal_main.Release] /\
         ~ In whatsappfinal_main.Release before) /\
    (forall u u1 u2 d1 calls1 d2 text,
       whatsappfinal_main.check_dependencies s = true ->
       whatsappfinal_main.construct s = Py.Returns u ->
       whatsappfinal_main.capture1 s = Py.Returns u1 ->
       whatsappfinal.run_detection whatsappfinal.init
         (whatsappfinal_main.observed1 s) = Py.Returns (d1, calls1) ->
       whatsappfinal_main.choice s = Py.Returns text ->
       PyStr.lower text = "y" ->
       whatsappfinal_main.capture2 s = Py.Returns u2 ->
       whatsappfinal.run_detection d1 (whatsappfinal_main.observed2 s) =
         Py.Returns (d2, []) ->
       whatsappfinal_main.main s =
         ([whatsappfinal_main.Run calls1; whatsappfinal_main.Run [];
           whatsappfinal_main.Release], Py.Returns (Some d2)) /\
       whatsappfinal.location_data (whatsappfinal.self_results d2) =
       whatsappfinal.location_data (whatsappfinal.self_results d1)).
Proof.
  intros s. split; [|split; [|split; [|split]]].
  - unfold whatsappfinal_main.main.
    destruct (whatsappfinal_main.check_dependencies s);
      [|destruct (whatsappfinal_main.pip_install s)]; cbn;
      try lia;
      (destruct (whatsappfinal_main.construct s); cbn; [|lia]);
      (destruct (whatsappfinal_main.full_run _ _ _) as [[d1 c1]|e1]; cbn; [|lia]);
      (destruct (whatsappfinal_main.choice s) as [text|e]; cbn; [|lia]);
      (destruct (String.eqb (PyStr.lower text) "y"); cbn; [|lia]);
      destruct (whatsappfinal_main.full_run _ _ _) as [[d2 c2]|e2]; cbn; lia.
  - unfold whatsappfinal_main.main.
    destruct (whatsappfinal_main.check_dependencies s);
      [|destruct (whatsappfinal_main.pip_install s)]; cbn;
      try discriminate;
      (destruct (whatsappfinal_main.construct s); cbn; [|discriminate]);
      (destruct (whatsappfinal_main.full_run _ _ _) as [[d1 c1]|e1]; cbn;
         [|discriminate]);
      (destruct (whatsappfinal_main.choice s) as [text|e]; cbn; [|discriminate]);
      (destruct (String.eqb (PyStr.lower text) "y") eqn:E; cbn; [|discriminate]);
      intros _; exists text; (split; [reflexivity | now apply String.eqb_eq]).
  - intros e He. unfold whatsappfinal_main.main. rewrite He.
    destruct (whatsappfinal_main.check_dependencies s);
      [|destruct (whatsappfinal_main.pip_install s)]; reflexivity.
  - intros u Hready Hc. unfold whatsappfinal_main.main. rewrite Hc.
    assert (Hr : exists v,
              (if whatsappfinal_main.check_dependencies s then Py.Returns tt
               else Py.try_except (whatsappfinal_main.pip_install s)
                      (fun _ => Py.Raises whatsappfinal_main.SystemExit)) =
              Py.Returns v).
    { destruct Hready as [->|[u' ->]]; [eauto|].
      destruct (whatsappfinal_main.check_dependencies s); cbn; eauto. }
    destruct Hr as [v ->].
    destruct (whatsappfinal_main.full_run _ _ _) as [[d1 c1]|e1];
      [|exists []; split; [reflexivity | intros []]].
    destruct (whatsappfinal_main.choice s) as [text|e].
    + destruct (String.eqb (PyStr.lower text) "y").
      * destruct (whatsappfinal_main.full_run _ _ _) as [[d2 c2]|e2].
        -- exists [whatsappfinal_main.Run c1; whatsappfinal_main.Run c2].
           split; [reflexivity|]. intros [H|[H|[]]]; discriminate.
        -- exists [whatsappfinal_main.Run c1].
           split; [reflexivity|]. intros [H|[]]; discriminate.
      * exists [whatsappfinal_main.Run c1].
        split; [reflexivity|]. intros [H|[]]; discriminate.
    + exists [whatsappfinal_main.Run c1].
      split; [reflexivity|]. intros [H|[]]; discriminate.
  - intros u u1 u2 d1 calls1 d2 text Hd Hc H1 Hr1 Hch Hy H2 Hr2. split.
    + unfold whatsappfinal_main.main, whatsappfinal_main.full_run.
      rewrite Hd, Hc, H1. cbn [Py.bind]. rewrite Hr1, Hch, Hy.
      cbn [String.eqb Ascii.eqb Bool.eqb]. rewrite H2. cbn [Py.bind].
      rewrite Hr2. reflexivity.
    + destruct (detect_stress_total (whatsappfinal_main.observed2 s))
        as (st & a & desc & Hdet).
      destruct (run_detection_given_voice d1 _ st a desc Hdet)
        as (d2' & calls2 & Hrun & _ & _ & _ & _ & _ & Hloc & Hcalls & _).
      rewrite Hr2 in Hrun. injection Hrun as <- <-.
      cbv zeta in Hloc, Hcalls.
      rewrite (proj1 Hcalls eq_refl) in Hloc. exact Hloc.
Qed.

Lemma main_runs_and_releases_witness :
  let quiet :=
    {| whatsappfinal.extract_features := Py.Raises Py.AttributeError;
       whatsappfinal.analyze_stress := 0.1;
       whatsappfinal.get_location_by_geocoder := None |} in
  let s :=
    {| whatsappfinal_main.check_dependencies := true;
       whatsappfinal_main.pip_install := Py.Returns tt;
       whatsappfinal_main.construct := Py.Returns tt;
       whatsappfinal_main.capture1 :=
         Py.Raises (Py.OtherError "ValueError");
       whatsappfinal_main.observed1 := quiet;
       whatsappfinal_main.choice := Py.Returns "y";
       whatsappfinal_main.capture2 := Py.Returns tt;
       whatsappfinal_main.observed2 := quiet |} in
  exists before,
    fst (whatsappfinal_main.main s) = before ++ [whatsappfinal_main.Release] /\
    ~ In whatsappfinal_main.Release before.
Proof.
  intros quiet s.
  apply (proj1 (proj2 (proj2 (proj2 (main_runs_and_releases s)))) tt).
  - left. reflexivity.
  - reflexivity.
Defined.
